(** * sistema_facturacion: catalog, offers and invoices

    A shallow embedding of [sistema_facturacion.py] and the properties of
    its offer engine, catalog, validated entities and invoices.

    Conventions of the embedding.
    - A Python [str] is a [string]; each [ascii] stands for the code point
      of the same number (the code points below 256).
    - A Python number is a [num]: an unbounded [int] or a binary64 [float].
    - A raised exception is the [Raise] outcome of a [res].
    - Objects that are compared by identity or mutated through an alias
      (products, list objects) live in stores indexed by references. *)

From Stdlib Require Import ZArith String Ascii List Floats Lia Bool.
From Stdlib Require Import DecimalString.
From stdpp Require Import base option list gmap strings.

Open Scope Z_scope.

(** ** Exceptions and outcomes *)

Inductive exn : Type :=
| ValueError
| ZeroDivisionError
| OverflowError
| NotImplementedError
| StopIteration
| FileNotFoundError
| CsvError
| KeyError
| DanglingRef   (* no Python counterpart: a reference outside its store *).

Inductive res (A : Type) : Type :=
| Ok (a : A)
| Raise (e : exn).

Arguments Ok {A} a.
Arguments Raise {A} e.

#[global] Instance res_ret : MRet res := fun A a => Ok a.
#[global] Instance res_bind : MBind res := fun A B f m =>
  match m with
  | Ok a => f a
  | Raise e => Raise e
  end.

Definition of_option {A : Type} (e : exn) (o : option A) : res A :=
  match o with
  | Some a => Ok a
  | None => Raise e
  end.

Definition is_ok {A : Type} (r : res A) : bool :=
  match r with
  | Ok _ => true
  | Raise _ => false
  end.

(** ** Numbers: Python's [int] and [float] *)

Module Num.

Inductive num : Type :=
| NInt (z : Z)
| NFloat (f : float).

(** A real of magnitude at least [2^1024 - 2^970] rounds (to nearest, ties to
    even) beyond the largest binary64 number; CPython raises [OverflowError]
    when an [int] of that size is converted or is the quotient of [/]. *)
Definition float_bound : Z := 2 ^ 1024 - 2 ^ 970.

Definition round_int (z : Z) : float :=
  SF2Prim (binary_normalize prec emax z 0 false).

(** [float(z)] for an [int]. *)
Definition float_of_int (z : Z) : res float :=
  if float_bound <=? Z.abs z then Raise OverflowError else Ok (round_int z).

Definition as_float (n : num) : res float :=
  match n with
  | NInt z => float_of_int z
  | NFloat f => Ok f
  end.

(** The quotient of two ints rounded once to the nearest binary64 number:
    the dividend is scaled so that the integer quotient has more than 55
    bits, and the lost remainder is kept as a sticky last bit. *)
Definition round_quotient (a b : Z) : float :=
  let neg := xorb (a <? 0) (b <? 0) in
  let a' := Z.abs a in
  let b' := Z.abs b in
  if a' =? 0 then SF2Prim (S754_zero neg)
  else
    let s := Z.log2 b' + 56 - Z.log2 a' in
    let n := if 0 <=? s then a' * 2 ^ s else a' in
    let d := if 0 <=? s then b' else b' * 2 ^ (- s) in
    let q := n / d in
    let m := 2 * q + (if n mod d =? 0 then 0 else 1) in
    SF2Prim (binary_normalize prec emax (if neg then - m else m) (- s - 1) neg).

(** [a / b] on two ints. *)
Definition int_truediv (a b : Z) : res float :=
  if b =? 0 then Raise ZeroDivisionError
  else if float_bound * Z.abs b <=? Z.abs a then Raise OverflowError
  else Ok (round_quotient a b).

Definition py_add (a b : num) : res num :=
  match a, b with
  | NInt x, NInt y => Ok (NInt (x + y))
  | _, _ => x ← as_float a; y ← as_float b; Ok (NFloat (x + y)%float)
  end.

Definition py_sub (a b : num) : res num :=
  match a, b with
  | NInt x, NInt y => Ok (NInt (x - y))
  | _, _ => x ← as_float a; y ← as_float b; Ok (NFloat (x - y)%float)
  end.

Definition py_mul (a b : num) : res num :=
  match a, b with
  | NInt x, NInt y => Ok (NInt (x * y))
  | _, _ => x ← as_float a; y ← as_float b; Ok (NFloat (x * y)%float)
  end.

(** [b == 0], on the operand itself: an int converts to the float zero
    exactly when it is 0. *)
Definition is_zero (b : num) : bool :=
  match b with
  | NInt z => z =? 0
  | NFloat f => (f =? 0)%float
  end.

(** True division [a / b]: the result is always a float. With a float
    among the operands both are converted first, then a zero divisor is
    refused. *)
Definition py_truediv (a b : num) : res num :=
  match a, b with
  | NInt x, NInt y => f ← int_truediv x y; Ok (NFloat f)
  | _, _ =>
      x ← as_float a; y ← as_float b;
      if is_zero b then Raise ZeroDivisionError
      else Ok (NFloat (x / y)%float)
  end.

(** Exact comparison of a float with an int, as CPython compares them:
    [None] when the float is a NaN. *)
Definition float_cmp_int (f : float) (z : Z) : option comparison :=
  match Prim2SF f with
  | S754_nan => None
  | S754_infinity s => Some (if s then Lt else Gt)
  | S754_zero _ => Some (0 ?= z)
  | S754_finite s m e =>
      let v := if s then Z.neg m else Z.pos m in
      Some (if 0 <=? e then v * 2 ^ e ?= z else v ?= z * 2 ^ (- e))
  end.

(** [a <= b]. *)
Definition py_le (a b : num) : bool :=
  match a, b with
  | NInt x, NInt y => x <=? y
  | NFloat x, NFloat y => (x <=? y)%float
  | NFloat x, NInt y =>
      match float_cmp_int x y with
      | Some Lt | Some Eq => true
      | _ => false
      end
  | NInt x, NFloat y =>
      match float_cmp_int y x with
      | Some Gt | Some Eq => true
      | _ => false
      end
  end.

(** [a == b]. *)
Definition py_eq (a b : num) : bool :=
  match a, b with
  | NInt x, NInt y => x =? y
  | NFloat x, NFloat y => (x =? y)%float
  | NFloat x, NInt y | NInt y, NFloat x =>
      match float_cmp_int x y with
      | Some Eq => true
      | _ => false
      end
  end.

End Num.
Export Num.

(** ** Strings: the [str] methods the program calls *)

Module Str.

(** [len(s)]. *)
Definition len (s : string) : nat := String.length s.

Definition chars (s : string) : list ascii := list_ascii_of_string s.

(** Among the code points below 256, [str.isdigit] holds of the ten decimal
    digits and of the superscripts U+00B2, U+00B3 and U+00B9. *)
Definition isdigit_char (c : ascii) : bool :=
  let n := nat_of_ascii c in
  ((48 <=? n) && (n <=? 57) || (n =? 178) || (n =? 179) || (n =? 185))%nat.

(** [s.isdigit()]: every character is a digit and there is at least one. *)
Definition isdigit (s : string) : bool :=
  negb (len s =? 0)%nat && forallb isdigit_char (chars s).

(** [s.replace(c, '')] for a one-character [c]. *)
Fixpoint remove_char (c : ascii) (s : string) : string :=
  match s with
  | EmptyString => EmptyString
  | String x r => if Ascii.eqb x c then remove_char c r else String x (remove_char c r)
  end.

(** [s[i] == c]; an index out of range never compares equal here, and the
    callers test the length first, as the source does. *)
Definition char_at_is (s : string) (i : nat) (c : ascii) : bool :=
  match String.get i s with
  | Some x => Ascii.eqb x c
  | None => false
  end.

(** [x in xs] for a list of strings. *)
Definition py_in (x : string) (xs : list string) : bool :=
  existsb (String.eqb x) xs.

(** [str(z)] for an int. *)
Definition str_int (z : Z) : string := NilZero.string_of_int (Z.to_int z).

(** The pieces of the format-spec language that [informe] uses. *)

Definition nl : string := String (ascii_of_nat 10) EmptyString.

Fixpoint spaces (n : nat) : string :=
  match n with
  | O => EmptyString
  | S k => String " " (spaces k)
  end.

(** [f"{s:<w}"] *)
Definition ljust (w : nat) (s : string) : string := s +:+ spaces (w - len s).

(** [f"{s:>w}"] *)
Definition rjust (w : nat) (s : string) : string := spaces (w - len s) +:+ s.

(** [n / d] rounded to the nearest integer, ties to even ([0 <= n], [0 < d]). *)
Definition round_half_even (n d : Z) : Z :=
  let q := n / d in
  match 2 * (n mod d) ?= d with
  | Lt => q
  | Gt => q + 1
  | Eq => if Z.even q then q else q + 1
  end.

(** The hundredths [h] of a magnitude, printed with two decimals. *)
Definition fixed2 (neg : bool) (h : Z) : string :=
  (if neg then "-" else "")
  +:+ str_int (h / 100) +:+ "."
  +:+ (if h mod 100 <? 10 then "0" else "") +:+ str_int (h mod 100).

(** [f"{x:.2f}"] for a float: the exact value, rounded to two decimals. *)
Definition fmt_2f (x : float) : string :=
  match Prim2SF x with
  | S754_nan => "nan"
  | S754_infinity s => if s then "-inf" else "inf"
  | S754_zero s => fixed2 s 0
  | S754_finite s m e =>
      fixed2 s (if 0 <=? e then Z.pos m * 2 ^ e * 100
                else round_half_even (Z.pos m * 100) (2 ^ (- e)))
  end.

(** [f"{n:.2f}"] for a number: an int is converted to a float first. *)
Definition fmt_num_2f (n : num) : res string :=
  x ← as_float n; Ok (fmt_2f x).

End Str.

(** ** References and stores *)

Definition loc : Type := nat.

(** [obj.attr = value] through a validating setter: the object at [l] is
    replaced when the setter returns, and the store is left as it was when
    the setter raises. *)
Definition setattr {A : Type} (setter : A -> res A) (l : loc) (σ : gmap loc A)
  : res unit * gmap loc A :=
  match σ !! l with
  | None => (Raise DanglingRef, σ)
  | Some o =>
      match setter o with
      | Ok o' => (Ok tt, <[l := o']> σ)
      | Raise e => (Raise e, σ)
      end
  end.

Definition deref {A : Type} (σ : gmap loc A) (l : loc) : res A :=
  of_option DanglingRef (σ !! l).

(** A new object: its reference is one the store does not hold yet. *)
Definition alloc {A : Type} (o : A) (σ : gmap loc A) : loc * gmap loc A :=
  let l := fresh (dom σ) in (l, <[l := o]> σ).

(** ** Producto *)

Module Producto.

Record Producto : Type := mkProducto {
  _codigo : string;
  _nombre : string;
  _precio : num;
  _tipo : string;
  _cantidad : Z
}.

Definition codigo_ok (value : string) : bool :=
  (Str.len value =? 4)%nat && Str.isdigit value.

Definition nombre_ok (value : string) : bool :=
  (1 <=? Str.len value)%nat && (Str.len value <=? 100)%nat.

Definition precio_ok (value : num) : bool :=
  py_le (NInt 10) value && py_le value (NInt 10000).

Definition tipo_ok (value : string) : bool :=
  (0 <=? Str.len value)%nat && (Str.len value <=? 20)%nat.

Definition cantidad_ok (value : Z) : bool :=
  (0 <=? value) && (value <=? 1000).

(** The property setters: each either stores the value or raises. *)
Definition set_codigo (value : string) (self : Producto) : res Producto :=
  if codigo_ok value
  then Ok (mkProducto value (_nombre self) (_precio self) (_tipo self) (_cantidad self))
  else Raise ValueError.

Definition set_nombre (value : string) (self : Producto) : res Producto :=
  if nombre_ok value
  then Ok (mkProducto (_codigo self) value (_precio self) (_tipo self) (_cantidad self))
  else Raise ValueError.

Definition set_precio (value : num) (self : Producto) : res Producto :=
  if precio_ok value
  then Ok (mkProducto (_codigo self) (_nombre self) value (_tipo self) (_cantidad self))
  else Raise ValueError.

Definition set_tipo (value : string) (self : Producto) : res Producto :=
  if tipo_ok value
  then Ok (mkProducto (_codigo self) (_nombre self) (_precio self) value (_cantidad self))
  else Raise ValueError.

Definition set_cantidad (value : Z) (self : Producto) : res Producto :=
  if cantidad_ok value
  then Ok (mkProducto (_codigo self) (_nombre self) (_precio self) (_tipo self) value)
  else Raise ValueError.

(** [Producto(codigo, nombre, precio, tipo, cantidad)]: the five setters run
    in the order of [__init__]; the first one that raises ends the
    construction and no object is returned. *)
Definition init (codigo nombre : string) (precio : num) (tipo : string) (cantidad : Z)
  : res Producto :=
  if negb (codigo_ok codigo) then Raise ValueError
  else if negb (nombre_ok nombre) then Raise ValueError
  else if negb (precio_ok precio) then Raise ValueError
  else if negb (tipo_ok tipo) then Raise ValueError
  else if negb (cantidad_ok cantidad) then Raise ValueError
  else Ok (mkProducto codigo nombre precio tipo cantidad).

(** [self.precio * self.cantidad]. *)
Definition valorTotal (self : Producto) : res num :=
  py_mul (_precio self) (NInt (_cantidad self)).

(** Every field satisfies its setter's test: what holds of any object
    that [init] returned and that was only changed through the setters. *)
Definition valido (p : Producto) : bool :=
  codigo_ok (_codigo p) && nombre_ok (_nombre p) && precio_ok (_precio p)
  && tipo_ok (_tipo p) && cantidad_ok (_cantidad p).

End Producto.

(** ** Cliente *)

Module Cliente.

Record Cliente : Type := mkCliente {
  _nombre : string;
  _cuit : string
}.

Definition nombre_ok (value : string) : bool :=
  (1 <=? Str.len value)%nat && (Str.len value <=? 100)%nat.

(** [len(value) == 13 and value[2] == '-' and value[11] == '-' and
    value.replace('-', '').isdigit()] *)
Definition cuit_ok (value : string) : bool :=
  (Str.len value =? 13)%nat
  && Str.char_at_is value 2 "-"
  && Str.char_at_is value 11 "-"
  && Str.isdigit (Str.remove_char "-" value).

Definition set_nombre (value : string) (self : Cliente) : res Cliente :=
  if nombre_ok value then Ok (mkCliente value (_cuit self)) else Raise ValueError.

Definition set_cuit (value : string) (self : Cliente) : res Cliente :=
  if cuit_ok value then Ok (mkCliente (_nombre self) value) else Raise ValueError.

Definition init (nombre cuit : string) : res Cliente :=
  if negb (nombre_ok nombre) then Raise ValueError
  else if negb (cuit_ok cuit) then Raise ValueError
  else Ok (mkCliente nombre cuit).

(** The format the error message of the setter names, [XX-XXXXXXXX-X]: 13
    characters, a hyphen at the indices 2 and 11, a digit everywhere else. *)
Fixpoint formato_desde (i : nat) (cs : list ascii) : bool :=
  match cs with
  | [] => true
  | c :: r =>
      (if ((i =? 2) || (i =? 11))%nat then Ascii.eqb c "-" else Str.isdigit_char c)
      && formato_desde (S i) r
  end.

Definition formato_cuit (value : string) : bool :=
  (Str.len value =? 13)%nat && formato_desde 0 (Str.chars value).

End Cliente.

(** ** Oferta and its two subclasses *)

Module Oferta.

(** The class of an instance; an [OfertaDescuento] carries its
    [descuento] attribute. *)
Inductive Clase : Type :=
| Base
| OfertaDescuento (descuento : num)
| Oferta2x1.

(** [codigos] and [tipos] are references to list objects. *)
Record Oferta : Type := mkOferta {
  clase : Clase;
  descripcion : string;
  codigos : loc;
  tipos : loc
}.

(** The two list objects that the defaults [codigos=[]] and [tipos=[]]
    denote: they are created once, when the [def] statement runs. *)
Definition default_codigos : loc := 0%nat.
Definition default_tipos : loc := 1%nat.

(** The list store right after the class definitions have run. *)
Definition listas_iniciales : gmap loc (list string) :=
  <[default_tipos := []]> (<[default_codigos := []]> ∅).

(** [Oferta.__init__], which both subclasses inherit: an omitted argument
    ([None] here) is bound to the default list object itself. *)
Definition init (c : Clase) (descripcion : string) (codigos tipos : option loc) : Oferta :=
  mkOferta c descripcion (default default_codigos codigos) (default default_tipos tipos).

(** The elements of the list object at [l] (none for a reference that
    the store does not hold, which no Python reference is). *)
Definition contenido (h : gmap loc (list string)) (l : loc) : list string :=
  default [] (h !! l).

(** [lista.append(x)] on the list object at [l]. *)
Definition append (l : loc) (x : string) (h : gmap loc (list string))
  : gmap loc (list string) :=
  <[l := contenido h l ++ [x]]> h.

(** [producto.codigo in self.codigos or producto.tipo in self.tipos] *)
Definition esAplicable (h : gmap loc (list string)) (self : Oferta)
  (producto : Producto.Producto) (cantidad : Z) : bool :=
  Str.py_in (Producto._codigo producto) (contenido h (codigos self))
  || Str.py_in (Producto._tipo producto) (contenido h (tipos self)).

Definition Oferta_aplicar (h : gmap loc (list string)) (self : Oferta)
  (producto : Producto.Producto) (cantidad : Z) : res num :=
  Raise NotImplementedError.

Definition OfertaDescuento_aplicar (h : gmap loc (list string)) (descuento : num)
  (self : Oferta) (producto : Producto.Producto) (cantidad : Z) : res num :=
  if esAplicable h self producto cantidad then
    bruto ← py_mul (Producto._precio producto) (NInt cantidad);
    fraccion ← py_truediv descuento (NInt 100);
    py_mul bruto fraccion
  else Ok (NInt 0).

Definition Oferta2x1_aplicar (h : gmap loc (list string)) (self : Oferta)
  (producto : Producto.Producto) (cantidad : Z) : res num :=
  if esAplicable h self producto cantidad then
    py_mul (Producto._precio producto) (NInt (cantidad / 2))
  else Ok (NInt 0).

(** [oferta.aplicar(producto, cantidad)]: the method of the instance's class. *)
Definition aplicar (h : gmap loc (list string)) (self : Oferta)
  (producto : Producto.Producto) (cantidad : Z) : res num :=
  match clase self with
  | Base => Oferta_aplicar h self producto cantidad
  | OfertaDescuento d => OfertaDescuento_aplicar h d self producto cantidad
  | Oferta2x1 => Oferta2x1_aplicar h self producto cantidad
  end.

End Oferta.

(** ** Catalogo: products, offers and the queries over them *)

Module Catalogo.

Record Catalogo : Type := mkCatalogo {
  productos : list loc;
  ofertas : list Oferta.Oferta
}.

Definition init : Catalogo := mkCatalogo [] [].

Definition agregar (self : Catalogo) (producto : loc) : Catalogo :=
  mkCatalogo (productos self ++ [producto]) (ofertas self).

(** The loop of [buscar] over the remaining products. *)
Fixpoint buscar_en (σ : gmap loc Producto.Producto) (ps : list loc) (codigo : string)
  : res (option loc) :=
  match ps with
  | [] => Ok None
  | p :: rest =>
      o ← deref σ p;
      if String.eqb (Producto._codigo o) codigo then Ok (Some p)
      else buscar_en σ rest codigo
  end.

Definition buscar (σ : gmap loc Producto.Producto) (self : Catalogo) (codigo : string)
  : res (option loc) :=
  buscar_en σ (productos self) codigo.

Definition registrarOferta (self : Catalogo) (oferta : Oferta.Oferta) : Catalogo :=
  mkCatalogo (productos self) (ofertas self ++ [oferta]).

(** The loop of [buscarOferta] over the remaining offers. *)
Fixpoint buscarOferta_en (h : gmap loc (list string)) (os : list Oferta.Oferta)
  (producto : Producto.Producto) (cantidad : Z) : option Oferta.Oferta :=
  match os with
  | [] => None
  | oferta :: rest =>
      if Oferta.esAplicable h oferta producto cantidad then Some oferta
      else buscarOferta_en h rest producto cantidad
  end.

Definition buscarOferta (h : gmap loc (list string)) (self : Catalogo)
  (producto : Producto.Producto) (cantidad : Z) : option Oferta.Oferta :=
  buscarOferta_en h (ofertas self) producto cantidad.

(** An offer object is always truthy, so [if oferta:] only tests for [None]. *)
Definition calcularDescuento (h : gmap loc (list string)) (self : Catalogo)
  (producto : Producto.Producto) (cantidad : Z) : res num :=
  match buscarOferta h self producto cantidad with
  | Some oferta => Oferta.aplicar h oferta producto cantidad
  | None => Ok (NInt 0)
  end.

Definition cantidadProductos (self : Catalogo) : Z :=
  Z.of_nat (length (productos self)).

(** The objects the catalog refers to, in list order. *)
Fixpoint objetos (σ : gmap loc Producto.Producto) (ps : list loc)
  : res (list Producto.Producto) :=
  match ps with
  | [] => Ok []
  | p :: rest => o ← deref σ p; os ← objetos σ rest; Ok (o :: os)
  end.

(** [sum(...)] over ints, from the start value [acc]. *)
Fixpoint sum_cantidad (acc : Z) (os : list Producto.Producto) : Z :=
  match os with
  | [] => acc
  | o :: rest => sum_cantidad (acc + Producto._cantidad o) rest
  end.

(** [sum(p.valorTotal() for p in ...)]: each term is computed when the sum
    reaches it and added to the running total, left to right. (CPython 3.12
    and later add floats with a compensation term; that can change the last
    bits of a float total and no outcome.) *)
Fixpoint sum_valor (acc : num) (os : list Producto.Producto) : res num :=
  match os with
  | [] => Ok acc
  | o :: rest =>
      v ← Producto.valorTotal o;
      acc' ← py_add acc v;
      sum_valor acc' rest
  end.

Definition cantidadUnidades (σ : gmap loc Producto.Producto) (self : Catalogo) : res Z :=
  os ← objetos σ (productos self); Ok (sum_cantidad 0 os).

Definition valorTotal (σ : gmap loc Producto.Producto) (self : Catalogo) : res num :=
  os ← objetos σ (productos self); sum_valor (NInt 0) os.

(** *** The report *)

(** The dict [tipos] of [informe]: keys in insertion order, each with its
    ['unidades'] and ['valor']. *)
Definition Tipos : Type := list (string * (Z * num)).

Definition tipos_has (k : string) (d : Tipos) : bool :=
  existsb (fun e => String.eqb (fst e) k) d.

(** [d[k] = f(d[k])] on the first (and only) entry of key [k]. *)
Fixpoint tipos_alter (f : Z * num -> res (Z * num)) (k : string) (d : Tipos) : res Tipos :=
  match d with
  | [] => Raise KeyError
  | e :: rest =>
      if String.eqb (fst e) k then v ← f (snd e); Ok ((fst e, v) :: rest)
      else rest' ← tipos_alter f k rest; Ok (e :: rest')
  end.

(** The body of the first loop of [informe], for one product. *)
Definition agrupar_uno (d : Tipos) (p : Producto.Producto) : res Tipos :=
  let k := Producto._tipo p in
  let d := if tipos_has k d then d else d ++ [(k, (0, NInt 0))] in
  d ← tipos_alter (fun u => Ok (fst u + Producto._cantidad p, snd u)) k d;
  vt ← Producto.valorTotal p;
  tipos_alter (fun u => v ← py_add (snd u) vt; Ok (fst u, v)) k d.

Fixpoint agrupar (d : Tipos) (os : list Producto.Producto) : res Tipos :=
  match os with
  | [] => Ok d
  | p :: rest => d' ← agrupar_uno d p; agrupar d' rest
  end.

(** The second loop: one line per category, with its average price. *)
Fixpoint informe_tipos (d : Tipos) : res string :=
  match d with
  | [] => Ok ""
  | (tipo, (unidades, valor)) :: rest =>
      precio_promedio ← py_truediv valor (NInt unidades);
      pp ← Str.fmt_num_2f precio_promedio;
      resto ← informe_tipos rest;
      Ok ("  - " +:+ Str.ljust 20 tipo +:+ ": " +:+ Str.rjust 4 (Str.str_int unidades)
          +:+ "u x $ " +:+ pp +:+ Str.nl +:+ resto)
  end.

Fixpoint informe_ofertas (os : list Oferta.Oferta) : string :=
  match os with
  | [] => ""
  | oferta :: rest => "  - " +:+ Oferta.descripcion oferta +:+ Str.nl +:+ informe_ofertas rest
  end.

(** The text of the report, from its formatted parts: the counts, the
    average price [ps], the total value [vs] and the category lines [lt]. *)
Definition texto_informe (self : Catalogo) (u : Z) (ps vs lt : string) : string :=
  "INFORME CATALOGO" +:+ Str.nl
  +:+ "Cantidad de productos:   " +:+ Str.str_int (cantidadProductos self) +:+ Str.nl
  +:+ "Cantidad de unidades:    " +:+ Str.str_int u +:+ Str.nl
  +:+ "Precio promedio:       $ " +:+ ps +:+ Str.nl
  +:+ "Valor total:           $ " +:+ vs +:+ Str.nl
  +:+ "Tipos de productos:" +:+ Str.nl
  +:+ lt
  +:+ "Ofertas:" +:+ Str.nl
  +:+ informe_ofertas (ofertas self).

(** [informe]: the operations run in the order of the statements and of
    the fields of each f-string; the properties [cantidadUnidades] and
    [valorTotal] are computed anew each time they are read. *)
Definition informe (σ : gmap loc Producto.Producto) (self : Catalogo) : res string :=
  os ← objetos σ (productos self);
  tipos ← agrupar [] os;
  u ← cantidadUnidades σ self;
  vt ← valorTotal σ self;
  u' ← cantidadUnidades σ self;
  promedio ← py_truediv vt (NInt u');
  ps ← Str.fmt_num_2f promedio;
  vt' ← valorTotal σ self;
  vs ← Str.fmt_num_2f vt';
  lt ← informe_tipos tipos;
  Ok (texto_informe self u ps vs lt).

End Catalogo.

(** ** Factura: numbering and line items *)

Module Factura.

(** One entry of [items]: the dict with the keys ['producto'] and
    ['cantidad']. The product is held by reference. *)
Record Item : Type := mkItem {
  producto : loc;
  cantidad : Z
}.

(** [catalogo] and [cliente] are references; [fecha] is the reading of the
    clock at construction. *)
Record Factura : Type := mkFactura {
  catalogo : loc;
  cliente : loc;
  fecha : Z;
  items : list Item;
  numero : Z
}.

(** The class attribute [Factura._ultimo_numero] is the state every
    operation on numbers threads; it starts at 0. *)
Definition _ultimo_numero_inicial : Z := 0.

(** [Factura(catalogo, cliente)], with [ahora] the value of
    [datetime.now()]. *)
Definition init (catalogo cliente : loc) (ahora : Z) (_ultimo_numero : Z) : Factura * Z :=
  let _ultimo_numero := _ultimo_numero + 1 in
  (mkFactura catalogo cliente ahora [] _ultimo_numero, _ultimo_numero).

Definition ultimaFactura (numero : Z) (_ultimo_numero : Z) : unit * Z :=
  (tt, numero).

Definition nuevoNumero (_ultimo_numero : Z) : Z * Z :=
  let _ultimo_numero := _ultimo_numero + 1 in
  (_ultimo_numero, _ultimo_numero).

(** The loop of [agregar]: products are compared with [==], which for
    [Producto] (no [__eq__]) is identity of the objects. *)
Fixpoint agregar_en (its : list Item) (prod : loc) (cant : Z) : list Item :=
  match its with
  | [] => [mkItem prod cant]
  | item :: rest =>
      if Nat.eqb (producto item) prod
      then mkItem (producto item) (cantidad item + cant) :: rest
      else item :: agregar_en rest prod cant
  end.

Definition agregar (self : Factura) (prod : loc) (cant : Z) : Factura :=
  mkFactura (catalogo self) (cliente self) (fecha self)
    (agregar_en (items self) prod cant) (numero self).

Definition cantidadProductos (self : Factura) : Z :=
  Z.of_nat (length (items self)).

Fixpoint sum_cantidad (acc : Z) (its : list Item) : Z :=
  match its with
  | [] => acc
  | item :: rest => sum_cantidad (acc + cantidad item) rest
  end.

Definition cantidadUnidades (self : Factura) : Z := sum_cantidad 0 (items self).

(** [sum(item['producto'].precio * item['cantidad'] for item in self.items)] *)
Fixpoint sum_subtotal (σ : gmap loc Producto.Producto) (acc : num) (its : list Item)
  : res num :=
  match its with
  | [] => Ok acc
  | item :: rest =>
      p ← deref σ (producto item);
      v ← py_mul (Producto._precio p) (NInt (cantidad item));
      acc' ← py_add acc v;
      sum_subtotal σ acc' rest
  end.

Definition subtotal (σ : gmap loc Producto.Producto) (self : Factura) : res num :=
  sum_subtotal σ (NInt 0) (items self).

(** [descuentos], with [cat] the present state of [self.catalogo]. *)
Fixpoint sum_descuentos (σ : gmap loc Producto.Producto) (h : gmap loc (list string))
  (cat : Catalogo.Catalogo) (acc : num) (its : list Item) : res num :=
  match its with
  | [] => Ok acc
  | item :: rest =>
      p ← deref σ (producto item);
      v ← Catalogo.calcularDescuento h cat p (cantidad item);
      acc' ← py_add acc v;
      sum_descuentos σ h cat acc' rest
  end.

Definition descuentos (σ : gmap loc Producto.Producto) (h : gmap loc (list string))
  (cat : Catalogo.Catalogo) (self : Factura) : res num :=
  sum_descuentos σ h cat (NInt 0) (items self).

Definition total (σ : gmap loc Producto.Producto) (h : gmap loc (list string))
  (cat : Catalogo.Catalogo) (self : Factura) : res num :=
  s ← subtotal σ self; d ← descuentos σ h cat self; py_sub s d.

End Factura.

(** ** The [csv] module and text files, as [leer] and [guardar] use them *)

Module Csv.

Definition CR : ascii := ascii_of_nat 13.
Definition LF : ascii := ascii_of_nat 10.
Definition QUOTE : ascii := ascii_of_nat 34.
Definition COMMA : ascii := ascii_of_nat 44.

Definition is_newline (c : ascii) : bool := Ascii.eqb c LF || Ascii.eqb c CR.

(** *** [csv.writer] with the default dialect: delimiter [,], quote
    character, doubled quotes, minimal quoting, line terminator CR LF. *)

Definition especial (c : ascii) : bool :=
  Ascii.eqb c COMMA || Ascii.eqb c QUOTE || Ascii.eqb c CR || Ascii.eqb c LF.

Fixpoint doblar (cs : list ascii) : list ascii :=
  match cs with
  | [] => []
  | c :: r => if Ascii.eqb c QUOTE then QUOTE :: QUOTE :: doblar r else c :: doblar r
  end.

(** One field: quoted when it holds a special character. *)
Definition campo (s : string) : list ascii :=
  let cs := Str.chars s in
  if existsb especial cs then QUOTE :: doblar cs ++ [QUOTE] else cs.

Fixpoint unir (fs : list (list ascii)) : list ascii :=
  match fs with
  | [] => []
  | f :: r =>
      match r with
      | [] => f
      | _ :: _ => f ++ COMMA :: unir r
      end
  end.

(** [writer.writerow(fields)], the fields already converted with [str]:
    a record that would be empty (one empty field) is written quoted. *)
Definition writerow (fields : list string) : list ascii :=
  let registro := unir (map campo fields) in
  match fields, registro with
  | _ :: _, [] => [QUOTE; QUOTE; CR; LF]
  | _, _ => registro ++ [CR; LF]
  end.

(** *** Reading a text file opened without [newline='']: universal
    newlines. CR LF and a lone CR both arrive as LF. *)
Fixpoint universal_newlines (cs : list ascii) : list ascii :=
  match cs with
  | [] => []
  | c :: r =>
      if Ascii.eqb c CR then
        LF :: match r with
              | [] => []
              | c' :: r' => if Ascii.eqb c' LF then universal_newlines r'
                            else universal_newlines r
              end
      else c :: universal_newlines r
  end.

(** The lines a file object yields: each ends with its LF, but possibly
    the last. *)
Fixpoint lineas (cs : list ascii) : list (list ascii) :=
  match cs with
  | [] => []
  | c :: r =>
      if Ascii.eqb c LF then [c] :: lineas r
      else match lineas r with
           | [] => [[c]]
           | l :: ls => (c :: l) :: ls
           end
  end.

(** *** [csv.reader] with the default dialect: the parser's states (the
    three that need an escape character cannot be reached). A NUL is an
    ordinary character, as it is from CPython 3.11 on. *)
Inductive State : Type :=
| START_RECORD
| START_FIELD
| IN_FIELD
| IN_QUOTED_FIELD
| QUOTE_IN_QUOTED_FIELD
| EAT_CRNL.

Record Reader : Type := mkReader {
  state : State;
  field : list ascii;
  fields : list string
}.

Definition parse_reset : Reader := mkReader START_RECORD [] [].

Definition field_limit : Z := 131072.

Definition set_state (st : State) (r : Reader) : Reader :=
  mkReader st (field r) (fields r).

Definition parse_add_char (r : Reader) (c : ascii) : res Reader :=
  if field_limit <=? Z.of_nat (length (field r)) then Raise CsvError
  else Ok (mkReader (state r) (field r ++ [c]) (fields r)).

Definition parse_save_field (r : Reader) : Reader :=
  mkReader (state r) [] (fields r ++ [string_of_list_ascii (field r)]).

(** The state [START_FIELD]; [START_RECORD] falls through to it. *)
Definition en_start_field (r : Reader) (c : option ascii) : res Reader :=
  match c with
  | None => Ok (set_state START_RECORD (parse_save_field r))
  | Some x =>
      if is_newline x then Ok (set_state EAT_CRNL (parse_save_field r))
      else if Ascii.eqb x QUOTE then Ok (set_state IN_QUOTED_FIELD r)
      else if Ascii.eqb x COMMA then Ok (parse_save_field r)
      else r' ← parse_add_char r x; Ok (set_state IN_FIELD r')
  end.

(** [parse_process_char]; [None] is the end-of-line mark that the reader
    feeds after the last character of each line. *)
Definition parse_process_char (r : Reader) (c : option ascii) : res Reader :=
  match state r with
  | START_RECORD =>
      match c with
      | None => Ok r
      | Some x =>
          if is_newline x then Ok (set_state EAT_CRNL r)
          else en_start_field (set_state START_FIELD r) c
      end
  | START_FIELD => en_start_field r c
  | IN_FIELD =>
      match c with
      | None => Ok (set_state START_RECORD (parse_save_field r))
      | Some x =>
          if is_newline x then Ok (set_state EAT_CRNL (parse_save_field r))
          else if Ascii.eqb x COMMA then Ok (set_state START_FIELD (parse_save_field r))
          else parse_add_char r x
      end
  | IN_QUOTED_FIELD =>
      match c with
      | None => Ok r
      | Some x =>
          if Ascii.eqb x QUOTE then Ok (set_state QUOTE_IN_QUOTED_FIELD r)
          else parse_add_char r x
      end
  | QUOTE_IN_QUOTED_FIELD =>
      match c with
      | None => Ok (set_state START_RECORD (parse_save_field r))
      | Some x =>
          if Ascii.eqb x QUOTE then
            r' ← parse_add_char r x; Ok (set_state IN_QUOTED_FIELD r')
          else if Ascii.eqb x COMMA then Ok (set_state START_FIELD (parse_save_field r))
          else if is_newline x then Ok (set_state EAT_CRNL (parse_save_field r))
          else r' ← parse_add_char r x; Ok (set_state IN_FIELD r')
      end
  | EAT_CRNL =>
      match c with
      | None => Ok (set_state START_RECORD r)
      | Some x => if is_newline x then Ok r else Raise CsvError
      end
  end.

Fixpoint procesar_linea (r : Reader) (cs : list ascii) : res Reader :=
  match cs with
  | [] => parse_process_char r None
  | c :: rest => r' ← parse_process_char r (Some c); procesar_linea r' rest
  end.

Definition en_registro (r : Reader) : bool :=
  negb (length (field r) =? 0)%nat
  || match state r with IN_QUOTED_FIELD => true | _ => false end.

(** The rows that iterating the reader yields from the lines [ls], in
    order, and how the iteration ends: exhausted ([Ok]) or with the error
    raised after those rows. [r] is the parser between two lines: reset at
    the start of a record, inside a quoted field otherwise. *)
Fixpoint filas (r : Reader) (ls : list (list ascii)) : list (list string) * res unit :=
  match ls with
  | [] => if en_registro r then ([fields (parse_save_field r)], Ok tt) else ([], Ok tt)
  | l :: rest =>
      match procesar_linea r l with
      | Raise e => ([], Raise e)
      | Ok r' =>
          match state r' with
          | START_RECORD =>
              let '(rows, fin) := filas parse_reset rest in (fields r' :: rows, fin)
          | _ => filas r' rest
          end
      end
  end.

(** [csv.reader(f)] over a file opened for reading in text mode. *)
Definition reader (text : string) : list (list string) * res unit :=
  filas parse_reset (lineas (universal_newlines (Str.chars text))).

End Csv.

(** ** Persistence: [Catalogo.leer] and [Catalogo.guardar] *)

Module Persistencia.

(** The interpreter's conversions between numbers and text that the two
    methods call: [repr] of a float (what [csv.writer] writes for it),
    [float(s)] and [int(s)] of a string ([None] when they raise
    [ValueError]). They are inputs of the model. *)
Record Runtime : Type := mkRuntime {
  repr_float : float -> string;
  float_of_str : string -> option float;
  int_of_str : string -> option Z
}.

Section Persistencia.

Variable rt : Runtime.

(** [str(x)] of a number, as the writer converts a field that is no string. *)
Definition str_num (x : num) : string :=
  match x with
  | NInt z => Str.str_int z
  | NFloat f => repr_float rt f
  end.

Definition encabezado : list string :=
  ["codigo"; "nombre"; "precio"; "tipo"; "cantidad"]%string.

Definition fila (p : Producto.Producto) : list string :=
  [Producto._codigo p; Producto._nombre p; str_num (Producto._precio p);
   Producto._tipo p; Str.str_int (Producto._cantidad p)].

Fixpoint escribir (os : list Producto.Producto) : list ascii :=
  match os with
  | [] => []
  | p :: rest => Csv.writerow (fila p) ++ escribir rest
  end.

(** [guardar]: the file is opened with [newline=''], so what the writer
    produces is stored as it is. [fs] maps a path to the text of the file.
    The paths of [fs] are those that [open] accepts: a path that it refuses
    (the empty path, a directory, a file without permission) is outside
    this embedding, and the statements about a file say so. *)
Definition guardar (σ : gmap loc Producto.Producto) (self : Catalogo.Catalogo)
  (archivo : string) (fs : gmap string string) : res (gmap string string) :=
  os ← Catalogo.objetos σ (Catalogo.productos self);
  Ok (<[archivo := string_of_list_ascii (Csv.writerow encabezado ++ escribir os)]> fs).

(** [codigo, nombre, precio, tipo, cantidad = row] and the construction of
    the product; the arguments [float(precio)] and [int(cantidad)] are
    evaluated in this order before [Producto.__init__] runs. *)
Definition producto_de_fila (row : list string) : res Producto.Producto :=
  match row with
  | [codigo; nombre; precio; tipo; cantidad] =>
      pf ← of_option ValueError (float_of_str rt precio);
      ci ← of_option ValueError (int_of_str rt cantidad);
      Producto.init codigo nombre (NFloat pf) tipo ci
  | _ => Raise ValueError
  end.

(** The [for row in reader] loop: each product is appended as soon as it is
    built, so a failure leaves the ones before it in the list. *)
Fixpoint cargar (rows : list (list string)) (fin : res unit)
  (σ : gmap loc Producto.Producto) (ps : list loc)
  : res unit * (gmap loc Producto.Producto * list loc) :=
  match rows with
  | [] => (fin, (σ, ps))
  | row :: rest =>
      match producto_de_fila row with
      | Raise e => (Raise e, (σ, ps))
      | Ok p => let '(l, σ') := alloc p σ in cargar rest fin σ' (ps ++ [l])
      end
  end.

(** [leer]: the outcome, and the product store and the catalog as the call
    leaves them. The list is emptied before the file is opened, and the
    file is opened without [newline='']. A path that [fs] does not hold is
    a file that does not exist; the other refusals of [open] and a file
    that cannot be decoded are outside this embedding. *)
Definition leer (σ : gmap loc Producto.Producto) (self : Catalogo.Catalogo)
  (archivo : string) (fs : gmap string string)
  : res unit * (gmap loc Producto.Producto * Catalogo.Catalogo) :=
  let vacio := Catalogo.mkCatalogo [] (Catalogo.ofertas self) in
  match fs !! archivo with
  | None => (Raise FileNotFoundError, (σ, vacio))
  | Some text =>
      match Csv.reader text with
      | ([], Ok _) => (Raise StopIteration, (σ, vacio))
      | ([], Raise e) => (Raise e, (σ, vacio))
      | (_ :: rows, fin) =>
          let '(out, (σ', ps)) := cargar rows fin σ [] in
          (out, (σ', Catalogo.mkCatalogo ps (Catalogo.ofertas self)))
      end
  end.

End Persistencia.

(** Two product lists are equal in the sense of the round trip: the same
    length and, position by position, the same code, name, price ([==]),
    category and quantity. *)
Definition mismo_producto (a b : Producto.Producto) : bool :=
  String.eqb (Producto._codigo a) (Producto._codigo b)
  && String.eqb (Producto._nombre a) (Producto._nombre b)
  && py_eq (Producto._precio a) (Producto._precio b)
  && String.eqb (Producto._tipo a) (Producto._tipo b)
  && (Producto._cantidad a =? Producto._cantidad b).

Fixpoint mismos_productos (xs ys : list Producto.Producto) : bool :=
  match xs, ys with
  | [], [] => true
  | x :: xs', y :: ys' => mismo_producto x y && mismos_productos xs' ys'
  | _, _ => false
  end.

End Persistencia.

(** * Scenarios used by the examples below *)

Module Ejemplo.

Definition gaseosas : loc := 2%nat.
Definition bebidas : loc := 3%nat.

(** The list store after [tipos=['gaseosa']] and
    [tipos=['gaseosa', 'galleta']] have been built by a caller. *)
Definition listas : gmap loc (list string) :=
  <[bebidas := ["gaseosa"; "galleta"]%string]>
    (<[gaseosas := ["gaseosa"%string]]> Oferta.listas_iniciales).

Definition coca : Producto.Producto :=
  Producto.mkProducto "0001" "Coca Cola" (NFloat 12.5) "gaseosa" 100.

Definition agua : Producto.Producto :=
  Producto.mkProducto "0002" "Agua" (NInt 10) "gaseosa" 50.

Definition jugo : Producto.Producto :=
  Producto.mkProducto "0004" "Jugo" (NInt 100) "gaseosa" 30.

Definition dos_por_uno : Oferta.Oferta :=
  Oferta.init Oferta.Oferta2x1 "2x1 en gaseosas" None (Some gaseosas).

Definition veinte : Oferta.Oferta :=
  Oferta.init (Oferta.OfertaDescuento (NInt 20)) "20% en bebidas" None (Some bebidas).

Definition catalogo : Catalogo.Catalogo :=
  Catalogo.registrarOferta (Catalogo.registrarOferta Catalogo.init dos_por_uno) veinte.

(** A client, and a product whose name holds a carriage return. *)
Definition juan : Cliente.Cliente := Cliente.mkCliente "Juan Perez" "20-12345678-9".

Definition pan_dulce : string := "pan" +:+ String Csv.CR "dulce".

Definition pan : Producto.Producto :=
  Producto.mkProducto "0005" pan_dulce (NInt 10) "" 0.

Definition panes : gmap loc Producto.Producto := <[0%nat := pan]> ∅.

Definition panaderia : Catalogo.Catalogo := Catalogo.agregar Catalogo.init 0%nat.

(** What [guardar] writes for [panaderia]: the name is quoted and keeps
    its carriage return. *)
Definition texto_panaderia : string :=
  Eval vm_compute in
    string_of_list_ascii
      (Csv.writerow Persistencia.encabezado
       ++ Csv.writerow ["0005"; pan_dulce; "10"; ""; "0"]%string).

(** A store and a catalog of two valid products; the second is the only
    one of its category and has no units. *)
Definition almacen : gmap loc Producto.Producto := <[1%nat := pan]> (<[0%nat := coca]> ∅).

Definition surtido : Catalogo.Catalogo :=
  Catalogo.agregar (Catalogo.agregar Catalogo.init 0%nat) 1%nat.

(** The same catalog once the second product has units. *)
Definition pan_lactal : Producto.Producto :=
  Producto.mkProducto "0005" "Pan lactal" (NInt 10) "" 3.

Definition almacen_surtido : gmap loc Producto.Producto :=
  <[1%nat := pan_lactal]> almacen.

(** Conversions that know the numbers of the examples: enough of [repr],
    [float] and [int] to run a round trip on them. *)
Definition conversiones : Persistencia.Runtime :=
  Persistencia.mkRuntime
    (fun f => if (f =? 12.5)%float then "12.5" else "nan")
    (fun s => if String.eqb s "12.5" then Some 12.5%float
              else if String.eqb s "10" then Some 10%float
              else None)
    (fun s => if String.eqb s "100" then Some 100
              else if String.eqb s "50" then Some 50
              else None).

Definition bebidas_en_stock : gmap loc Producto.Producto :=
  <[1%nat := agua]> (<[0%nat := coca]> ∅).

End Ejemplo.

(** * Notions the statements are written with *)

(** [Factura(...)] called once for each entry of [args], in order, on the
    counter [u]: the invoices built and the counter afterwards. *)
Fixpoint crear (args : list (loc * loc * Z)) (u : Z) : list Factura.Factura * Z :=
  match args with
  | [] => ([], u)
  | (cat, cli, ahora) :: rest =>
      let '(f, u') := Factura.init cat cli ahora u in
      let '(fs, u'') := crear rest u' in
      (f :: fs, u'')
  end.

(** The round trip, as a test: [guardar] to [archivo] and then [leer] from
    it into the same catalog both succeed, and the product list read is
    equal to the one saved. *)
Definition ida_y_vuelta (rt : Persistencia.Runtime) (σ : gmap loc Producto.Producto)
  (self : Catalogo.Catalogo) (archivo : string) (fs : gmap string string) : bool :=
  match Persistencia.guardar rt σ self archivo fs with
  | Raise _ => false
  | Ok fs' =>
      match Persistencia.leer rt σ self archivo fs' with
      | (Raise _, _) => false
      | (Ok _, (σ', self')) =>
          match Catalogo.objetos σ (Catalogo.productos self),
                Catalogo.objetos σ' (Catalogo.productos self') with
          | Ok antes, Ok despues => Persistencia.mismos_productos antes despues
          | _, _ => false
          end
      end
  end.

(** The products of the category [t], in catalog order, and the units and
    the value they add up to. *)
Definition de_tipo (t : string) (os : list Producto.Producto) : list Producto.Producto :=
  List.filter (fun p => String.eqb (Producto._tipo p) t) os.

Definition unidades_de (t : string) (os : list Producto.Producto) : Z :=
  Catalogo.sum_cantidad 0 (de_tipo t os).

Definition valor_de (t : string) (os : list Producto.Producto) : res num :=
  Catalogo.sum_valor (NInt 0) (de_tipo t os).

(** An accumulated value that is still an int lies within 10000 times the
    accumulated units. *)
Definition cota (v : num) (u : Z) : Prop :=
  match v with
  | NInt z => 0 <= z <= 10000 * u
  | NFloat _ => True
  end.

(** The dict [d] holds, for the products [os], one entry per category
    with that category's units and value. *)
Definition agrupa (os : list Producto.Producto) (d : Catalogo.Tipos) : Prop :=
  NoDup (map fst d)
  /\ (forall p, p ∈ os -> Producto._tipo p ∈ map fst d)
  /\ (forall t u v, (t, (u, v)) ∈ d ->
        t ∈ map Producto._tipo os /\ u = unidades_de t os /\ valor_de t os = Ok v).

(** An entry of the dict within the bounds that valid products give. *)
Definition entrada_acotada (e : string * (Z * num)) : Prop :=
  0 <= e.2.1 <= 10 ^ 26 /\ cota e.2.2 e.2.1.

(** An average price as the report states it: a value divided by a number
    of units, written with two decimals. *)
Definition promedio_2f (valor : num) (unidades : Z) : res string :=
  promedio ← py_truediv valor (NInt unidades); Str.fmt_num_2f promedio.

(** The line of the report for one category, [pp] being its average as
    written. *)
Definition linea_tipo (tipo : string) (unidades : Z) (pp : string) : string :=
  "  - " +:+ Str.ljust 20 tipo +:+ ": " +:+ Str.rjust 4 (Str.str_int unidades)
  +:+ "u x $ " +:+ pp +:+ Str.nl.

(** The lines of the categories of [d], in the order of [d], [pps] being
    their averages as written. *)
Fixpoint lineas_tipos (d : Catalogo.Tipos) (pps : list string) : string :=
  match d, pps with
  | (tipo, (unidades, _)) :: d', pp :: pps' =>
      linea_tipo tipo unidades pp +:+ lineas_tipos d' pps'
  | _, _ => ""
  end.

(** One line for each description of an offer. *)
Fixpoint lineas_ofertas (descripciones : list string) : string :=
  match descripciones with
  | [] => ""
  | descripcion :: resto => "  - " +:+ descripcion +:+ Str.nl +:+ lineas_ofertas resto
  end.

(** The report as a text: the number of products, the units, the overall
    average [ps] and the total value [vs] as written, the lines of the
    categories and the lines of the offers. *)
Definition texto_del_informe (productos unidades : Z) (ps vs tipos ofertas : string)
  : string :=
  "INFORME CATALOGO" +:+ Str.nl
  +:+ "Cantidad de productos:   " +:+ Str.str_int productos +:+ Str.nl
  +:+ "Cantidad de unidades:    " +:+ Str.str_int unidades +:+ Str.nl
  +:+ "Precio promedio:       $ " +:+ ps +:+ Str.nl
  +:+ "Valor total:           $ " +:+ vs +:+ Str.nl
  +:+ "Tipos de productos:" +:+ Str.nl
  +:+ tipos
  +:+ "Ofertas:" +:+ Str.nl
  +:+ ofertas.

(** The largest number of elements of a Python list. *)
Definition PY_SSIZE_T_MAX : Z := 2 ^ 63 - 1.

(** The string holds no carriage return. *)
Definition sin_CR (s : string) : Prop := Forall (fun c => c <> Csv.CR) (Str.chars s).

(** The parser between two characters: what it has gathered holds no
    carriage return. *)
Definition limpio (r : Csv.Reader) : Prop :=
  Forall (fun c => c <> Csv.CR) (Csv.field r) /\ Forall sin_CR (Csv.fields r).

(** The store holds at [l] a product whose code is not [codigo]. *)
Definition otro_codigo (σ : gmap loc Producto.Producto) (codigo : string) (l : loc) : Prop :=
  exists o, σ !! l = Some o /\ Producto._codigo o <> codigo.

(** * Composed operations, [imprimir], and the notions of their properties *)

(** ** Runs of assignments to the attributes of products *)

(** An assignment to one validated attribute of a product. *)
Inductive Asignacion : Type :=
| A_codigo (value : string)
| A_nombre (value : string)
| A_precio (value : num)
| A_tipo (value : string)
| A_cantidad (value : Z).

Definition setter_de (a : Asignacion) : Producto.Producto -> res Producto.Producto :=
  match a with
  | A_codigo v => Producto.set_codigo v
  | A_nombre v => Producto.set_nombre v
  | A_precio v => Producto.set_precio v
  | A_tipo v => Producto.set_tipo v
  | A_cantidad v => Producto.set_cantidad v
  end.

(** A run of assignments [obj.attr = value], each on the object at its
    reference; one that raises is skipped and the run goes on, as after a
    caught exception. *)
Fixpoint asignar (as_ : list (loc * Asignacion)) (σ : gmap loc Producto.Producto)
  : gmap loc Producto.Producto :=
  match as_ with
  | [] => σ
  | (l, a) :: rest => asignar rest (setattr (setter_de a) l σ).2
  end.

(** ** Amounts in ints *)

(** The sum of [precio * cantidad] over products whose prices are ints
    (a float price counts for nothing here). *)
Fixpoint importe_entero (os : list Producto.Producto) : Z :=
  match os with
  | [] => 0
  | p :: rest =>
      match Producto._precio p with
      | NInt z => z * Producto._cantidad p
      | NFloat _ => 0
      end + importe_entero rest
  end.

(** The price of the product is an int. *)
Definition precio_entero (p : Producto.Producto) : Prop :=
  exists z, Producto._precio p = NInt z.

(** A store of two products with int prices. *)
Definition bebidas_enteras : gmap loc Producto.Producto :=
  <[1%nat := Ejemplo.agua]> (<[0%nat := Ejemplo.jugo]> ∅).

(** ** Runs of operations on the counter and on an invoice *)

(** The two operations that draw a number from the counter. *)
Inductive Emision : Type :=
| E_factura (catalogo cliente : loc) (ahora : Z)
| E_nuevoNumero.

(** The numbers a run of such operations hands out, in order, and the
    counter afterwards. *)
Fixpoint emitir (es : list Emision) (u : Z) : list Z * Z :=
  match es with
  | [] => ([], u)
  | e :: rest =>
      let '(n, u') :=
        match e with
        | E_factura cat cli ahora =>
            let '(f, u') := Factura.init cat cli ahora u in (Factura.numero f, u')
        | E_nuevoNumero => Factura.nuevoNumero u
        end in
      let '(ns, u'') := emitir rest u' in
      (n :: ns, u'')
  end.

(** [agregar] called for each pair of the list, in order. *)
Fixpoint agregar_todos (self : Factura.Factura) (ls : list (loc * Z)) : Factura.Factura :=
  match ls with
  | [] => self
  | (prod, cant) :: rest => agregar_todos (Factura.agregar self prod cant) rest
  end.

(** The quantities asked for the product [prod], added up. *)
Fixpoint pedido (prod : loc) (ls : list (loc * Z)) : Z :=
  match ls with
  | [] => 0
  | (x, q) :: rest => (if Nat.eqb x prod then q else 0) + pedido prod rest
  end.

Fixpoint pedido_total (ls : list (loc * Z)) : Z :=
  match ls with
  | [] => 0
  | (_, q) :: rest => q + pedido_total rest
  end.

(** ** The lines of an invoice *)

(** The quantity that the lines [its] hold of the product [prod]. *)
Fixpoint en_lineas (prod : loc) (its : list Factura.Item) : Z :=
  match its with
  | [] => 0
  | it :: rest =>
      (if Nat.eqb (Factura.producto it) prod then Factura.cantidad it else 0)
      + en_lineas prod rest
  end.

(** The int price of the object at [l] (0 when there is none). *)
Definition precio_en (σ : gmap loc Producto.Producto) (l : loc) : Z :=
  match σ !! l with
  | Some p => match Producto._precio p with NInt z => z | NFloat _ => 0 end
  | None => 0
  end.

(** The lines refer to stored products with int prices. *)
Definition lineas_enteras (σ : gmap loc Producto.Producto) (its : list Factura.Item) : Prop :=
  Forall (fun it => exists p z, σ !! Factura.producto it = Some p
                                /\ Producto._precio p = NInt z) its.

Fixpoint importe_lineas (σ : gmap loc Producto.Producto) (its : list Factura.Item) : Z :=
  match its with
  | [] => 0
  | it :: rest => precio_en σ (Factura.producto it) * Factura.cantidad it
                  + importe_lineas σ rest
  end.

(** ** What [csv] keeps of a field *)

(** A field that [csv] takes through a file and back: no carriage return
    in it, and no longer than the reader's field limit. *)
Definition campo_fiel (s : string) : Prop :=
  sin_CR s /\ Z.of_nat (length (Str.chars s)) <= Csv.field_limit.

(** What [writerow] writes before the line terminator. *)
Definition registro (fields : list string) : list ascii :=
  match fields, Csv.unir (map Csv.campo fields) with
  | _ :: _, [] => [Csv.QUOTE; Csv.QUOTE]
  | _, u => u
  end.

(** The parser has a whole field in hand. *)
Definition campo_leido (r : Csv.Reader) : Prop :=
  Csv.state r = Csv.START_FIELD \/ Csv.state r = Csv.IN_FIELD
  \/ Csv.state r = Csv.QUOTE_IN_QUOTED_FIELD.

(** ** What a catalog file keeps of a product *)

(** The interpreter's conversions give the numbers of the product back:
    what is written for the price is a field that [csv] keeps, [float] of
    it is a float equal ([==]) to the price, and [int] of what is written
    for the quantity is the quantity. *)
Definition conversion_fiel (rt : Persistencia.Runtime) (p : Producto.Producto) : Prop :=
  campo_fiel (Persistencia.str_num rt (Producto._precio p))
  /\ (exists f, Persistencia.float_of_str rt (Persistencia.str_num rt (Producto._precio p))
                = Some f
                /\ py_eq (Producto._precio p) (NFloat f) = true)
  /\ Persistencia.int_of_str rt (Str.str_int (Producto._cantidad p))
     = Some (Producto._cantidad p).

(** A product that a catalog file gives back: valid, no carriage return
    in its name or its category, and numbers that the conversions keep. *)
Definition producto_fiel (rt : Persistencia.Runtime) (p : Producto.Producto) : Prop :=
  Producto.valido p = true
  /\ sin_CR (Producto._nombre p) /\ sin_CR (Producto._tipo p)
  /\ conversion_fiel rt p.

(** [campo_fiel], as a test. *)
Definition es_campo_fiel (s : string) : bool :=
  forallb (fun c => negb (Ascii.eqb c Csv.CR)) (Str.chars s)
  && (Z.of_nat (length (Str.chars s)) <=? Csv.field_limit).

Module Archivos.

(** The text of the file that [guardar] writes for the two drinks in
    stock. *)
Definition bebidas : string :=
  Eval vm_compute in
    string_of_list_ascii
      (Csv.writerow Persistencia.encabezado
       ++ Csv.writerow ["0001"; "Coca Cola"; "12.5"; "gaseosa"; "100"]%string
       ++ Csv.writerow ["0002"; "Agua"; "10"; "gaseosa"; "50"]%string).

End Archivos.

(** ** What [leer] leaves behind *)

(** A reference that [leer] made: not in the store [σ] of before the call,
    and in the store [σ'] of after it with a valid product whose price is
    a float. *)
Definition cargado (σ σ' : gmap loc Producto.Producto) (l : loc) : Prop :=
  σ !! l = None
  /\ exists p f, σ' !! l = Some p /\ Producto.valido p = true
                 /\ Producto._precio p = NFloat f.

Module Casos.

(** A catalog file whose second row has a code of one digit. *)
Definition filas_con_error : list (list string) :=
  [Persistencia.encabezado;
   ["0001"; "Coca Cola"; "12.5"; "gaseosa"; "100"];
   ["1"; "Agua"; "10"; "gaseosa"; "50"];
   ["0004"; "Jugo"; "10"; "gaseosa"; "50"]]%string.

Definition archivo_con_error : string :=
  Eval vm_compute in string_of_list_ascii (flat_map Csv.writerow filas_con_error).

End Casos.

(** ** What the reader gives *)

(** An iteration of the reader that gives a row or ends with an error. *)
Definition da_algo (out : list (list string) * res unit) : Prop :=
  out.1 <> [] \/ exists e, out.2 = Raise e.

(** ** [Factura.imprimir] *)

Module Impresion.

(** What [imprimir] can raise: an exception of the operations it calls, or
    the [AttributeError] of reading [descripcion] from [None]. *)
Inductive fallo : Type :=
| AttributeError
| Excepcion (e : exn).

Inductive salida : Type :=
| Devuelve (texto : string)
| Levanta (f : fallo).

Definition de_res {A : Type} (r : res A) (k : A -> salida) : salida :=
  match r with
  | Ok a => k a
  | Raise e => Levanta (Excepcion e)
  end.

Definition luego (s : salida) (k : string -> salida) : salida :=
  match s with
  | Devuelve t => k t
  | Levanta f => Levanta f
  end.

(** [a > b]. *)
Definition py_gt (a b : num) : bool :=
  match a, b with
  | NInt x, NInt y => y <? x
  | NFloat x, NFloat y => (y <? x)%float
  | NFloat x, NInt y =>
      match float_cmp_int x y with
      | Some Gt => true
      | _ => false
      end
  | NInt x, NFloat y =>
      match float_cmp_int y x with
      | Some Lt => true
      | _ => false
      end
  end.

(** [format] of an int in decimal, as the f-strings call it: CPython 3.11
    refuses an int of more than [max_str_digits] digits with
    [ValueError]. *)
Definition max_str_digits : Z := 4300.

Definition str_int (z : Z) : res string :=
  if 10 ^ max_str_digits <=? Z.abs z then Raise ValueError else Ok (Str.str_int z).

(** ['-' * n] *)
Fixpoint guiones (n : nat) : string :=
  match n with
  | O => EmptyString
  | S k => String "-" (guiones k)
  end.

(** The body of the loop for one item: the line of the product and, when
    the discount is positive, the line of the offer. *)
Definition linea (σ : gmap loc Producto.Producto) (h : gmap loc (list string))
  (cat : Catalogo.Catalogo) (item : Factura.Item) : salida :=
  de_res (deref σ (Factura.producto item)) (fun producto =>
  let cantidad := Factura.cantidad item in
  de_res (py_mul (Producto._precio producto) (NInt cantidad)) (fun subtotal =>
  de_res (str_int cantidad) (fun cs =>
  de_res (Str.fmt_num_2f (Producto._precio producto)) (fun ps =>
  de_res (Str.fmt_num_2f subtotal) (fun ss =>
  let texto :=
    "- " +:+ Str.rjust 2 cs +:+ "u "
    +:+ Str.ljust 30 (Producto._nombre producto)
    +:+ " x $" +:+ Str.rjust 7 ps +:+ " = $" +:+ Str.rjust 9 ss +:+ Str.nl in
  de_res (Catalogo.calcularDescuento h cat producto cantidad) (fun descuento =>
  if py_gt descuento (NInt 0) then
    match Catalogo.buscarOferta h cat producto cantidad with
    | None => Levanta AttributeError
    | Some oferta =>
        de_res (Str.fmt_num_2f descuento) (fun ds =>
        Devuelve (texto +:+ "      " +:+ Str.ljust 40 (Oferta.descripcion oferta)
                  +:+ "     - $" +:+ Str.rjust 9 ds +:+ Str.nl))
    end
  else Devuelve texto)))))).

Fixpoint lineas (σ : gmap loc Producto.Producto) (h : gmap loc (list string))
  (cat : Catalogo.Catalogo) (its : list Factura.Item) : salida :=
  match its with
  | [] => Devuelve ""
  | item :: rest =>
      luego (linea σ h cat item) (fun l =>
      luego (lineas σ h cat rest) (fun r => Devuelve (l +:+ r)))
  end.

(** The four lines after the loop; the properties are computed anew each
    time they are read, [total] reading [subtotal] and [descuentos] again. *)
Definition pie (σ : gmap loc Producto.Producto) (h : gmap loc (list string))
  (cat : Catalogo.Catalogo) (self : Factura.Factura) : salida :=
  de_res (Factura.subtotal σ self) (fun s =>
  de_res (Str.fmt_num_2f s) (fun ss =>
  de_res (Factura.descuentos σ h cat self) (fun d =>
  de_res (Str.fmt_num_2f d) (fun ds =>
  de_res (Factura.total σ h cat self) (fun t =>
  de_res (Str.fmt_num_2f t) (fun ts =>
  Devuelve (Str.rjust 54 "Subtotal:" +:+ " $" +:+ Str.rjust 9 ss +:+ Str.nl
            +:+ Str.rjust 54 "Descuentos:" +:+ " $" +:+ Str.rjust 9 ds +:+ Str.nl
            +:+ guiones 64 +:+ Str.nl
            +:+ Str.rjust 54 "Total:" +:+ " $" +:+ Str.rjust 9 ts))))))).

(** [imprimir], with [cat] and [cli] the present states of [self.catalogo]
    and [self.cliente], and [strftime] the text of a reading of the clock
    in the format ['%Y-%m-%d %H:%M:%S']. *)
Definition imprimir (strftime : Z -> string) (σ : gmap loc Producto.Producto)
  (h : gmap loc (list string)) (cat : Catalogo.Catalogo) (cli : Cliente.Cliente)
  (self : Factura.Factura) : salida :=
  de_res (str_int (Factura.numero self)) (fun ns =>
  let cabecera :=
    "Factura: " +:+ ns +:+ Str.nl
    +:+ "Fecha  : " +:+ strftime (Factura.fecha self) +:+ Str.nl
    +:+ "Cliente: " +:+ Cliente._nombre cli +:+ " (" +:+ Cliente._cuit cli +:+ ")"
    +:+ Str.nl in
  luego (lineas σ h cat (Factura.items self)) (fun ls =>
  luego (pie σ h cat self) (fun p => Devuelve (cabecera +:+ ls +:+ p)))).

Definition es_AttributeError (s : salida) : bool :=
  match s with
  | Levanta AttributeError => true
  | _ => false
  end.

End Impresion.

(** A number that is a float, or an int of magnitude at most [B]. *)
Definition acotado (B : Z) (v : num) : Prop :=
  match v with
  | NInt z => Z.abs z <= B
  | NFloat _ => True
  end.

(** A line of an ordinary invoice: of a stored valid product, at most
    [10^9] units of it, in either direction. *)
Definition linea_corriente (σ : gmap loc Producto.Producto) (it : Factura.Item) : Prop :=
  exists p, σ !! Factura.producto it = Some p /\ Producto.valido p = true
            /\ Z.abs (Factura.cantidad it) <= 10 ^ 9.

(** An offer of one of the two subclasses; an int percentage is one that
    can be converted to a float. *)
Definition oferta_con_regla (o : Oferta.Oferta) : Prop :=
  match Oferta.clase o with
  | Oferta.Base => False
  | Oferta.OfertaDescuento (NInt d) => Z.abs d < float_bound
  | _ => True
  end.

(** A sale at the counter: two lines, on a catalog with the 20 percent
    offer, at a fixed reading of the clock. *)
Module Mostrador.

Definition reloj (ahora : Z) : string := "2024-05-01 12:00:00".

Definition estante : gmap loc Producto.Producto :=
  <[1%nat := Ejemplo.agua]> (<[0%nat := Ejemplo.coca]> ∅).

Definition catalogo : Catalogo.Catalogo :=
  Catalogo.registrarOferta
    (Catalogo.agregar (Catalogo.agregar Catalogo.init 0%nat) 1%nat) Ejemplo.veinte.

Definition factura : Factura.Factura :=
  Factura.agregar (Factura.agregar (Factura.init 0%nat 0%nat 0 0).1 0%nat 4) 1%nat 3.

End Mostrador.

(** * Offer resolution *)

Section Resolucion.

Variable h : gmap loc (list string).
Variable producto : Producto.Producto.
Variable cantidad : Z.

Let aplicable (o : Oferta.Oferta) : bool := Oferta.esAplicable h o producto cantidad.

Lemma buscarOferta_en_primera (antes despues : list Oferta.Oferta) (o : Oferta.Oferta) :
  aplicable o = true ->
  Forall (fun o' => aplicable o' = false) antes ->
  Catalogo.buscarOferta_en h (antes ++ o :: despues) producto cantidad = Some o.
Proof.
  intros Ho Hantes. induction Hantes as [|o' antes Ho' _ IH]; simpl.
  - fold (aplicable o). now rewrite Ho.
  - fold (aplicable o'). now rewrite Ho'.
Qed.

Lemma buscarOferta_en_ninguna (os : list Oferta.Oferta) :
  Forall (fun o' => aplicable o' = false) os ->
  Catalogo.buscarOferta_en h os producto cantidad = None.
Proof.
  induction 1 as [|o' os Ho' _ IH]; simpl; [reflexivity|].
  fold (aplicable o'). now rewrite Ho'.
Qed.

(** What [buscarOferta] returns is always the first applicable offer of the
    list, and [None] only when there is none. *)
Lemma buscarOferta_en_inv (os : list Oferta.Oferta) :
  match Catalogo.buscarOferta_en h os producto cantidad with
  | Some o =>
      exists antes despues, os = antes ++ o :: despues /\ aplicable o = true
        /\ Forall (fun o' => aplicable o' = false) antes
  | None => Forall (fun o' => aplicable o' = false) os
  end.
Proof.
  induction os as [|o' os IH]; simpl; [constructor|].
  fold (aplicable o'). destruct (aplicable o') eqn:Ho'.
  - exists [], os. repeat split; [assumption|constructor].
  - destruct (Catalogo.buscarOferta_en h os producto cantidad) as [o|].
    + destruct IH as (antes & despues & -> & Ho & Hantes).
      exists (o' :: antes), despues. repeat split; [assumption|now constructor].
    + now constructor.
Qed.

(** C1. [buscarOferta] scans the offers in registration order and returns
    the first one whose [esAplicable] holds of the product, and
    [calcularDescuento] returns that offer's [aplicar]; when no registered
    offer is applicable, [buscarOferta] finds none and the discount is 0; of
    two applicable offers registered one after the other (no earlier offer
    being applicable), the first is the one returned and applied. *)
Theorem buscarOferta_first_match (self : Catalogo.Catalogo) :
  (forall antes o despues,
      Catalogo.ofertas self = antes ++ o :: despues ->
      aplicable o = true ->
      Forall (fun o' => aplicable o' = false) antes ->
      Catalogo.buscarOferta h self producto cantidad = Some o
      /\ Catalogo.calcularDescuento h self producto cantidad
         = Oferta.aplicar h o producto cantidad)
  /\ (Forall (fun o' => aplicable o' = false) (Catalogo.ofertas self) ->
      Catalogo.buscarOferta h self producto cantidad = None
      /\ Catalogo.calcularDescuento h self producto cantidad = Ok (NInt 0))
  /\ (forall o1 o2,
      Forall (fun o' => aplicable o' = false) (Catalogo.ofertas self) ->
      aplicable o1 = true ->
      aplicable o2 = true ->
      let self' := Catalogo.registrarOferta (Catalogo.registrarOferta self o1) o2 in
      Catalogo.buscarOferta h self' producto cantidad = Some o1
      /\ Catalogo.calcularDescuento h self' producto cantidad
         = Oferta.aplicar h o1 producto cantidad).
Proof.
  split; [|split].
  - intros antes o despues Hos Ho Hantes.
    assert (Catalogo.buscarOferta h self producto cantidad = Some o) as Hb.
    { unfold Catalogo.buscarOferta. rewrite Hos. now apply buscarOferta_en_primera. }
    split; [exact Hb|]. unfold Catalogo.calcularDescuento. now rewrite Hb.
  - intros Hnone.
    assert (Catalogo.buscarOferta h self producto cantidad = None) as Hb.
    { now apply buscarOferta_en_ninguna. }
    split; [exact Hb|]. unfold Catalogo.calcularDescuento. now rewrite Hb.
  - intros o1 o2 Hnone Ho1 Ho2 self'.
    assert (Catalogo.buscarOferta h self' producto cantidad = Some o1) as Hb.
    { unfold Catalogo.buscarOferta, self'. simpl. rewrite <- app_assoc. simpl.
      now apply buscarOferta_en_primera. }
    split; [exact Hb|]. unfold Catalogo.calcularDescuento. now rewrite Hb.
Qed.

End Resolucion.

(** The catalog of the example holds a 2x1 offer and then a percentage
    offer, both on the category of the product: the 2x1 offer is applied. *)
Lemma buscarOferta_first_match_witness :
  Catalogo.buscarOferta Ejemplo.listas Ejemplo.catalogo Ejemplo.coca 4
  = Some Ejemplo.dos_por_uno
  /\ Catalogo.calcularDescuento Ejemplo.listas Ejemplo.catalogo Ejemplo.coca 4
     = Ok (NFloat 25).
Proof.
  destruct (proj1 (buscarOferta_first_match Ejemplo.listas Ejemplo.coca 4 Ejemplo.catalogo)
              [] Ejemplo.dos_por_uno [Ejemplo.veinte]) as [Hb Hd].
  - reflexivity.
  - reflexivity.
  - constructor.
  - split; [exact Hb|]. rewrite Hd. reflexivity.
Defined.

(** * The two discount rules *)

Section Descuentos.

Variable h : gmap loc (list string).

(** A price that passed the setter's test times the int 0 is a zero. *)
Lemma precio_por_cero (precio : num) :
  Producto.precio_ok precio = true ->
  exists r, py_mul precio (NInt 0) = Ok r /\ py_eq r (NInt 0) = true.
Proof.
  destruct precio as [z|f]; intros Hok.
  - exists (NInt (z * 0)). split; [reflexivity|]. simpl. apply Z.eqb_eq. lia.
  - exists (NFloat (f * round_int 0)%float). split; [reflexivity|].
    unfold Producto.precio_ok, py_le, float_cmp_int in Hok.
    unfold py_eq, float_cmp_int. rewrite mul_spec.
    destruct (Prim2SF f) as [s|s| |s m e]; try discriminate Hok.
    + destruct s; discriminate Hok.
    + reflexivity.
Qed.

(** C3, as the code has it. [Oferta2x1.aplicar] returns
    [precio * (cantidad // 2)] when the offer is applicable to the product
    and 0 otherwise; with price 10 and quantity 5 that is 20, and with
    quantity 1 it is a zero even when the offer is applicable. *)
Theorem Oferta2x1_aplicar_spec (self : Oferta.Oferta) (producto : Producto.Producto)
  (cantidad : Z) :
  Oferta.Oferta2x1_aplicar h self producto cantidad
  = (if Oferta.esAplicable h self producto cantidad
     then py_mul (Producto._precio producto) (NInt (cantidad / 2))
     else Ok (NInt 0))
  /\ (Oferta.esAplicable h self producto 5 = true ->
      Producto._precio producto = NInt 10 ->
      Oferta.Oferta2x1_aplicar h self producto 5 = Ok (NInt 20))
  /\ (Oferta.esAplicable h self producto 1 = true ->
      Producto.precio_ok (Producto._precio producto) = true ->
      exists r, Oferta.Oferta2x1_aplicar h self producto 1 = Ok r
                /\ py_eq r (NInt 0) = true).
Proof.
  split; [reflexivity|split].
  - intros Ha Hp. unfold Oferta.Oferta2x1_aplicar. rewrite Ha, Hp. reflexivity.
  - intros Ha Hp. unfold Oferta.Oferta2x1_aplicar. rewrite Ha.
    change (1 / 2) with 0. now apply precio_por_cero.
Qed.

(** C4. [OfertaDescuento.aplicar] returns
    [precio * cantidad * (descuento / 100)] when the offer is applicable
    and 0 otherwise; with price 100, quantity 3 and 20 percent the discount
    is the float 60.0, which equals 60. *)
Theorem OfertaDescuento_aplicar_spec (descuento : num) (self : Oferta.Oferta)
  (producto : Producto.Producto) (cantidad : Z) :
  Oferta.OfertaDescuento_aplicar h descuento self producto cantidad
  = (if Oferta.esAplicable h self producto cantidad
     then bruto ← py_mul (Producto._precio producto) (NInt cantidad);
          fraccion ← py_truediv descuento (NInt 100);
          py_mul bruto fraccion
     else Ok (NInt 0))
  /\ (Oferta.esAplicable h self producto 3 = true ->
      Producto._precio producto = NInt 100 \/ Producto._precio producto = NFloat 100 ->
      descuento = NInt 20 \/ descuento = NFloat 20 ->
      Oferta.OfertaDescuento_aplicar h descuento self producto 3 = Ok (NFloat 60)
      /\ py_eq (NFloat 60) (NInt 60) = true).
Proof.
  split; [reflexivity|].
  intros Ha Hp Hd. split; [|reflexivity].
  unfold Oferta.OfertaDescuento_aplicar. rewrite Ha.
  destruct Hp as [-> | ->], Hd as [-> | ->]; vm_compute; reflexivity.
Qed.

End Descuentos.

(** The 2x1 offer of the example on a product of price 10, five units,
    and on a product of price 12.5, one unit. *)
Lemma Oferta2x1_aplicar_spec_witness :
  Oferta.Oferta2x1_aplicar Ejemplo.listas Ejemplo.dos_por_uno Ejemplo.agua 5 = Ok (NInt 20)
  /\ exists r,
       Oferta.Oferta2x1_aplicar Ejemplo.listas Ejemplo.dos_por_uno Ejemplo.coca 1 = Ok r
       /\ py_eq r (NInt 0) = true.
Proof.
  split.
  - apply (proj1 (proj2 (Oferta2x1_aplicar_spec Ejemplo.listas Ejemplo.dos_por_uno
                           Ejemplo.agua 5))); reflexivity.
  - apply (proj2 (proj2 (Oferta2x1_aplicar_spec Ejemplo.listas Ejemplo.dos_por_uno
                           Ejemplo.coca 1))); reflexivity.
Defined.

(** C3 as the specification words it: an applicable 2x1 offer on a product
    of price 10, quantity 5; the discount is 20 and not 40. *)
Lemma Oferta2x1_diez_por_cinco :
  Oferta.esAplicable Ejemplo.listas Ejemplo.dos_por_uno Ejemplo.agua 5 = true
  /\ Producto._precio Ejemplo.agua = NInt 10
  /\ Oferta.Oferta2x1_aplicar Ejemplo.listas Ejemplo.dos_por_uno Ejemplo.agua 5
     = Ok (NInt 20)
  /\ py_eq (NInt 20) (NInt 40) = false.
Proof. repeat split. Qed.

Lemma OfertaDescuento_aplicar_spec_witness :
  Oferta.OfertaDescuento_aplicar Ejemplo.listas (NInt 20) Ejemplo.veinte Ejemplo.jugo 3
  = Ok (NFloat 60).
Proof.
  apply (proj2 (OfertaDescuento_aplicar_spec Ejemplo.listas (NInt 20) Ejemplo.veinte
                  Ejemplo.jugo 3)); [reflexivity | now left | now left].
Defined.

(** * Shared default lists of [Oferta] *)

(** An offer built without [codigos] and [tipos] is applicable to no
    product as long as nothing was ever appended to the default lists. *)
Lemma Oferta_por_defecto_no_aplica (c : Oferta.Clase) (descripcion : string)
  (producto : Producto.Producto) (cantidad : Z) :
  Oferta.esAplicable Oferta.listas_iniciales (Oferta.init c descripcion None None)
    producto cantidad = false.
Proof. reflexivity. Qed.

(** Any two offers built without [codigos] hold the same list object. *)
Lemma Oferta_por_defecto_alias (c1 c2 : Oferta.Clase) (d1 d2 : string) :
  Oferta.codigos (Oferta.init c1 d1 None None) = Oferta.codigos (Oferta.init c2 d2 None None)
  /\ Oferta.tipos (Oferta.init c1 d1 None None) = Oferta.tipos (Oferta.init c2 d2 None None).
Proof. split; reflexivity. Qed.

(** Appending a product's code to the [codigos] of one offer built with
    the defaults makes every other such offer applicable to the product. *)
Lemma Oferta_por_defecto_contagio (c1 c2 : Oferta.Clase) (d1 d2 : string)
  (h : gmap loc (list string)) (producto : Producto.Producto) (cantidad : Z) :
  let o1 := Oferta.init c1 d1 None None in
  let o2 := Oferta.init c2 d2 None None in
  Oferta.esAplicable (Oferta.append (Oferta.codigos o1) (Producto._codigo producto) h)
    o2 producto cantidad = true.
Proof.
  intros o1 o2. unfold Oferta.esAplicable, Oferta.append, Oferta.contenido. simpl.
  rewrite lookup_insert_eq. simpl. apply orb_true_iff. left.
  unfold Str.py_in. rewrite existsb_app. simpl. rewrite String.eqb_refl.
  now rewrite orb_true_r.
Qed.

(** C2 on the code: [o1 = Oferta2x1('A')], [o2 = Oferta2x1('B')], then
    [o1.codigos.append('0001')]. Before the append [o2] is applicable to no
    product; after it [o2.codigos] holds the code and [o2] is applicable to
    the product 0001, although only [o1] was touched. *)
Theorem Oferta_default_compartido :
  let o1 := Oferta.init Oferta.Oferta2x1 "A" None None in
  let o2 := Oferta.init Oferta.Oferta2x1 "B" None None in
  let h := Oferta.append (Oferta.codigos o1) "0001" Oferta.listas_iniciales in
  Oferta.esAplicable Oferta.listas_iniciales o2 Ejemplo.coca 1 = false
  /\ Oferta.contenido Oferta.listas_iniciales (Oferta.codigos o2) = []
  /\ Oferta.contenido h (Oferta.codigos o2) = ["0001"%string]
  /\ Oferta.esAplicable h o2 Ejemplo.coca 1 = true.
Proof. repeat split. Qed.

(** * Invoice numbering *)

Lemma crear_numeros (args : list (loc * loc * Z)) (u : Z) :
  map Factura.numero (crear args u).1
  = map (fun i => u + 1 + Z.of_nat i) (seq 0 (length args))
  /\ (crear args u).2 = u + Z.of_nat (length args).
Proof.
  revert u. induction args as [|[[cat cli] ahora] rest IH]; intros u; simpl.
  - split; [reflexivity|lia].
  - destruct (crear rest (u + 1)) as [fs u''] eqn:E.
    specialize (IH (u + 1)). rewrite E in IH. simpl in *.
    destruct IH as [IHn IHu]. split.
    + f_equal; [lia|]. rewrite IHn, <- seq_shift, map_map.
      apply map_ext. intros i. lia.
    + lia.
Qed.

(** C5. [N] invoices built in a row on the counter [u] get the numbers
    [u+1, ..., u+N], each the successor of the one before, and leave the
    counter at [u+N]; after [ultimaFactura(V)] the next invoice gets [V+1]. *)
Theorem Factura_numeracion (args : list (loc * loc * Z)) (u : Z) :
  map Factura.numero (crear args u).1
  = map (fun i => u + 1 + Z.of_nat i) (seq 0 (length args))
  /\ (forall (i : nat) (f g : Factura.Factura),
         (crear args u).1 !! i = Some f ->
         (crear args u).1 !! S i = Some g ->
         Factura.numero g = Factura.numero f + 1)
  /\ (crear args u).2 = u + Z.of_nat (length args)
  /\ (forall (V : Z) (cat cli : loc) (ahora : Z),
         Factura.numero (Factura.init cat cli ahora (Factura.ultimaFactura V u).2).1
         = V + 1).
Proof.
  destruct (crear_numeros args u) as [Hn Hu].
  split; [exact Hn|split; [|split; [exact Hu|reflexivity]]].
  intros i f g Hf Hg.
  assert (map Factura.numero (crear args u).1 !! i = Some (Factura.numero f)) as Hf'
    by (rewrite list_lookup_fmap, Hf; reflexivity).
  assert (map Factura.numero (crear args u).1 !! S i = Some (Factura.numero g)) as Hg'
    by (rewrite list_lookup_fmap, Hg; reflexivity).
  rewrite Hn in Hf', Hg'.
  rewrite list_lookup_fmap in Hf', Hg'.
  destruct (seq 0 (length args) !! i) as [a|] eqn:Ea; [|discriminate].
  destruct (seq 0 (length args) !! S i) as [b|] eqn:Eb; [|discriminate].
  apply lookup_seq in Ea, Eb. simpl in *.
  injection Hf' as <-. injection Hg' as <-. lia.
Qed.

(** * Invoice lines *)

Section Lineas.

Lemma agregar_en_presente (antes despues : list Factura.Item) (it : Factura.Item)
  (cant : Z) :
  Forall (fun i => Factura.producto i <> Factura.producto it) antes ->
  Factura.agregar_en (antes ++ it :: despues) (Factura.producto it) cant
  = antes ++ Factura.mkItem (Factura.producto it) (Factura.cantidad it + cant) :: despues.
Proof.
  induction 1 as [|i antes Hi _ IH]; simpl.
  - now rewrite Nat.eqb_refl.
  - apply Nat.eqb_neq in Hi. rewrite Hi. now rewrite IH.
Qed.

Lemma agregar_en_ausente (its : list Factura.Item) (prod : loc) (cant : Z) :
  Forall (fun i => Factura.producto i <> prod) its ->
  Factura.agregar_en its prod cant = its ++ [Factura.mkItem prod cant].
Proof.
  induction 1 as [|i its Hi _ IH]; simpl; [reflexivity|].
  apply Nat.eqb_neq in Hi. rewrite Hi. now rewrite IH.
Qed.

(** [agregar] keeps the lines of an invoice free of repeated products. *)
Lemma agregar_en_NoDup (its : list Factura.Item) (prod : loc) (cant : Z) :
  NoDup (map Factura.producto its) ->
  NoDup (map Factura.producto (Factura.agregar_en its prod cant)).
Proof.
  assert (forall l, map Factura.producto (Factura.agregar_en l prod cant)
                    = map Factura.producto l
                    \/ (Forall (fun i => Factura.producto i <> prod) l
                        /\ map Factura.producto (Factura.agregar_en l prod cant)
                           = map Factura.producto l ++ [prod])) as Hshape.
  { induction l as [|i l IH]; simpl.
    - right. split; [constructor|reflexivity].
    - destruct (Nat.eqb (Factura.producto i) prod) eqn:E; simpl.
      + now left.
      + apply Nat.eqb_neq in E. destruct IH as [-> | [Hall ->]].
        * now left.
        * right. split; [now constructor|reflexivity]. }
  intros Hnd. destruct (Hshape its) as [-> | [Hall ->]]; [assumption|].
  apply NoDup_app. split; [assumption|split].
  - intros x Hx Hx'. apply list_elem_of_singleton in Hx'. subst x.
    apply list_elem_of_fmap in Hx as (i & Hi & Hin).
    rewrite Forall_forall in Hall. now apply (Hall i).
  - apply NoDup_singleton.
Qed.

(** C6. [Factura.agregar] merges: when the invoice has a line of the
    product, the first such line gets the quantity added and the number of
    lines stays; otherwise one line is appended at the end. A product added
    with 2 and then with 3 to a new invoice gives the one line of quantity 5. *)
Theorem Factura_agregar_merge (self : Factura.Factura) (prod : loc) (cant : Z) :
  (forall antes it despues,
      Factura.items self = antes ++ it :: despues ->
      Factura.producto it = prod ->
      Forall (fun i => Factura.producto i <> prod) antes ->
      Factura.items (Factura.agregar self prod cant)
      = antes ++ Factura.mkItem prod (Factura.cantidad it + cant) :: despues
      /\ Factura.cantidadProductos (Factura.agregar self prod cant)
         = Factura.cantidadProductos self)
  /\ (Forall (fun i => Factura.producto i <> prod) (Factura.items self) ->
      Factura.items (Factura.agregar self prod cant)
      = Factura.items self ++ [Factura.mkItem prod cant])
  /\ (Factura.items self = [] ->
      Factura.items (Factura.agregar (Factura.agregar self prod 2) prod 3)
      = [Factura.mkItem prod 5]).
Proof.
  split; [|split].
  - intros antes it despues Hits <- Hantes. simpl.
    rewrite Hits, agregar_en_presente by assumption. split; [reflexivity|].
    unfold Factura.cantidadProductos. simpl.
    rewrite Hits, agregar_en_presente by assumption.
    rewrite !length_app. reflexivity.
  - intros Hall. simpl. now apply agregar_en_ausente.
  - intros Hnil. simpl. rewrite Hnil. simpl. now rewrite Nat.eqb_refl.
Qed.

End Lineas.

(** A product added twice to a new invoice, and a product added to an
    invoice that has it on its second line. *)
Lemma Factura_agregar_merge_witness :
  let f := (Factura.init 0%nat 0%nat 0 Factura._ultimo_numero_inicial).1 in
  let g := Factura.mkFactura 0%nat 0%nat 0
             [Factura.mkItem 3%nat 1; Factura.mkItem 7%nat 2; Factura.mkItem 9%nat 4] 1 in
  Factura.items (Factura.agregar (Factura.agregar f 7%nat 2) 7%nat 3)
  = [Factura.mkItem 7%nat 5]
  /\ Factura.items (Factura.agregar g 7%nat 3)
     = [Factura.mkItem 3%nat 1; Factura.mkItem 7%nat 5; Factura.mkItem 9%nat 4]
  /\ Factura.cantidadProductos (Factura.agregar g 7%nat 3) = 3.
Proof.
  intros f g. split.
  - apply (proj2 (proj2 (Factura_agregar_merge f 7%nat 0))). reflexivity.
  - destruct (proj1 (Factura_agregar_merge g 7%nat 3)
                [Factura.mkItem 3%nat 1] (Factura.mkItem 7%nat 2) [Factura.mkItem 9%nat 4])
      as [Hitems Hn].
    + reflexivity.
    + reflexivity.
    + repeat constructor. discriminate.
    + split; [exact Hitems|]. rewrite Hn. reflexivity.
Defined.

(** * The product list of a catalog *)

Section Productos.

Variable σ : gmap loc Producto.Producto.

Lemma buscar_en_primero (antes despues : list loc) (l : loc) (o : Producto.Producto)
  (codigo : string) :
  σ !! l = Some o ->
  Producto._codigo o = codigo ->
  Forall (otro_codigo σ codigo) antes ->
  Catalogo.buscar_en σ (antes ++ l :: despues) codigo = Ok (Some l).
Proof.
  intros Hl Hc. induction 1 as [|l' antes (o' & Hl' & Hc') _ IH]; simpl.
  - unfold deref. rewrite Hl. simpl. apply String.eqb_eq in Hc. now rewrite Hc.
  - unfold deref. rewrite Hl'. simpl. apply String.eqb_neq in Hc'. now rewrite Hc'.
Qed.

Lemma buscar_en_ninguno (ps : list loc) (codigo : string) :
  Forall (otro_codigo σ codigo) ps ->
  Catalogo.buscar_en σ ps codigo = Ok None.
Proof.
  induction 1 as [|l' ps (o' & Hl' & Hc') _ IH]; simpl; [reflexivity|].
  unfold deref. rewrite Hl'. simpl. apply String.eqb_neq in Hc'. now rewrite Hc'.
Qed.

(** C10. [Catalogo.agregar] appends whatever product it is given, also one
    whose code the catalog already has: the list grows by that one entry
    and keeps the earlier ones. [buscar] returns the earliest product of
    the list whose code is the argument, and [None] when there is none. *)
Theorem Catalogo_agregar_buscar (self : Catalogo.Catalogo) (producto : loc)
  (codigo : string) :
  Catalogo.productos (Catalogo.agregar self producto)
  = Catalogo.productos self ++ [producto]
  /\ Catalogo.cantidadProductos (Catalogo.agregar self producto)
     = Catalogo.cantidadProductos self + 1
  /\ (forall antes l despues o,
         Catalogo.productos self = antes ++ l :: despues ->
         σ !! l = Some o ->
         Producto._codigo o = codigo ->
         Forall (otro_codigo σ codigo) antes ->
         Catalogo.buscar σ self codigo = Ok (Some l))
  /\ (Forall (otro_codigo σ codigo) (Catalogo.productos self) ->
      Catalogo.buscar σ self codigo = Ok None).
Proof.
  split; [reflexivity|split; [|split]].
  - unfold Catalogo.cantidadProductos. simpl. rewrite length_app. simpl. lia.
  - intros antes l despues o Hps Hl Hc Hantes.
    unfold Catalogo.buscar. rewrite Hps. now apply (buscar_en_primero _ _ _ o).
  - intros Hall. now apply buscar_en_ninguno.
Qed.

End Productos.

(** Two products with the code 0001 are added: both are in the list, and
    [buscar] returns the one added first. *)
Lemma Catalogo_agregar_buscar_witness :
  let σ : gmap loc Producto.Producto :=
    <[1%nat := Producto.mkProducto "0001" "Coca Zero" (NInt 15) "gaseosa" 5]>
      (<[0%nat := Ejemplo.coca]> ∅) in
  let c := Catalogo.agregar (Catalogo.agregar Catalogo.init 0%nat) 1%nat in
  Catalogo.productos c = [0%nat; 1%nat]
  /\ Catalogo.buscar σ c "0001" = Ok (Some 0%nat).
Proof.
  intros σ c. split; [reflexivity|].
  apply (proj1 (proj2 (proj2 (Catalogo_agregar_buscar σ c 0%nat "0001")))
           [] 0%nat [1%nat] Ejemplo.coca); [reflexivity|reflexivity|reflexivity|constructor].
Defined.

(** * Validated fields *)

Section Validacion.

Context {A : Type}.

Lemma setattr_rechaza (setter : A -> res A) (l : loc) (σ : gmap loc A) (o : A) (e : exn) :
  σ !! l = Some o -> setter o = Raise e -> setattr setter l σ = (Raise e, σ).
Proof. intros Hl He. unfold setattr. now rewrite Hl, He. Qed.

Lemma setattr_acepta (setter : A -> res A) (l : loc) (σ : gmap loc A) (o o' : A) :
  σ !! l = Some o -> setter o = Ok o' -> setattr setter l σ = (Ok tt, <[l := o']> σ).
Proof. intros Hl He. unfold setattr. now rewrite Hl, He. Qed.

End Validacion.

(** The tests of the setters are the bounds of the data model. *)
Lemma Producto_cotas (codigo nombre tipo : string) (precio cantidad : Z) :
  (Producto.codigo_ok codigo = true
   <-> String.length codigo = 4%nat /\ Forall (fun c => Str.isdigit_char c = true) (Str.chars codigo))
  /\ (Producto.nombre_ok nombre = true <-> (1 <= String.length nombre <= 100)%nat)
  /\ (Producto.precio_ok (NInt precio) = true <-> 10 <= precio <= 10000)
  /\ (Producto.tipo_ok tipo = true <-> (0 <= String.length tipo <= 20)%nat)
  /\ (Producto.cantidad_ok cantidad = true <-> 0 <= cantidad <= 1000).
Proof.
  unfold Producto.codigo_ok, Producto.nombre_ok, Producto.precio_ok, Producto.tipo_ok,
    Producto.cantidad_ok, Str.isdigit, Str.len, py_le.
  rewrite !andb_true_iff, !Nat.leb_le, !Z.leb_le, Nat.eqb_eq, negb_true_iff,
    Nat.eqb_neq, forallb_forall, Forall_forall.
  split; [|repeat split; lia].
  split.
  - intros [H4 [_ Hd]]. split; [exact H4|].
    intros x Hx. apply Hd. now apply list_elem_of_In.
  - intros [H4 Hd]. split; [exact H4|]. split; [lia|].
    intros x Hx. apply Hd. now apply list_elem_of_In.
Qed.

(** For every field of [Producto]: a value that fails the test is refused
    with [ValueError] and the object in the store is left as it was; a
    value that passes is stored. *)
Lemma Producto_asignacion (σ : gmap loc Producto.Producto) (l : loc) (p : Producto.Producto) :
  σ !! l = Some p ->
  (forall v, setattr (Producto.set_codigo v) l σ
             = if Producto.codigo_ok v
               then (Ok tt, <[l := Producto.mkProducto v (Producto._nombre p)
                                      (Producto._precio p) (Producto._tipo p)
                                      (Producto._cantidad p)]> σ)
               else (Raise ValueError, σ))
  /\ (forall v, setattr (Producto.set_nombre v) l σ
                = if Producto.nombre_ok v
                  then (Ok tt, <[l := Producto.mkProducto (Producto._codigo p) v
                                         (Producto._precio p) (Producto._tipo p)
                                         (Producto._cantidad p)]> σ)
                  else (Raise ValueError, σ))
  /\ (forall v, setattr (Producto.set_precio v) l σ
                = if Producto.precio_ok v
                  then (Ok tt, <[l := Producto.mkProducto (Producto._codigo p)
                                         (Producto._nombre p) v (Producto._tipo p)
                                         (Producto._cantidad p)]> σ)
                  else (Raise ValueError, σ))
  /\ (forall v, setattr (Producto.set_tipo v) l σ
                = if Producto.tipo_ok v
                  then (Ok tt, <[l := Producto.mkProducto (Producto._codigo p)
                                         (Producto._nombre p) (Producto._precio p) v
                                         (Producto._cantidad p)]> σ)
                  else (Raise ValueError, σ))
  /\ (forall v, setattr (Producto.set_cantidad v) l σ
                = if Producto.cantidad_ok v
                  then (Ok tt, <[l := Producto.mkProducto (Producto._codigo p)
                                         (Producto._nombre p) (Producto._precio p)
                                         (Producto._tipo p) v]> σ)
                  else (Raise ValueError, σ)).
Proof.
  intros Hl. unfold setattr. rewrite Hl.
  unfold Producto.set_codigo, Producto.set_nombre, Producto.set_precio,
    Producto.set_tipo, Producto.set_cantidad.
  repeat split; intros v;
    match goal with |- context [if ?b then Ok _ else _] => destruct b end; reflexivity.
Qed.

(** Construction succeeds exactly when the five tests pass. *)
Lemma Producto_init_valido (codigo nombre : string) (precio : num) (tipo : string)
  (cantidad : Z) :
  Producto.init codigo nombre precio tipo cantidad
  = if Producto.valido (Producto.mkProducto codigo nombre precio tipo cantidad)
    then Ok (Producto.mkProducto codigo nombre precio tipo cantidad)
    else Raise ValueError.
Proof.
  unfold Producto.init, Producto.valido. simpl.
  destruct (Producto.codigo_ok codigo), (Producto.nombre_ok nombre),
    (Producto.precio_ok precio), (Producto.tipo_ok tipo),
    (Producto.cantidad_ok cantidad); reflexivity.
Qed.

Lemma isdigit_char_no_guion (c : ascii) :
  Str.isdigit_char c = true -> Ascii.eqb c "-" = false.
Proof. destruct c as [[] [] [] [] [] [] [] []]; vm_compute; congruence. Qed.

(** A tax id in the format [XX-XXXXXXXX-X] is accepted. *)
Lemma Cliente_cuit_en_formato (value : string) :
  Cliente.formato_cuit value = true -> Cliente.cuit_ok value = true.
Proof.
  unfold Cliente.formato_cuit, Cliente.cuit_ok, Str.len, Str.chars.
  intros H. apply andb_true_iff in H as [Hlen H]. apply Nat.eqb_eq in Hlen.
  do 13 (destruct value as [|? value]; [discriminate Hlen|]).
  destruct value; [|discriminate Hlen]. clear Hlen.
  cbn [list_ascii_of_string Cliente.formato_desde Nat.eqb orb] in H.
  repeat match type of H with
         | (_ && _) = true => let H1 := fresh "D" in apply andb_true_iff in H as [H1 H]
         end.
  apply Ascii.eqb_eq in D1, D10. subst.
  repeat match goal with
         | D : Str.isdigit_char _ = true |- _ =>
             pose proof (isdigit_char_no_guion _ D); revert D
         end.
  intros. unfold Str.isdigit, Str.char_at_is, Str.len, Str.chars. cbn.
  repeat match goal with E : Ascii.eqb _ _ = false |- _ => rewrite E; clear E end.
  cbn. repeat match goal with D : Str.isdigit_char _ = true |- _ => rewrite D; clear D end.
  reflexivity.
Qed.

(** The two fields of [Cliente]: a value that fails the test is refused and
    the stored client is left as it was; a value that passes is stored. *)
Lemma Cliente_asignacion (σ : gmap loc Cliente.Cliente) (l : loc) (c : Cliente.Cliente) :
  σ !! l = Some c ->
  (forall v, setattr (Cliente.set_nombre v) l σ
             = if Cliente.nombre_ok v
               then (Ok tt, <[l := Cliente.mkCliente v (Cliente._cuit c)]> σ)
               else (Raise ValueError, σ))
  /\ (forall v, setattr (Cliente.set_cuit v) l σ
                = if Cliente.cuit_ok v
                  then (Ok tt, <[l := Cliente.mkCliente (Cliente._nombre c) v]> σ)
                  else (Raise ValueError, σ)).
Proof.
  intros Hl. unfold setattr. rewrite Hl.
  unfold Cliente.set_nombre, Cliente.set_cuit.
  split; intros v;
    match goal with |- context [if ?b then Ok _ else _] => destruct b end; reflexivity.
Qed.

(** C7 on the code: the tax id [1------------] is not in the format
    [XX-XXXXXXXX-X], and the setter stores it, on an existing client and at
    construction alike. *)
Theorem Cliente_cuit_fuera_de_formato :
  let cuit := "1------------"%string in
  let σ : gmap loc Cliente.Cliente := <[0%nat := Ejemplo.juan]> ∅ in
  Cliente.formato_cuit cuit = false
  /\ Cliente.set_cuit cuit Ejemplo.juan = Ok (Cliente.mkCliente "Juan Perez" cuit)
  /\ (setattr (Cliente.set_cuit cuit) 0%nat σ).1 = Ok tt
  /\ (setattr (Cliente.set_cuit cuit) 0%nat σ).2 !! 0%nat
     = Some (Cliente.mkCliente "Juan Perez" cuit)
  /\ Cliente.init "Juan Perez" cuit = Ok (Cliente.mkCliente "Juan Perez" cuit).
Proof. repeat split. Qed.

(** * Persistence *)

(** Nothing read in universal-newlines mode holds a carriage return. *)
Lemma universal_newlines_sin_CR (cs : list ascii) :
  Forall (fun c => c <> Csv.CR) (Csv.universal_newlines cs).
Proof.
  assert (forall n cs, (length cs <= n)%nat ->
                       Forall (fun c => c <> Csv.CR) (Csv.universal_newlines cs)) as H.
  { clear cs. induction n as [|n IH]; intros [|c r] Hn; simpl in Hn; try lia;
      [constructor|constructor|].
    simpl. destruct (Ascii.eqb c Csv.CR) eqn:E.
    - constructor; [discriminate|].
      destruct r as [|c' r']; [constructor|].
      destruct (Ascii.eqb c' Csv.LF); apply IH; simpl in *; lia.
    - constructor; [now apply Ascii.eqb_neq|apply IH; lia]. }
  now apply (H (length cs)).
Qed.

Section IdaYVuelta.

Variable rt : Persistencia.Runtime.

Lemma guardar_panaderia (archivo : string) (fs : gmap string string) :
  Persistencia.guardar rt Ejemplo.panes Ejemplo.panaderia archivo fs
  = Ok (<[archivo := Ejemplo.texto_panaderia]> fs).
Proof. reflexivity. Qed.

(** Read back, the carriage return has become a line feed. *)
Lemma reader_panaderia :
  Csv.reader Ejemplo.texto_panaderia
  = ([Persistencia.encabezado;
      ["0005"; "pan" +:+ String Csv.LF "dulce"; "10"; ""; "0"]%string], Ok tt).
Proof. vm_compute. reflexivity. Qed.

(** C8 on the code: the catalog of one valid product whose name is
    [pan\rdulce] is saved and read back. Whatever the conversions of the
    numbers do, the round trip does not give the saved list back: the
    reader is handed the file in universal-newlines mode, so the name comes
    back as [pan\ndulce] (or the load fails). *)
Theorem ida_y_vuelta_retorno_de_carro (archivo : string) (fs : gmap string string) :
  Producto.valido Ejemplo.pan = true
  /\ ida_y_vuelta rt Ejemplo.panes Ejemplo.panaderia archivo fs = false.
Proof.
  split; [reflexivity|].
  unfold ida_y_vuelta. rewrite guardar_panaderia.
  unfold Persistencia.leer. rewrite lookup_insert_eq, reader_panaderia.
  cbn [Persistencia.cargar Persistencia.producto_de_fila].
  destruct (Persistencia.float_of_str rt "10") as [f|]; [|reflexivity].
  destruct (Persistencia.int_of_str rt "0") as [z|]; [|reflexivity].
  cbn [of_option mbind res_bind].
  rewrite Producto_init_valido.
  destruct (Producto.valido _); [|reflexivity].
  unfold alloc.
  cbn [Persistencia.cargar app Catalogo.productos Catalogo.objetos].
  unfold deref. rewrite lookup_insert_eq. reflexivity.
Qed.

End IdaYVuelta.

Section SinRetorno.

Lemma chars_string_of_list (cs : list ascii) :
  Str.chars (string_of_list_ascii cs) = cs.
Proof. apply list_ascii_of_string_of_list_ascii. Qed.

Lemma limpio_set_state (st : Csv.State) (r : Csv.Reader) :
  limpio r -> limpio (Csv.set_state st r).
Proof. intros [? ?]. split; assumption. Qed.

Lemma limpio_save_field (r : Csv.Reader) : limpio r -> limpio (Csv.parse_save_field r).
Proof.
  intros [Hf Hfs]. split; simpl; [constructor|].
  apply Forall_app. split; [assumption|]. apply Forall_singleton.
  unfold sin_CR. now rewrite chars_string_of_list.
Qed.

Lemma limpio_add_char (r r' : Csv.Reader) (c : ascii) :
  limpio r -> c <> Csv.CR -> Csv.parse_add_char r c = Ok r' -> limpio r'.
Proof.
  intros [Hf Hfs] Hc. unfold Csv.parse_add_char.
  destruct (Csv.field_limit <=? _); [discriminate|]. intros [= <-].
  split; simpl; [|assumption]. apply Forall_app. split; [assumption|now apply Forall_singleton].
Qed.

Lemma limpio_process_char (r r' : Csv.Reader) (c : option ascii) :
  limpio r ->
  match c with Some x => x <> Csv.CR | None => True end ->
  Csv.parse_process_char r c = Ok r' ->
  limpio r'.
Proof.
  intros Hr Hc. unfold Csv.parse_process_char, Csv.en_start_field.
  destruct (Csv.state r), c as [x|];
    repeat match goal with
           | |- context [if ?b then _ else _] => destruct b
           | |- context [Csv.parse_add_char ?a ?b] =>
               let E := fresh "E" in
               destruct (Csv.parse_add_char a b) as [?|?] eqn:E; simpl;
               [apply limpio_add_char in E;
                [|auto using limpio_set_state, limpio_save_field|assumption]|]
           end;
    intros [= <-];
    auto using limpio_set_state, limpio_save_field.
Qed.

Lemma limpio_procesar_linea (cs : list ascii) (r r' : Csv.Reader) :
  limpio r -> Forall (fun c => c <> Csv.CR) cs ->
  Csv.procesar_linea r cs = Ok r' -> limpio r'.
Proof.
  intros Hr Hcs. revert r Hr. induction Hcs as [|c cs Hc _ IH]; intros r Hr; simpl.
  - now apply limpio_process_char.
  - destruct (Csv.parse_process_char r (Some c)) as [r1|] eqn:E; [|discriminate]. simpl.
    apply IH. now apply (limpio_process_char r r1 (Some c)).
Qed.

Lemma limpio_filas (ls : list (list ascii)) (r : Csv.Reader) :
  limpio r ->
  Forall (Forall (fun c => c <> Csv.CR)) ls ->
  Forall (Forall sin_CR) (Csv.filas r ls).1.
Proof.
  intros Hr Hls. revert r Hr. induction Hls as [|l ls Hl _ IH]; intros r Hr; simpl.
  - destruct (Csv.en_registro r); simpl; [|constructor].
    apply Forall_singleton. now apply limpio_save_field.
  - destruct (Csv.procesar_linea r l) as [r1|] eqn:E; [|constructor].
    apply limpio_procesar_linea in E; [|assumption|assumption].
    assert (limpio Csv.parse_reset) as H0 by (split; constructor).
    specialize (IH Csv.parse_reset H0) as IH0.
    destruct (Csv.state r1);
      try (now apply IH).
    destruct (Csv.filas Csv.parse_reset ls) as [rows fin]. simpl in *.
    constructor; [apply E|assumption].
Qed.

Lemma lineas_sin_CR (cs : list ascii) :
  Forall (fun c => c <> Csv.CR) cs ->
  Forall (Forall (fun c => c <> Csv.CR)) (Csv.lineas cs).
Proof.
  induction 1 as [|c cs Hc _ IH]; simpl; [constructor|].
  destruct (Ascii.eqb c Csv.LF).
  - constructor; [now apply Forall_singleton|assumption].
  - destruct (Csv.lineas cs) as [|l ls]; [repeat constructor; assumption|].
    apply Forall_cons in IH as [Hl Hls]. constructor; [now constructor|assumption].
Qed.

(** No field that [csv.reader] yields from a file opened in
    universal-newlines mode holds a carriage return. *)
Lemma reader_sin_CR (text : string) : Forall (Forall sin_CR) (Csv.reader text).1.
Proof.
  unfold Csv.reader. apply limpio_filas; [split; constructor|].
  apply lineas_sin_CR, universal_newlines_sin_CR.
Qed.

Variable rt : Persistencia.Runtime.

Lemma producto_de_fila_sin_CR (row : list string) (p : Producto.Producto) :
  Forall sin_CR row -> Persistencia.producto_de_fila rt row = Ok p ->
  sin_CR (Producto._nombre p).
Proof.
  unfold Persistencia.producto_de_fila.
  destruct row as [|codigo [|nombre [|precio [|tipo [|cantidad [|? ?]]]]]]; try discriminate.
  intros Hrow. destruct (Persistencia.float_of_str rt precio); [|discriminate].
  destruct (Persistencia.int_of_str rt cantidad); [|discriminate]. simpl.
  rewrite Producto_init_valido. destruct (Producto.valido _); [|discriminate].
  intros [= <-]. simpl. apply Forall_cons in Hrow as [_ Hrow].
  now apply Forall_cons in Hrow as [Hn _].
Qed.

Lemma alloc_fresco (p : Producto.Producto) (σ : gmap loc Producto.Producto) :
  σ !! (alloc p σ).1 = None.
Proof.
  unfold alloc. simpl. apply not_elem_of_dom. apply is_fresh.
Qed.

(** Every product that [cargar] has in the list has a name without a
    carriage return, if that holds when the loop starts. *)
Lemma cargar_sin_CR (rows : list (list string)) (fin : res unit)
  (σ : gmap loc Producto.Producto) (ps : list loc) :
  Forall (Forall sin_CR) rows ->
  Forall (fun l => exists p, σ !! l = Some p /\ sin_CR (Producto._nombre p)) ps ->
  let '(_, (σ', ps')) := Persistencia.cargar rt rows fin σ ps in
  Forall (fun l => exists p, σ' !! l = Some p /\ sin_CR (Producto._nombre p)) ps'.
Proof.
  intros Hrows. revert σ ps. induction Hrows as [|row rows Hrow _ IH]; intros σ ps Hps; simpl.
  - assumption.
  - destruct (Persistencia.producto_de_fila rt row) as [p|] eqn:E; [|assumption].
    pose proof (producto_de_fila_sin_CR row p Hrow E) as Hp.
    pose proof (alloc_fresco p σ) as Hfresh.
    unfold alloc in *. simpl in *.
    apply IH. apply Forall_app. split.
    + eapply Forall_impl; [exact Hps|]. intros l (q & Hl & Hq). exists q.
      split; [|assumption]. rewrite lookup_insert_ne; [assumption|]. congruence.
    + apply Forall_singleton. exists p. split; [apply lookup_insert_eq|assumption].
Qed.

Lemma objetos_Forall (P : Producto.Producto -> Prop) (σ : gmap loc Producto.Producto)
  (ps : list loc) (os : list Producto.Producto) :
  Forall (fun l => exists p, σ !! l = Some p /\ P p) ps ->
  Catalogo.objetos σ ps = Ok os -> Forall P os.
Proof.
  intros Hps. revert os. induction Hps as [|l ps (p & Hl & Hp) _ IH]; intros os; simpl.
  - intros [= <-]. constructor.
  - unfold deref. rewrite Hl. simpl.
    destruct (Catalogo.objetos σ ps) as [os'|]; [|discriminate]. simpl.
    intros [= <-]. constructor; [assumption|now apply IH].
Qed.

Lemma mismos_productos_nombres (xs ys : list Producto.Producto) :
  Persistencia.mismos_productos xs ys = true ->
  map Producto._nombre xs = map Producto._nombre ys.
Proof.
  revert ys. induction xs as [|x xs IH]; intros [|y ys]; simpl; try discriminate; [reflexivity|].
  unfold Persistencia.mismo_producto. rewrite !andb_true_iff.
  intros [[[[[_ Hn] _] _] _] H]. apply String.eqb_eq in Hn. rewrite Hn. f_equal. now apply IH.
Qed.

(** The round trip fails for every catalog that holds a product whose
    name has a carriage return in it. *)
Lemma ida_y_vuelta_con_CR (σ : gmap loc Producto.Producto) (self : Catalogo.Catalogo)
  (archivo : string) (fs : gmap string string) (os : list Producto.Producto) :
  Catalogo.objetos σ (Catalogo.productos self) = Ok os ->
  Exists (fun p => ~ sin_CR (Producto._nombre p)) os ->
  ida_y_vuelta rt σ self archivo fs = false.
Proof.
  intros Hos Hex. unfold ida_y_vuelta, Persistencia.guardar. rewrite Hos. simpl.
  unfold Persistencia.leer. rewrite lookup_insert_eq.
  pose proof (reader_sin_CR (string_of_list_ascii
                (Csv.writerow Persistencia.encabezado ++ Persistencia.escribir rt os))) as Hr.
  destruct (Csv.reader _) as [[|header rows] fin]; [destruct fin; reflexivity|].
  simpl in Hr. apply Forall_cons in Hr as [_ Hrows].
  pose proof (cargar_sin_CR rows fin σ [] Hrows ltac:(constructor)) as Hc.
  destruct (Persistencia.cargar rt rows fin σ []) as [out [σ' ps]].
  destruct out; [|reflexivity]. simpl.
  destruct (Catalogo.objetos σ' ps) as [os'|] eqn:Hos'; [|reflexivity].
  pose proof (objetos_Forall _ σ' ps os' Hc Hos') as Hclean.
  destruct (Persistencia.mismos_productos os os') eqn:Hm; [|reflexivity].
  exfalso. apply mismos_productos_nombres in Hm.
  apply Exists_exists in Hex as (p & Hp & Hcr). apply Hcr.
  assert (Producto._nombre p ∈ map Producto._nombre os') as Hin.
  { rewrite <- Hm. apply list_elem_of_fmap. now exists p. }
  apply list_elem_of_fmap in Hin as (q & -> & Hq).
  rewrite Forall_forall in Hclean. now apply Hclean.
Qed.

End SinRetorno.

(** A catalog whose names hold no special character is read back as it
    was saved, the int price 10 as the float 10.0. *)
Example ida_y_vuelta_bebidas :
  ida_y_vuelta Ejemplo.conversiones Ejemplo.bebidas_en_stock Ejemplo.surtido "catalogo.csv" ∅ = true.
Proof. vm_compute. reflexivity. Qed.

(** * The report *)

Section Sumas.

Lemma float_bound_grande : 10 ^ 30 < float_bound.
Proof. reflexivity. Qed.

Lemma float_of_int_ok (z : Z) :
  0 <= z <= 10 ^ 30 -> float_of_int z = Ok (round_int z).
Proof.
  intros Hz. unfold float_of_int.
  pose proof float_bound_grande.
  destruct (Z.leb_spec float_bound (Z.abs z)); [lia|reflexivity].
Qed.

Lemma sum_cantidad_acc (os : list Producto.Producto) (acc : Z) :
  Catalogo.sum_cantidad acc os = acc + Catalogo.sum_cantidad 0 os.
Proof.
  revert acc. induction os as [|p os IH]; intros acc; simpl; [lia|].
  rewrite (IH (acc + _)), (IH (0 + _)). lia.
Qed.

Lemma sum_cantidad_snoc (os : list Producto.Producto) (p : Producto.Producto) (acc : Z) :
  Catalogo.sum_cantidad acc (os ++ [p])
  = Catalogo.sum_cantidad acc os + Producto._cantidad p.
Proof. revert acc. induction os as [|q os IH]; intros acc; simpl; [reflexivity|apply IH]. Qed.

Lemma sum_valor_snoc (os : list Producto.Producto) (p : Producto.Producto) (acc : num) :
  Catalogo.sum_valor acc (os ++ [p])
  = (a ← Catalogo.sum_valor acc os; v ← Producto.valorTotal p; py_add a v).
Proof.
  revert acc. induction os as [|q os IH]; intros acc; simpl.
  - destruct (Producto.valorTotal p) as [v|]; simpl; [|reflexivity].
    destruct (py_add acc v); reflexivity.
  - destruct (Producto.valorTotal q) as [v|]; simpl; [|reflexivity].
    destruct (py_add acc v) as [a|]; simpl; [apply IH|reflexivity].
Qed.

Lemma valido_cotas (p : Producto.Producto) :
  Producto.valido p = true ->
  0 <= Producto._cantidad p <= 1000
  /\ match Producto._precio p with
     | NInt z => 10 <= z <= 10000
     | NFloat _ => True
     end.
Proof.
  unfold Producto.valido. rewrite !andb_true_iff.
  intros [[[[_ _] Hp] _] Hc].
  unfold Producto.cantidad_ok in Hc. rewrite andb_true_iff, !Z.leb_le in Hc.
  split; [exact Hc|].
  destruct (Producto._precio p) as [z|f]; [|exact I].
  unfold Producto.precio_ok, py_le in Hp. rewrite andb_true_iff, !Z.leb_le in Hp. exact Hp.
Qed.

Lemma sum_cantidad_cotas (os : list Producto.Producto) :
  Forall (fun p => Producto.valido p = true) os ->
  0 <= Catalogo.sum_cantidad 0 os <= 1000 * Z.of_nat (length os).
Proof.
  induction 1 as [|p os Hp _ IH]; simpl; [lia|].
  rewrite sum_cantidad_acc. apply valido_cotas in Hp as [Hc _]. lia.
Qed.

(** The value of a valid product, and one step of a running total. *)
Lemma valorTotal_ok (p : Producto.Producto) :
  Producto.valido p = true ->
  exists v, Producto.valorTotal p = Ok v /\ cota v (Producto._cantidad p)
            /\ match v with NInt z => z <= 10 ^ 7 | NFloat _ => True end.
Proof.
  intros Hp. apply valido_cotas in Hp as [Hc Hz]. unfold Producto.valorTotal.
  destruct (Producto._precio p) as [z|f]; simpl.
  - eexists. split; [reflexivity|]. simpl. nia.
  - rewrite float_of_int_ok by lia. simpl. eexists. split; [reflexivity|]. simpl. tauto.
Qed.

Lemma py_add_ok (a v : num) (u c : Z) :
  cota a u -> cota v c -> 0 <= u -> 10000 * u <= 10 ^ 30 ->
  match v with NInt z => z <= 10 ^ 7 | NFloat _ => True end ->
  exists r, py_add a v = Ok r /\ cota r (u + c).
Proof.
  intros Ha Hv Hu Hb Hz. destruct a as [x|f], v as [y|g]; simpl in *.
  - eexists. split; [reflexivity|]. simpl. lia.
  - rewrite float_of_int_ok by lia. simpl. eexists. split; [reflexivity|exact I].
  - rewrite float_of_int_ok by lia. simpl. eexists. split; [reflexivity|exact I].
  - eexists. split; [reflexivity|exact I].
Qed.

Lemma sum_valor_ok (os : list Producto.Producto) (acc : num) (u : Z) :
  Forall (fun p => Producto.valido p = true) os ->
  cota acc u -> 0 <= u ->
  10000 * (u + 1000 * Z.of_nat (length os)) <= 10 ^ 30 ->
  exists v, Catalogo.sum_valor acc os = Ok v
            /\ cota v (u + Catalogo.sum_cantidad 0 os).
Proof.
  intros Hos. revert acc u.
  induction Hos as [|p os Hp Hos IH]; intros acc u Hacc Hu Hb; simpl.
  - exists acc. split; [reflexivity|]. now rewrite Z.add_0_r.
  - destruct (valorTotal_ok p Hp) as (v & -> & Hv & Hz). simpl.
    pose proof (valido_cotas p Hp) as [Hc _].
    simpl length in Hb. rewrite Nat2Z.inj_succ in Hb.
    destruct (py_add_ok acc v u (Producto._cantidad p)) as (r & -> & Hr); try assumption; [lia|].
    simpl. destruct (IH r (u + Producto._cantidad p)) as (w & -> & Hw); try assumption; try lia.
    exists w. split; [reflexivity|].
    rewrite (sum_cantidad_acc os (0 + _)).
    now replace (u + (0 + Producto._cantidad p + Catalogo.sum_cantidad 0 os))
      with (u + Producto._cantidad p + Catalogo.sum_cantidad 0 os) by lia.
Qed.

End Sumas.

Section Agrupar.

Lemma tipos_has_in (k : string) (d : Catalogo.Tipos) :
  Catalogo.tipos_has k d = true <-> k ∈ map fst d.
Proof.
  unfold Catalogo.tipos_has. rewrite existsb_exists. split.
  - intros (e & He & Hk). apply String.eqb_eq in Hk. subst k.
    apply list_elem_of_fmap. exists e. split; [reflexivity|now apply list_elem_of_In].
  - intros (e & -> & He)%list_elem_of_fmap. exists e.
    split; [now apply list_elem_of_In|apply String.eqb_refl].
Qed.

(** [d[k] = f(d[k])] changes the one entry of the key [k]. *)
Lemma tipos_alter_ok (f : Z * num -> res (Z * num)) (k : string) (d : Catalogo.Tipos)
  (x w : Z * num) :
  NoDup (map fst d) -> (k, x) ∈ d -> f x = Ok w ->
  exists d', Catalogo.tipos_alter f k d = Ok d'
    /\ map fst d' = map fst d
    /\ (k, w) ∈ d'
    /\ (forall t y, (t, y) ∈ d' -> (t = k /\ y = w) \/ (t <> k /\ (t, y) ∈ d)).
Proof.
  intros Hnd Hin Hf. induction d as [|[t y] d IH]; [now apply elem_of_nil in Hin|].
  simpl in *. apply NoDup_cons in Hnd as [Hnt Hnd].
  destruct (String.eqb_spec t k) as [->|Hne].
  - assert (y = x) as ->.
    { apply elem_of_cons in Hin as [Heq|Hin]; [congruence|].
      exfalso. apply Hnt. apply list_elem_of_fmap. now exists (k, x). }
    rewrite Hf. simpl. eexists. split; [reflexivity|]. split; [reflexivity|].
    split; [apply list_elem_of_here|].
    intros t' y' [Heq|Hin']%elem_of_cons.
    + left. now inversion Heq.
    + right. split; [|now apply list_elem_of_further].
      intros ->. apply Hnt. apply list_elem_of_fmap. now exists (k, y').
  - apply elem_of_cons in Hin as [Heq|Hin]; [congruence|].
    destruct (IH Hnd Hin) as (d' & -> & Hk & Hw & Hd'). simpl.
    eexists. split; [reflexivity|]. simpl. split; [now rewrite Hk|].
    split; [now apply list_elem_of_further|].
    intros t' y' [Heq|Hin']%elem_of_cons.
    + inversion Heq; subst. right. split; [assumption|apply list_elem_of_here].
    + destruct (Hd' _ _ Hin') as [?|[? ?]]; [now left|right].
      split; [assumption|now apply list_elem_of_further].
Qed.

Lemma de_tipo_snoc (t : string) (os : list Producto.Producto) (p : Producto.Producto) :
  de_tipo t (os ++ [p])
  = if String.eqb (Producto._tipo p) t then de_tipo t os ++ [p] else de_tipo t os.
Proof.
  unfold de_tipo. rewrite List.filter_app. simpl.
  destruct (String.eqb (Producto._tipo p) t); [reflexivity|apply app_nil_r].
Qed.

Lemma de_tipo_ausente (t : string) (os : list Producto.Producto) :
  t ∉ map Producto._tipo os -> de_tipo t os = [].
Proof.
  induction os as [|q os IH]; intros Hn; [reflexivity|]. simpl in *.
  rewrite not_elem_of_cons in Hn. destruct Hn as [Hq Hn].
  destruct (String.eqb_spec (Producto._tipo q) t) as [E|_]; [congruence|now apply IH].
Qed.

Lemma de_tipo_valido (t : string) (os : list Producto.Producto) :
  Forall (fun p => Producto.valido p = true) os ->
  Forall (fun p => Producto.valido p = true) (de_tipo t os)
  /\ (length (de_tipo t os) <= length os)%nat.
Proof.
  induction 1 as [|q os Hq _ [IH1 IH2]]; simpl; [split; [constructor|lia]|].
  destruct (String.eqb (Producto._tipo q) t); simpl; split; try lia; [now constructor|assumption].
Qed.

(** One turn of the first loop of [informe]. *)
Lemma agrupar_uno_ok (pre : list Producto.Producto) (p : Producto.Producto)
  (d : Catalogo.Tipos) :
  agrupa pre d ->
  Forall (fun q => Producto.valido q = true) (pre ++ [p]) ->
  Z.of_nat (length (pre ++ [p])) <= PY_SSIZE_T_MAX ->
  exists d', Catalogo.agrupar_uno d p = Ok d' /\ agrupa (pre ++ [p]) d'.
Proof.
  intros (Hnd & Hkeys & Hent) Hval Hlen.
  set (k := Producto._tipo p).
  (* the dict once the key is in it *)
  set (d1 := if Catalogo.tipos_has k d then d else d ++ [(k, (0, NInt 0))]).
  assert (NoDup (map fst d1)
          /\ (forall t, t ∈ map fst d -> t ∈ map fst d1)
          /\ (exists v0, (k, (unidades_de k pre, v0)) ∈ d1 /\ valor_de k pre = Ok v0)
          /\ (forall t y, (t, y) ∈ d1 -> t = k \/ (t, y) ∈ d)) as (Hnd1 & Hsub & (v0 & Hk1 & Hv0) & Hd1).
  { subst d1. destruct (Catalogo.tipos_has k d) eqn:Ehas.
    - apply tipos_has_in in Ehas. apply list_elem_of_fmap in Ehas as ([t [u v]] & Ht & Hin).
      simpl in Ht. subst t. destruct (Hent _ _ _ Hin) as (_ & Hu & Hv).
      split; [assumption|]. split; [tauto|]. split; [|now right].
      exists v. split; [now rewrite <- Hu|assumption].
    - assert (k ∉ map fst d) as Hnk.
      { intros Hk. apply tipos_has_in in Hk. congruence. }
      assert (de_tipo k pre = []) as Hnil.
      { apply de_tipo_ausente. intros (q & Hq & Hin)%list_elem_of_fmap.
        apply Hnk. rewrite Hq. now apply Hkeys. }
      rewrite fmap_app. simpl. split; [|split; [|split]].
      + apply NoDup_app. split; [assumption|]. split; [|apply NoDup_singleton].
        intros t Ht ->%list_elem_of_singleton. contradiction.
      + intros t Ht. apply elem_of_app. now left.
      + exists (NInt 0). unfold unidades_de, valor_de. rewrite Hnil. simpl.
        split; [|reflexivity]. apply elem_of_app. right. apply list_elem_of_here.
      + intros t y [Hin|Hin]%elem_of_app; [now right|].
        apply list_elem_of_singleton in Hin. left. now inversion Hin. }
  (* the sums of the category with the new product *)
  apply Forall_app in Hval as [Hpre Hp]. rewrite Forall_singleton in Hp.
  destruct (de_tipo_valido k pre Hpre) as [Hdv Hdl].
  rewrite length_app in Hlen. simpl in Hlen. unfold PY_SSIZE_T_MAX in Hlen.
  assert (exists vt v', Producto.valorTotal p = Ok vt /\ py_add v0 vt = Ok v'
                        /\ valor_de k (pre ++ [p]) = Ok v') as (vt & v' & Hvt & Hadd & Hv').
  { destruct (sum_valor_ok (de_tipo k pre ++ [p]) (NInt 0) 0) as (v' & Hs & _).
    - apply Forall_app. split; [assumption|now apply Forall_singleton].
    - simpl. lia.
    - lia.
    - rewrite length_app. simpl. change (10 ^ 30) with 1000000000000000000000000000000.
      change (2 ^ 63) with 9223372036854775808 in Hlen. lia.
    - pose proof Hs as Hs'. rewrite sum_valor_snoc in Hs.
      unfold valor_de in Hv0. rewrite Hv0 in Hs. simpl in Hs.
      destruct (Producto.valorTotal p) as [vt|]; [|discriminate]. simpl in Hs.
      exists vt, v'. repeat split; [assumption|].
      unfold valor_de. rewrite de_tipo_snoc. fold k. now rewrite String.eqb_refl. }
  (* the two updates *)
  unfold Catalogo.agrupar_uno. fold k. fold d1.
  destruct (tipos_alter_ok
              (fun u => Ok (u.1 + Producto._cantidad p, u.2)) k d1
              (unidades_de k pre, v0) _ Hnd1 Hk1 eq_refl)
    as (d2 & -> & Hkeys2 & Hk2 & Hd2). simpl.
  rewrite Hvt. simpl.
  destruct (tipos_alter_ok
              (fun u => v ← py_add u.2 vt; Ok (u.1, v)) k d2
              (unidades_de k pre + Producto._cantidad p, v0)
              (unidades_de k pre + Producto._cantidad p, v'))
    as (d3 & -> & Hkeys3 & Hk3 & Hd3).
  { now rewrite Hkeys2. }
  { exact Hk2. }
  { simpl. now rewrite Hadd. }
  exists d3. split; [reflexivity|]. split; [|split].
  - now rewrite Hkeys3, Hkeys2.
  - intros q [Hq|Hq]%elem_of_app; rewrite Hkeys3, Hkeys2.
    + apply Hsub. now apply Hkeys.
    + apply list_elem_of_singleton in Hq. subst q.
      apply list_elem_of_fmap. now exists (k, (unidades_de k pre, v0)).
  - intros t u v Hin. rewrite fmap_app. simpl.
    destruct (Hd3 _ _ Hin) as [[-> Heq]|[Hne Hin2]].
    + inversion Heq; subst. split; [|split].
      * apply elem_of_app. right. apply list_elem_of_here.
      * unfold unidades_de. rewrite de_tipo_snoc. fold k. rewrite String.eqb_refl.
        now rewrite sum_cantidad_snoc.
      * exact Hv'.
    + destruct (Hd2 _ _ Hin2) as [[-> _]|[_ Hin1]]; [contradiction|].
      destruct (Hd1 _ _ Hin1) as [->|Hin0]; [contradiction|].
      destruct (Hent _ _ _ Hin0) as (Ht & Hu & Hv).
      assert (String.eqb k t = false) as Ekt by (apply String.eqb_neq; congruence).
      split; [|split].
      * apply elem_of_app. now left.
      * unfold unidades_de. rewrite de_tipo_snoc. fold k. now rewrite Ekt.
      * unfold valor_de. rewrite de_tipo_snoc. fold k. now rewrite Ekt.
Qed.

Lemma agrupar_ok (os pre : list Producto.Producto) (d : Catalogo.Tipos) :
  agrupa pre d ->
  Forall (fun q => Producto.valido q = true) (pre ++ os) ->
  Z.of_nat (length (pre ++ os)) <= PY_SSIZE_T_MAX ->
  exists d', Catalogo.agrupar d os = Ok d' /\ agrupa (pre ++ os) d'.
Proof.
  revert pre d. induction os as [|p os IH]; intros pre d Hd Hval Hlen; simpl.
  - exists d. split; [reflexivity|]. now rewrite app_nil_r.
  - replace (pre ++ p :: os) with ((pre ++ [p]) ++ os) in * by now rewrite <- app_assoc.
    destruct (agrupar_uno_ok pre p d Hd) as (d1 & -> & Hd1).
    + apply Forall_app in Hval. tauto.
    + rewrite length_app in Hlen. lia.
    + simpl. now apply IH.
Qed.

Lemma agrupa_nil : agrupa [] [].
Proof.
  split; [constructor|]. split.
  - intros p Hp. now apply elem_of_nil in Hp.
  - intros t u v Hin. now apply elem_of_nil in Hin.
Qed.

End Agrupar.

Section Informe.

Lemma py_truediv_cero (v : num) : py_truediv v (NInt 0) = Raise ZeroDivisionError.
Proof. destruct v as [z|f]; reflexivity. Qed.

Lemma py_truediv_ok (v : num) (u : Z) :
  cota v u -> 0 < u <= 10 ^ 26 ->
  exists f, py_truediv v (NInt u) = Ok (NFloat f).
Proof.
  intros Hv Hu. pose proof float_bound_grande as Hb.
  change (10 ^ 30) with 1000000000000000000000000000000 in Hb.
  change (10 ^ 26) with 100000000000000000000000000 in Hu.
  destruct v as [z|f]; simpl in *.
  - unfold int_truediv.
    destruct (Z.eqb_spec u 0) as [->|_]; [lia|].
    destruct (Z.leb_spec (float_bound * Z.abs u) (Z.abs z)) as [Hle|_].
    { rewrite !Z.abs_eq in Hle by lia.
      assert (10001 * u <= float_bound * u) by (apply Z.mul_le_mono_nonneg_r; lia).
      lia. }
    simpl. now eexists.
  - rewrite float_of_int_ok by (change (10 ^ 30) with 1000000000000000000000000000000; lia).
    simpl. destruct (Z.eqb_spec u 0) as [->|_]; [lia|]. now eexists.
Qed.

Lemma fmt_num_2f_ok (v : num) (u : Z) :
  cota v u -> 0 <= u <= 10 ^ 26 -> exists s, Str.fmt_num_2f v = Ok s.
Proof.
  intros Hv Hu. change (10 ^ 26) with 100000000000000000000000000 in Hu.
  destruct v as [z|f]; unfold Str.fmt_num_2f; simpl in *.
  - rewrite float_of_int_ok by (change (10 ^ 30) with 1000000000000000000000000000000; lia).
    simpl. now eexists.
  - now eexists.
Qed.

Lemma informe_tipos_ok (d : Catalogo.Tipos) :
  Forall entrada_acotada d ->
  Forall (fun e => 0 < e.2.1) d ->
  exists s, Catalogo.informe_tipos d = Ok s.
Proof.
  induction 1 as [|[t [u v]] d [Hu Hv] _ IH]; intros Hpos; simpl in *.
  - now eexists.
  - apply Forall_cons in Hpos as [Hpu Hpos]. simpl in Hpu.
    destruct (py_truediv_ok v u Hv) as (f & ->); [lia|]. simpl.
    destruct (IH Hpos) as (s & ->). simpl. now eexists.
Qed.

Lemma informe_tipos_cero (d : Catalogo.Tipos) :
  Forall entrada_acotada d ->
  Exists (fun e => e.2.1 = 0) d ->
  Catalogo.informe_tipos d = Raise ZeroDivisionError.
Proof.
  induction 1 as [|[t [u v]] d [Hu Hv] _ IH]; intros Hex; simpl in *.
  - now apply Exists_nil in Hex.
  - destruct (Z.eq_dec u 0) as [->|Hne].
    + now rewrite py_truediv_cero.
    + apply Exists_cons in Hex as [Hex|Hex]; [simpl in Hex; lia|].
      destruct (py_truediv_ok v u Hv) as (f & ->); [lia|]. simpl.
      now rewrite (IH Hex).
Qed.

Lemma append_asociativa (a b c : string) : (a +:+ b) +:+ c = a +:+ (b +:+ c).
Proof.
  induction a as [|x a IH]; [reflexivity|].
  change (String x ((a +:+ b) +:+ c) = String x (a +:+ (b +:+ c))). now rewrite IH.
Qed.

(** With units in every category, the second loop writes one line per
    category, each with that category's value divided by its units. *)
Lemma informe_tipos_lineas (d : Catalogo.Tipos) :
  Forall entrada_acotada d ->
  Forall (fun e => 0 < e.2.1) d ->
  exists pps, Forall2 (fun e pp => promedio_2f e.2.2 e.2.1 = Ok pp) d pps
              /\ Catalogo.informe_tipos d = Ok (lineas_tipos d pps).
Proof.
  induction 1 as [|[t [u v]] d [Hu Hv] _ IH]; intros Hpos.
  - exists []. split; [constructor|reflexivity].
  - apply Forall_cons in Hpos as [Hpu Hpos]. simpl in Hpu, Hu, Hv.
    destruct (py_truediv_ok v u Hv) as (f & Hf); [lia|].
    destruct (IH Hpos) as (pps & Hpps & Hlt).
    exists (Str.fmt_2f f :: pps). split.
    + constructor; [|exact Hpps]. unfold promedio_2f. simpl. now rewrite Hf.
    + cbn [Catalogo.informe_tipos lineas_tipos]. rewrite Hf. cbn [mbind res_bind].
      change (Str.fmt_num_2f (NFloat f)) with (Ok (Str.fmt_2f f)).
      cbn [mbind res_bind]. rewrite Hlt.
      cbn [mbind res_bind]. unfold linea_tipo. now rewrite !append_asociativa.
Qed.

Lemma informe_ofertas_lineas (os : list Oferta.Oferta) :
  Catalogo.informe_ofertas os = lineas_ofertas (map Oferta.descripcion os).
Proof. induction os as [|o os IH]; simpl; [reflexivity|now rewrite IH]. Qed.

Lemma agrupa_acotada (os : list Producto.Producto) (d : Catalogo.Tipos) :
  Forall (fun p => Producto.valido p = true) os ->
  Z.of_nat (length os) <= PY_SSIZE_T_MAX ->
  agrupa os d ->
  Forall entrada_acotada d.
Proof.
  intros Hval Hlen (_ & _ & Hent). apply Forall_forall. intros [t [u v]] Hin.
  destruct (Hent _ _ _ Hin) as (_ & -> & Hv).
  destruct (de_tipo_valido t os Hval) as [Hdv Hdl].
  pose proof (sum_cantidad_cotas _ Hdv) as Hc.
  unfold PY_SSIZE_T_MAX in Hlen. change (2 ^ 63) with 9223372036854775808 in Hlen.
  destruct (sum_valor_ok (de_tipo t os) (NInt 0) 0 Hdv) as (v' & Hs & Hv').
  { simpl. lia. }
  { lia. }
  { change (10 ^ 30) with 1000000000000000000000000000000. lia. }
  rewrite Z.add_0_l in Hv'. unfold valor_de in Hv. rewrite Hv in Hs. injection Hs as <-.
  split; simpl; [|exact Hv'].
  unfold unidades_de. change (10 ^ 26) with 100000000000000000000000000. lia.
Qed.

(** C9. For a catalog of valid products (and no longer than a Python list
    can be), [informe] computes the overall average as [valorTotal]
    divided by [cantidadUnidades] and, with [d] the per-category units and
    values, each category's average as its value divided by its units; it
    raises [ZeroDivisionError] when the total units or the units of some
    category are 0. When all of them are positive it returns the report,
    and the report is this text: the overall average is [valorTotal]
    divided by the total units, and the categories have one line each, in
    the order of [d], with the units of the category and its value divided
    by its units; the offers follow, one line each. *)
Theorem informe_division (σ : gmap loc Producto.Producto) (self : Catalogo.Catalogo)
  (os : list Producto.Producto) :
  Catalogo.objetos σ (Catalogo.productos self) = Ok os ->
  Forall (fun p => Producto.valido p = true) os ->
  Z.of_nat (length os) <= PY_SSIZE_T_MAX ->
  let total := Catalogo.sum_cantidad 0 os in
  (exists d vt,
      Catalogo.agrupar [] os = Ok d /\ agrupa os d
      /\ Catalogo.cantidadUnidades σ self = Ok total
      /\ Catalogo.valorTotal σ self = Ok vt
      /\ Catalogo.informe σ self
         = (promedio ← py_truediv vt (NInt total);
            ps ← Str.fmt_num_2f promedio;
            vs ← Str.fmt_num_2f vt;
            lt ← Catalogo.informe_tipos d;
            Ok (Catalogo.texto_informe self total ps vs lt)))
  /\ (total = 0 \/ (exists p, p ∈ os /\ unidades_de (Producto._tipo p) os = 0) ->
      Catalogo.informe σ self = Raise ZeroDivisionError)
  /\ (0 < total ->
      (forall p, p ∈ os -> 0 < unidades_de (Producto._tipo p) os) ->
      exists d vt ps vs pps,
        Catalogo.agrupar [] os = Ok d /\ agrupa os d
        /\ Catalogo.valorTotal σ self = Ok vt
        /\ promedio_2f vt total = Ok ps
        /\ Str.fmt_num_2f vt = Ok vs
        /\ Forall2 (fun e pp => promedio_2f e.2.2 e.2.1 = Ok pp) d pps
        /\ Catalogo.informe σ self
           = Ok (texto_del_informe (Catalogo.cantidadProductos self) total ps vs
                   (lineas_tipos d pps)
                   (lineas_ofertas (map Oferta.descripcion (Catalogo.ofertas self))))).
Proof.
  intros Hos Hval Hlen total.
  destruct (agrupar_ok os [] [] agrupa_nil Hval Hlen) as (d & Hd & Hrep).
  simpl in Hrep.
  pose proof (agrupa_acotada os d Hval Hlen Hrep) as Hcot.
  pose proof (sum_cantidad_cotas os Hval) as Htot. fold total in Htot.
  assert (Hlen' := Hlen). unfold PY_SSIZE_T_MAX in Hlen'.
  change (2 ^ 63) with 9223372036854775808 in Hlen'.
  destruct (sum_valor_ok os (NInt 0) 0 Hval) as (vt & Hvt & Hcvt).
  { simpl. lia. }
  { lia. }
  { change (10 ^ 30) with 1000000000000000000000000000000. lia. }
  rewrite Z.add_0_l in Hcvt. fold total in Hcvt.
  assert (Catalogo.cantidadUnidades σ self = Ok total) as Hcu.
  { unfold Catalogo.cantidadUnidades. now rewrite Hos. }
  assert (Catalogo.valorTotal σ self = Ok vt) as Hcv.
  { unfold Catalogo.valorTotal. now rewrite Hos. }
  assert (Catalogo.informe σ self
          = (promedio ← py_truediv vt (NInt total);
             ps ← Str.fmt_num_2f promedio;
             vs ← Str.fmt_num_2f vt;
             lt ← Catalogo.informe_tipos d;
             Ok (Catalogo.texto_informe self total ps vs lt))) as Hinf.
  { unfold Catalogo.informe. rewrite Hos. simpl. rewrite Hd. simpl.
    rewrite Hcu, Hcv. reflexivity. }
  assert (0 <= total <= 10 ^ 26) as Htot'.
  { change (10 ^ 26) with 100000000000000000000000000. lia. }
  split; [|split].
  - exists d, vt. tauto.
  - intros Hz. rewrite Hinf.
    destruct (Z.eq_dec total 0) as [->|Hne]; [now rewrite py_truediv_cero|].
    destruct Hz as [Hz|(p & Hp & Hz)]; [contradiction|].
    destruct (py_truediv_ok vt total Hcvt) as (f & ->); [lia|]. simpl.
    destruct (fmt_num_2f_ok vt total Hcvt Htot') as (vs & ->). simpl.
    rewrite informe_tipos_cero; [reflexivity|assumption|].
    destruct Hrep as (_ & Hkeys & Hent).
    apply Exists_exists.
    destruct (proj1 (list_elem_of_fmap _ _ _) (Hkeys p Hp)) as ([t [u v]] & Ht & Hin).
    simpl in Ht. subst t. exists (Producto._tipo p, (u, v)). split; [assumption|].
    simpl. destruct (Hent _ _ _ Hin) as (_ & -> & _). exact Hz.
  - intros Hpos Hcat.
    destruct (py_truediv_ok vt total Hcvt) as (f & Hf); [lia|].
    destruct (fmt_num_2f_ok vt total Hcvt Htot') as (vs & Hvs).
    destruct (informe_tipos_lineas d Hcot) as (pps & Hpps & Hlt).
    { destruct Hrep as (_ & _ & Hent).
      apply Forall_forall. intros [t [u v]] Hin. simpl.
      destruct (Hent _ _ _ Hin) as (Ht & -> & _).
      apply list_elem_of_fmap in Ht as (p & -> & Hp). now apply Hcat. }
    exists d, vt, (Str.fmt_2f f), vs, pps.
    split; [exact Hd|]. split; [exact Hrep|]. split; [exact Hcv|].
    split; [unfold promedio_2f; now rewrite Hf|].
    split; [exact Hvs|]. split; [exact Hpps|].
    rewrite Hinf, Hf. cbn [mbind res_bind].
    change (Str.fmt_num_2f (NFloat f)) with (Ok (Str.fmt_2f f)).
    cbn [mbind res_bind]. rewrite Hvs. cbn [mbind res_bind]. rewrite Hlt.
    cbn [mbind res_bind]. unfold Catalogo.texto_informe, texto_del_informe.
    now rewrite informe_ofertas_lineas.
Qed.

End Informe.

(** The two products of [almacen]: bread is alone in its category and has
    no units, so the report fails; with three units of it the report is
    returned, with the averages 1280/103, 1250/100 and 30/3. *)
Lemma informe_division_witness :
  Catalogo.informe Ejemplo.almacen Ejemplo.surtido = Raise ZeroDivisionError
  /\ exists d vt ps vs pps,
       Catalogo.agrupar [] [Ejemplo.coca; Ejemplo.pan_lactal] = Ok d
       /\ agrupa [Ejemplo.coca; Ejemplo.pan_lactal] d
       /\ Catalogo.valorTotal Ejemplo.almacen_surtido Ejemplo.surtido = Ok vt
       /\ promedio_2f vt 103 = Ok ps
       /\ Str.fmt_num_2f vt = Ok vs
       /\ Forall2 (fun e pp => promedio_2f e.2.2 e.2.1 = Ok pp) d pps
       /\ Catalogo.informe Ejemplo.almacen_surtido Ejemplo.surtido
          = Ok (texto_del_informe 2 103 ps vs (lineas_tipos d pps) "").
Proof.
  split.
  - apply (proj1 (proj2 (informe_division Ejemplo.almacen Ejemplo.surtido
                           [Ejemplo.coca; Ejemplo.pan] eq_refl
                           ltac:(repeat constructor)
                           ltac:(vm_compute; discriminate)))).
    right. exists Ejemplo.pan. split; [|reflexivity].
    apply list_elem_of_further, list_elem_of_here.
  - apply (proj2 (proj2 (informe_division Ejemplo.almacen_surtido Ejemplo.surtido
                           [Ejemplo.coca; Ejemplo.pan_lactal] eq_refl
                           ltac:(repeat constructor)
                           ltac:(vm_compute; discriminate)))).
    + reflexivity.
    + intros p Hp.
      apply elem_of_cons in Hp as [->|Hp]; [reflexivity|].
      apply elem_of_cons in Hp as [->|Hp]; [reflexivity|].
      now apply elem_of_nil in Hp.
Defined.

(** An empty catalog has no units to divide by. *)
Example informe_catalogo_vacio (σ : gmap loc Producto.Producto) :
  Catalogo.informe σ Catalogo.init = Raise ZeroDivisionError.
Proof. reflexivity. Qed.

(** The report of the catalog with units in every category. *)
Example informe_con_unidades :
  Catalogo.informe Ejemplo.almacen_surtido Ejemplo.surtido
  = Ok (Catalogo.texto_informe Ejemplo.surtido 103 "12.43" "1280.00"
          ("  - gaseosa             :  100u x $ 12.50" +:+ Str.nl
           +:+ "  -                     :    3u x $ 10.00" +:+ Str.nl)).
Proof. vm_compute. reflexivity. Qed.

(** * An invoice, end to end *)

(** The end-to-end scenario: a product of price 12.50 in the category of a
    20 percent offer, 4 units on the invoice. *)
Example factura_de_cuatro_cocas :
  let σ : gmap loc Producto.Producto := <[0%nat := Ejemplo.coca]> ∅ in
  let cat := Catalogo.registrarOferta (Catalogo.agregar Catalogo.init 0%nat) Ejemplo.veinte in
  let f := Factura.agregar (Factura.init 0%nat 0%nat 0 0).1 0%nat 4 in
  Factura.subtotal σ f = Ok (NFloat 50)
  /\ Factura.descuentos σ Ejemplo.listas cat f = Ok (NFloat 10)
  /\ Factura.total σ Ejemplo.listas cat f = Ok (NFloat 40).
Proof. vm_compute. repeat split. Qed.

(** * The invariant of the validated fields *)

Lemma setter_de_valido (a : Asignacion) (p p' : Producto.Producto) :
  Producto.valido p = true -> setter_de a p = Ok p' -> Producto.valido p' = true.
Proof.
  unfold Producto.valido. rewrite !andb_true_iff. intros [[[[Hc Hn] Hp] Ht] Hq].
  destruct a as [v|v|v|v|v]; simpl;
    unfold Producto.set_codigo, Producto.set_nombre, Producto.set_precio,
      Producto.set_tipo, Producto.set_cantidad;
    match goal with |- context [if ?b then _ else _] => destruct b eqn:E end;
    intros [= <-]; simpl; rewrite ?andb_true_iff; tauto.
Qed.

Lemma setattr_valido (a : Asignacion) (l : loc) (σ : gmap loc Producto.Producto) :
  map_Forall (fun _ p => Producto.valido p = true) σ ->
  map_Forall (fun _ p => Producto.valido p = true) (setattr (setter_de a) l σ).2.
Proof.
  intros Hσ. unfold setattr. destruct (σ !! l) as [p|] eqn:Hl; [|assumption].
  destruct (setter_de a p) as [p'|] eqn:Hs; simpl; [|assumption].
  apply map_Forall_insert_2; [|assumption].
  eapply setter_de_valido; [|eassumption]. now apply (Hσ l).
Qed.

(** X1. The bounds of the fields are an invariant of the product store:
    an object that [Producto(...)] returned satisfies them, and they
    survive every run of assignments to the attributes of the stored
    objects, refused ones included. *)
Theorem Producto_invariante (codigo nombre : string) (precio : num) (tipo : string)
  (cantidad : Z) (p : Producto.Producto) (σ : gmap loc Producto.Producto)
  (as_ : list (loc * Asignacion)) :
  Producto.init codigo nombre precio tipo cantidad = Ok p ->
  map_Forall (fun _ q => Producto.valido q = true) σ ->
  Producto.valido p = true
  /\ map_Forall (fun _ q => Producto.valido q = true) (asignar as_ (alloc p σ).2).
Proof.
  intros Hinit Hσ. rewrite Producto_init_valido in Hinit.
  destruct (Producto.valido _) eqn:Hv; [|discriminate]. injection Hinit as <-.
  split; [exact Hv|].
  assert (map_Forall (fun _ q => Producto.valido q = true)
            (alloc (Producto.mkProducto codigo nombre precio tipo cantidad) σ).2) as H0.
  { unfold alloc. simpl. now apply map_Forall_insert_2. }
  revert H0. generalize (alloc (Producto.mkProducto codigo nombre precio tipo cantidad) σ).2.
  induction as_ as [|[l a] rest IH]; intros σ' Hσ'; simpl; [assumption|].
  apply IH. now apply setattr_valido.
Qed.

Lemma Producto_invariante_witness :
  map_Forall (fun _ q => Producto.valido q = true)
    (asignar [(0%nat, A_precio (NInt 5)); (0%nat, A_nombre "Coca Cola Zero");
              (0%nat, A_cantidad 1001); (0%nat, A_precio (NFloat 99.5))]
       (alloc Ejemplo.coca ∅).2).
Proof.
  apply (Producto_invariante "0001" "Coca Cola" (NFloat 12.5) "gaseosa" 100 Ejemplo.coca ∅).
  - reflexivity.
  - apply map_Forall_empty.
Defined.

(** ** What the [cuit] setter accepts *)
Lemma isdigit_quitar_guiones (s : string) :
  Str.isdigit (Str.remove_char "-" s) = true
  <-> Forall (fun c => c = "-"%char \/ Str.isdigit_char c = true) (Str.chars s)
      /\ Exists (fun c => Str.isdigit_char c = true) (Str.chars s).
Proof.
  unfold Str.isdigit, Str.len, Str.chars.
  induction s as [|c s IH]; simpl.
  - split; [discriminate|]. intros [_ H]. now apply Exists_nil in H.
  - destruct (Ascii.eqb_spec c "-") as [->|Hc].
    + rewrite IH. split.
      * intros [Hall Hex]. split; [constructor; [now left|assumption]|now right].
      * intros [Hall Hex]. apply Forall_cons in Hall as [_ Hall].
        apply Exists_cons in Hex as [Hd|Hex]; [vm_compute in Hd; discriminate Hd|]. tauto.
    + simpl. destruct (Str.isdigit_char c) eqn:Hd; simpl.
      * split.
        -- intros Hrest. split; [|now left]. constructor; [now right|].
           destruct (Str.remove_char "-" s) as [|x r] eqn:Er.
           ++ clear IH Hrest. revert Er. induction s as [|y s IHs]; simpl; [constructor|].
              destruct (Ascii.eqb_spec y "-") as [->|?]; [|discriminate].
              intros Er. constructor; [now left|now apply IHs].
           ++ apply IH. exact Hrest.
        -- intros [Hall _]. apply Forall_cons in Hall as [_ Hall].
           destruct (Str.remove_char "-" s) as [|x r] eqn:Er; [reflexivity|].
           apply IH. split; [assumption|].
           clear IH. revert x r Er Hall. induction s as [|y s IHs]; simpl; [discriminate|].
           intros x r Er Hall. apply Forall_cons in Hall as [Hy Hall].
           destruct (Ascii.eqb_spec y "-") as [->|Hne].
           ++ right. now apply (IHs x r).
           ++ left. destruct Hy; [contradiction|assumption].
      * split; [discriminate|]. intros [Hall _].
        apply Forall_cons in Hall as [[?|?] _]; [contradiction|congruence].
Qed.

(** X2. What the [cuit] setter accepts: the strings of 13 characters with
    a hyphen at the indices 2 and 11 whose characters are all digits or
    hyphens, at least one of them a digit. *)
Theorem Cliente_cuit_ok_iff (value : string) :
  Cliente.cuit_ok value = true
  <-> String.length value = 13%nat
      /\ String.get 2 value = Some "-"%char
      /\ String.get 11 value = Some "-"%char
      /\ Forall (fun c => c = "-"%char \/ Str.isdigit_char c = true) (Str.chars value)
      /\ Exists (fun c => Str.isdigit_char c = true) (Str.chars value).
Proof.
  unfold Cliente.cuit_ok, Str.char_at_is, Str.len.
  rewrite !andb_true_iff, Nat.eqb_eq, isdigit_quitar_guiones.
  assert (forall i, (match String.get i value with
                     | Some x => Ascii.eqb x "-"
                     | None => false
                     end = true) <-> String.get i value = Some "-"%char) as Hget.
  { intros i. destruct (String.get i value) as [x|]; [|split; discriminate].
    rewrite Ascii.eqb_eq. split; congruence. }
  rewrite !Hget. tauto.
Qed.

(** * Catalog operations, composed *)

Section Composicion.

Variable σ : gmap loc Producto.Producto.
Variable h : gmap loc (list string).

Lemma buscarOferta_en_app (os1 os2 : list Oferta.Oferta) (p : Producto.Producto) (q : Z) :
  Catalogo.buscarOferta_en h (os1 ++ os2) p q
  = match Catalogo.buscarOferta_en h os1 p q with
    | Some o => Some o
    | None => Catalogo.buscarOferta_en h os2 p q
    end.
Proof.
  induction os1 as [|o os1 IH]; simpl; [reflexivity|].
  destruct (Oferta.esAplicable h o p q); [reflexivity|apply IH].
Qed.

(** X3. Registering an offer never changes which offer is found for a
    line that already had one; a line without an offer gets the new one
    exactly when it is applicable. The same holds of the discount. *)
Theorem buscarOferta_registrarOferta (self : Catalogo.Catalogo) (oferta : Oferta.Oferta)
  (p : Producto.Producto) (q : Z) :
  Catalogo.buscarOferta h (Catalogo.registrarOferta self oferta) p q
  = match Catalogo.buscarOferta h self p q with
    | Some o => Some o
    | None => if Oferta.esAplicable h oferta p q then Some oferta else None
    end
  /\ Catalogo.calcularDescuento h (Catalogo.registrarOferta self oferta) p q
     = match Catalogo.buscarOferta h self p q with
       | Some o => Catalogo.calcularDescuento h self p q
       | None => if Oferta.esAplicable h oferta p q
                 then Oferta.aplicar h oferta p q else Ok (NInt 0)
       end.
Proof.
  assert (Catalogo.buscarOferta h (Catalogo.registrarOferta self oferta) p q
          = match Catalogo.buscarOferta h self p q with
            | Some o => Some o
            | None => if Oferta.esAplicable h oferta p q then Some oferta else None
            end) as Hb.
  { unfold Catalogo.buscarOferta, Catalogo.registrarOferta. simpl.
    rewrite buscarOferta_en_app. simpl. reflexivity. }
  split; [exact Hb|].
  unfold Catalogo.calcularDescuento at 1. rewrite Hb.
  unfold Catalogo.calcularDescuento.
  destruct (Catalogo.buscarOferta h self p q); [reflexivity|].
  destruct (Oferta.esAplicable h oferta p q); reflexivity.
Qed.

Lemma buscar_en_app (ps1 ps2 : list loc) (codigo : string) :
  Catalogo.buscar_en σ (ps1 ++ ps2) codigo
  = match Catalogo.buscar_en σ ps1 codigo with
    | Ok None => Catalogo.buscar_en σ ps2 codigo
    | r => r
    end.
Proof.
  induction ps1 as [|l ps1 IH]; simpl; [reflexivity|].
  destruct (deref σ l) as [o|]; simpl; [|reflexivity].
  destruct (String.eqb (Producto._codigo o) codigo); [reflexivity|apply IH].
Qed.

(** X4. Adding a product never changes the answer of a lookup that found
    one; a lookup that found none finds the new product exactly when its
    code is the one looked for. So of two products with one code only the
    first can be found. *)
Theorem buscar_agregar (self : Catalogo.Catalogo) (producto : loc) (codigo : string)
  (o : Producto.Producto) :
  σ !! producto = Some o ->
  Catalogo.buscar σ (Catalogo.agregar self producto) codigo
  = match Catalogo.buscar σ self codigo with
    | Ok None => if String.eqb (Producto._codigo o) codigo then Ok (Some producto)
                 else Ok None
    | r => r
    end.
Proof.
  intros Ho. unfold Catalogo.buscar, Catalogo.agregar. simpl.
  rewrite buscar_en_app. simpl. unfold deref. rewrite Ho. simpl.
  destruct (Catalogo.buscar_en σ (Catalogo.productos self) codigo) as [[l|]|e];
    reflexivity.
Qed.

Lemma objetos_app (ps1 ps2 : list loc) :
  Catalogo.objetos σ (ps1 ++ ps2)
  = (os1 ← Catalogo.objetos σ ps1; os2 ← Catalogo.objetos σ ps2; Ok (os1 ++ os2)).
Proof.
  induction ps1 as [|l ps1 IH]; simpl.
  - destruct (Catalogo.objetos σ ps2); reflexivity.
  - destruct (deref σ l) as [o|]; simpl; [|reflexivity].
    rewrite IH. destruct (Catalogo.objetos σ ps1); simpl; [|reflexivity].
    destruct (Catalogo.objetos σ ps2); reflexivity.
Qed.

(** X5. What adding a product does to the totals of a catalog whose value
    is an int: its quantity more units, and its value added last to the
    value. (A value that is an int was added up from ints, exactly; the
    last addition is the [+] of the int and the value of the product,
    which may be a float. Nothing is said here of a value that is already
    a float, which [sum] adds up in its own way.) *)
Theorem totales_agregar (self : Catalogo.Catalogo) (producto : loc)
  (o : Producto.Producto) (u v : Z) :
  σ !! producto = Some o ->
  Catalogo.cantidadUnidades σ self = Ok u ->
  Catalogo.valorTotal σ self = Ok (NInt v) ->
  Catalogo.cantidadUnidades σ (Catalogo.agregar self producto)
  = Ok (u + Producto._cantidad o)
  /\ Catalogo.valorTotal σ (Catalogo.agregar self producto)
     = (vo ← Producto.valorTotal o; py_add (NInt v) vo).
Proof.
  intros Ho Hu Hv.
  unfold Catalogo.cantidadUnidades, Catalogo.valorTotal in *.
  simpl. rewrite objetos_app. simpl. unfold deref. rewrite Ho. simpl.
  destruct (Catalogo.objetos σ (Catalogo.productos self)) as [os|]; [|discriminate].
  simpl in *. injection Hu as <-.
  split.
  - now rewrite sum_cantidad_snoc.
  - rewrite sum_valor_snoc, Hv. reflexivity.
Qed.

End Composicion.

Lemma buscar_agregar_witness :
  let σ : gmap loc Producto.Producto :=
    <[1%nat := Producto.mkProducto "0001" "Coca Zero" (NInt 15) "gaseosa" 5]>
      (<[0%nat := Ejemplo.coca]> ∅) in
  let c := Catalogo.agregar Catalogo.init 0%nat in
  Catalogo.buscar σ (Catalogo.agregar c 1%nat) "0001" = Ok (Some 0%nat).
Proof.
  intros σ c.
  rewrite (buscar_agregar σ c 1%nat "0001"
             (Producto.mkProducto "0001" "Coca Zero" (NInt 15) "gaseosa" 5) eq_refl).
  reflexivity.
Defined.

Lemma totales_agregar_witness :
  let σ : gmap loc Producto.Producto :=
    <[1%nat := Ejemplo.agua]> (<[0%nat := Ejemplo.jugo]> ∅) in
  let c := Catalogo.agregar Catalogo.init 0%nat in
  Catalogo.cantidadUnidades σ (Catalogo.agregar c 1%nat) = Ok 80
  /\ Catalogo.valorTotal σ (Catalogo.agregar c 1%nat) = Ok (NInt 3500).
Proof.
  intros σ c.
  destruct (totales_agregar σ c 1%nat Ejemplo.agua 30 3000 eq_refl eq_refl eq_refl)
    as (Hu & Hv).
  split; [exact Hu|]. rewrite Hv. reflexivity.
Defined.

Section Valores.

Lemma sum_valor_entero (os : list Producto.Producto) (acc : Z) :
  Forall precio_entero os ->
  Catalogo.sum_valor (NInt acc) os = Ok (NInt (acc + importe_entero os)).
Proof.
  intros Hos. revert acc. induction Hos as [|p os [z Hz] _ IH]; intros acc; simpl.
  - now rewrite Z.add_0_r.
  - unfold Producto.valorTotal. rewrite Hz. simpl. rewrite IH. do 2 f_equal. lia.
Qed.

(** X6. The totals of a catalog of valid products (no more of them than a
    list can hold) are always returned: the units lie between 0 and 1000
    per product, and a value that is an int lies between 0 and 10000 per
    unit. When every price is an int, the value is the int sum of
    [precio * cantidad], whatever the products. *)
Theorem totales_catalogo (σ : gmap loc Producto.Producto) (self : Catalogo.Catalogo)
  (os : list Producto.Producto) :
  Catalogo.objetos σ (Catalogo.productos self) = Ok os ->
  (Forall (fun p => Producto.valido p = true) os ->
   Z.of_nat (length os) <= PY_SSIZE_T_MAX ->
   exists u v,
     Catalogo.cantidadUnidades σ self = Ok u
     /\ Catalogo.valorTotal σ self = Ok v
     /\ 0 <= u <= 1000 * Catalogo.cantidadProductos self
     /\ cota v u)
  /\ (Forall precio_entero os ->
      Catalogo.valorTotal σ self = Ok (NInt (importe_entero os))).
Proof.
  intros Hos. split.
  - intros Hval Hlen.
    unfold Catalogo.cantidadUnidades, Catalogo.valorTotal, Catalogo.cantidadProductos.
    rewrite Hos. simpl.
    pose proof (sum_cantidad_cotas os Hval) as Hu.
    unfold PY_SSIZE_T_MAX in Hlen. change (2 ^ 63) with 9223372036854775808 in Hlen.
    destruct (sum_valor_ok os (NInt 0) 0 Hval) as (v & Hv & Hc).
    { simpl. lia. }
    { lia. }
    { change (10 ^ 30) with 1000000000000000000000000000000. lia. }
    exists (Catalogo.sum_cantidad 0 os), v. rewrite Z.add_0_l in Hc.
    repeat split; try assumption; try lia.
    assert (length (Catalogo.productos self) = length os) as ->; [|lia].
    clear -Hos. revert os Hos.
    induction (Catalogo.productos self) as [|l ps IH]; intros os; simpl.
    + now intros [= <-].
    + destruct (deref σ l); [|discriminate]. simpl.
      destruct (Catalogo.objetos σ ps) as [os'|]; [|discriminate]. simpl.
      intros [= <-]. simpl. f_equal. now apply IH.
  - intros Hint. unfold Catalogo.valorTotal. rewrite Hos. simpl.
    now rewrite sum_valor_entero.
Qed.

End Valores.

Lemma totales_catalogo_witness :
  (exists u v,
      Catalogo.cantidadUnidades Ejemplo.almacen_surtido Ejemplo.surtido = Ok u
      /\ Catalogo.valorTotal Ejemplo.almacen_surtido Ejemplo.surtido = Ok v
      /\ 0 <= u <= 1000 * Catalogo.cantidadProductos Ejemplo.surtido
      /\ cota v u)
  /\ Catalogo.valorTotal bebidas_enteras Ejemplo.surtido = Ok (NInt 3500).
Proof.
  split.
  - apply (proj1 (totales_catalogo Ejemplo.almacen_surtido Ejemplo.surtido
                    [Ejemplo.coca; Ejemplo.pan_lactal] eq_refl)).
    + repeat constructor.
    + vm_compute. discriminate.
  - apply (proj2 (totales_catalogo bebidas_enteras Ejemplo.surtido
                    [Ejemplo.jugo; Ejemplo.agua] eq_refl)).
    repeat constructor; eexists; reflexivity.
Defined.

(** * Discounts and numbers, further *)

(** X7. On a product with an int price and a quantity that is not
    negative, the 2x1 discount is an int between 0 and half the amount of
    the line. *)
Theorem Oferta2x1_a_lo_sumo_la_mitad (h : gmap loc (list string)) (self : Oferta.Oferta)
  (producto : Producto.Producto) (cantidad z : Z) :
  Producto._precio producto = NInt z ->
  0 <= z ->
  0 <= cantidad ->
  exists d, Oferta.Oferta2x1_aplicar h self producto cantidad = Ok (NInt d)
            /\ 0 <= d /\ 2 * d <= z * cantidad.
Proof.
  intros Hz Hz0 Hq. unfold Oferta.Oferta2x1_aplicar. rewrite Hz.
  destruct (Oferta.esAplicable h self producto cantidad); simpl.
  - exists (z * (cantidad / 2)). split; [reflexivity|].
    pose proof (Z.div_pos cantidad 2 Hq ltac:(lia)).
    pose proof (Z.mul_div_le cantidad 2 ltac:(lia)). nia.
  - exists 0. split; [reflexivity|]. nia.
Qed.

Lemma Oferta2x1_a_lo_sumo_la_mitad_witness :
  exists d, Oferta.Oferta2x1_aplicar Ejemplo.listas Ejemplo.dos_por_uno Ejemplo.agua 5
            = Ok (NInt d) /\ 0 <= d /\ 2 * d <= 10 * 5.
Proof.
  apply (Oferta2x1_a_lo_sumo_la_mitad Ejemplo.listas Ejemplo.dos_por_uno Ejemplo.agua 5 10);
    [reflexivity|lia|lia].
Defined.

(** X8. An instance of the base class [Oferta] that is the first applicable
    offer makes [calcularDescuento] raise [NotImplementedError], whatever
    offers are registered after it. *)
Theorem calcularDescuento_oferta_base (h : gmap loc (list string))
  (self : Catalogo.Catalogo) (producto : Producto.Producto) (cantidad : Z)
  (antes despues : list Oferta.Oferta) (o : Oferta.Oferta) :
  Catalogo.ofertas self = antes ++ o :: despues ->
  Oferta.clase o = Oferta.Base ->
  Oferta.esAplicable h o producto cantidad = true ->
  Forall (fun o' => Oferta.esAplicable h o' producto cantidad = false) antes ->
  Catalogo.calcularDescuento h self producto cantidad = Raise NotImplementedError.
Proof.
  intros Hos Hc Ho Hantes. unfold Catalogo.calcularDescuento, Catalogo.buscarOferta.
  rewrite Hos, (buscarOferta_en_primera h producto cantidad antes despues o Ho Hantes).
  unfold Oferta.aplicar. now rewrite Hc.
Qed.

Lemma calcularDescuento_oferta_base_witness :
  let o := Oferta.init Oferta.Base "sin regla" None (Some Ejemplo.gaseosas) in
  let c := Catalogo.registrarOferta (Catalogo.registrarOferta Catalogo.init o)
             Ejemplo.veinte in
  Catalogo.calcularDescuento Ejemplo.listas c Ejemplo.coca 4 = Raise NotImplementedError.
Proof.
  intros o c.
  apply (calcularDescuento_oferta_base Ejemplo.listas c Ejemplo.coca 4 [] [Ejemplo.veinte] o);
    [reflexivity|reflexivity|reflexivity|constructor].
Defined.

Section Numeros.

Lemma emitir_numeros (es : list Emision) (u : Z) :
  (emitir es u).1 = map (fun i => u + 1 + Z.of_nat i) (seq 0 (length es))
  /\ (emitir es u).2 = u + Z.of_nat (length es).
Proof.
  revert u. induction es as [|e es IH]; intros u; [split; [reflexivity|simpl; lia]|].
  specialize (IH (u + 1)).
  destruct e; simpl; destruct (emitir es (u + 1)) as [ns u'']; simpl in *;
    destruct IH as [-> ->];
    (split; [f_equal; [lia|]; rewrite <- seq_shift, map_map; apply map_ext; intros i; lia
            |lia]).
Qed.

(** X9. Invoices and calls of [nuevoNumero] draw from one counter: in any
    run of the two the numbers handed out are [u+1, u+2, ...] in order, so
    no number is handed out twice. *)
Theorem emitir_sin_repetir (es : list Emision) (u : Z) :
  (emitir es u).1 = map (fun i => u + 1 + Z.of_nat i) (seq 0 (length es))
  /\ NoDup (emitir es u).1
  /\ (emitir es u).2 = u + Z.of_nat (length es).
Proof.
  destruct (emitir_numeros es u) as [Hn Hu]. split; [exact Hn|]. split; [|exact Hu].
  rewrite Hn. apply NoDup_fmap_2; [|apply NoDup_seq].
  intros i j Hij. lia.
Qed.

(** X10. [ultimaFactura] does not look at the numbers in use: set back to
    a value [V] that the counter has passed, it lets the next invoice take
    [V+1], a number that was handed out before. *)
Theorem ultimaFactura_repite (es : list Emision) (u V : Z) (cat cli : loc) (ahora : Z) :
  u <= V < (emitir es u).2 ->
  let u' := (Factura.ultimaFactura V (emitir es u).2).2 in
  Factura.numero (Factura.init cat cli ahora u').1 ∈ (emitir es u).1.
Proof.
  destruct (emitir_numeros es u) as [Hn Hu]. rewrite Hu, Hn. intros HV. simpl.
  apply list_elem_of_fmap. exists (Z.to_nat (V - u)). split; [lia|].
  apply elem_of_seq. lia.
Qed.

End Numeros.

Lemma ultimaFactura_repite_witness :
  let es := [E_factura 0%nat 0%nat 0; E_nuevoNumero; E_factura 0%nat 0%nat 5] in
  let u' := (Factura.ultimaFactura 1 (emitir es 0).2).2 in
  Factura.numero (Factura.init 0%nat 0%nat 9 u').1 ∈ (emitir es 0).1.
Proof.
  intros es.
  apply (ultimaFactura_repite es 0 1 0%nat 0%nat 9). vm_compute.
  split; [discriminate|reflexivity].
Defined.

(** * Invoices filled by runs of [agregar] *)

Section Pedidos.

Lemma en_lineas_agregar (its : list Factura.Item) (prod x : loc) (q : Z) :
  en_lineas prod (Factura.agregar_en its x q)
  = en_lineas prod its + (if Nat.eqb x prod then q else 0).
Proof.
  induction its as [|it its IH]; simpl; [lia|].
  destruct (Nat.eqb_spec (Factura.producto it) x) as [->|Hne]; simpl.
  - destruct (Nat.eqb x prod); lia.
  - rewrite IH. lia.
Qed.

Lemma sum_cantidad_lineas_acc (its : list Factura.Item) (acc : Z) :
  Factura.sum_cantidad acc its = acc + Factura.sum_cantidad 0 its.
Proof.
  revert acc. induction its as [|it its IH]; intros acc; simpl; [lia|].
  rewrite (IH (acc + _)), (IH (0 + _)). lia.
Qed.

Lemma sum_cantidad_agregar (its : list Factura.Item) (x : loc) (q : Z) :
  Factura.sum_cantidad 0 (Factura.agregar_en its x q) = Factura.sum_cantidad 0 its + q.
Proof.
  induction its as [|it its IH]; simpl; [lia|].
  destruct (Nat.eqb (Factura.producto it) x); simpl;
    repeat match goal with
           | |- context [Factura.sum_cantidad ?a ?l] =>
               lazymatch a with
               | 0 => fail
               | _ => rewrite (sum_cantidad_lineas_acc l a)
               end
           end; lia.
Qed.

Lemma en_lineas_unica (its : list Factura.Item) (it : Factura.Item) :
  NoDup (map Factura.producto its) -> it ∈ its ->
  en_lineas (Factura.producto it) its = Factura.cantidad it.
Proof.
  induction its as [|i its IH]; intros Hnd Hin; [now apply elem_of_nil in Hin|].
  simpl in *. apply NoDup_cons in Hnd as [Hni Hnd].
  assert (forall x, x ∉ map Factura.producto its -> en_lineas x its = 0) as Hzero.
  { clear. intros x. induction its as [|j its IHj]; simpl; [reflexivity|].
    rewrite not_elem_of_cons. intros [Hx Hn].
    destruct (Nat.eqb_spec (Factura.producto j) x); [congruence|]. now rewrite IHj. }
  apply elem_of_cons in Hin as [->|Hin].
  - rewrite Nat.eqb_refl, Hzero by assumption. lia.
  - destruct (Nat.eqb_spec (Factura.producto i) (Factura.producto it)) as [E|_].
    + exfalso. apply Hni. rewrite E. apply list_elem_of_fmap. now exists it.
    + now rewrite IH.
Qed.

Lemma agregar_todos_lineas (ls : list (loc * Z)) (self : Factura.Factura) :
  NoDup (map Factura.producto (Factura.items self)) ->
  NoDup (map Factura.producto (Factura.items (agregar_todos self ls)))
  /\ (forall prod, en_lineas prod (Factura.items (agregar_todos self ls))
                   = en_lineas prod (Factura.items self) + pedido prod ls)
  /\ Factura.cantidadUnidades (agregar_todos self ls)
     = Factura.cantidadUnidades self + pedido_total ls
  /\ (forall x, x ∈ map Factura.producto (Factura.items self) \/ x ∈ map fst ls ->
                x ∈ map Factura.producto (Factura.items (agregar_todos self ls))).
Proof.
  revert self. induction ls as [|[x q] ls IH]; intros self Hnd; simpl.
  - repeat split; try assumption; try (intros; lia).
    intros x [Hx|Hx]; [assumption|now apply elem_of_nil in Hx].
  - destruct (IH (Factura.agregar self x q)) as (IH1 & IH2 & IH3 & IH4).
    { simpl. now apply agregar_en_NoDup. }
    split; [exact IH1|]. split; [|split].
    + intros prod. rewrite IH2. simpl. rewrite en_lineas_agregar. lia.
    + rewrite IH3. unfold Factura.cantidadUnidades. simpl.
      rewrite sum_cantidad_agregar. lia.
    + intros y Hy. apply IH4. simpl.
      assert (forall its, x ∈ map Factura.producto (Factura.agregar_en its x q)
                          /\ forall z, z ∈ map Factura.producto its ->
                                       z ∈ map Factura.producto (Factura.agregar_en its x q))
        as Hkeep.
      { clear. induction its as [|i its [IHa IHb]]; simpl.
        - split; [apply list_elem_of_here|]. intros z Hz. now apply elem_of_nil in Hz.
        - destruct (Nat.eqb_spec (Factura.producto i) x) as [->|Hne]; simpl.
          + split; [apply list_elem_of_here|tauto].
          + split; [now apply list_elem_of_further|].
            intros z [->|Hz]%elem_of_cons; [apply list_elem_of_here|].
            apply list_elem_of_further. now apply IHb. }
      destruct (Hkeep (Factura.items self)) as [Ha Hb].
      destruct Hy as [Hy|[->|Hy]%elem_of_cons]; [left; now apply Hb|now left|now right].
Qed.

(** A line is of the product just added or of a product that had one. *)
Lemma agregar_en_origen (its : list Factura.Item) (x : loc) (q : Z) (z : loc) :
  z ∈ map Factura.producto (Factura.agregar_en its x q) ->
  z = x \/ z ∈ map Factura.producto its.
Proof.
  induction its as [|i its IH]; simpl.
  - intros Hz%list_elem_of_singleton. now left.
  - destruct (Nat.eqb_spec (Factura.producto i) x) as [->|Hne]; simpl.
    + now right.
    + intros [->|Hz]%elem_of_cons; [right; apply list_elem_of_here|].
      destruct (IH Hz) as [->|Hin]; [now left|right; now apply list_elem_of_further].
Qed.

Lemma agregar_todos_origen (ls : list (loc * Z)) (self : Factura.Factura) (z : loc) :
  z ∈ map Factura.producto (Factura.items (agregar_todos self ls)) ->
  z ∈ map fst ls \/ z ∈ map Factura.producto (Factura.items self).
Proof.
  revert self. induction ls as [|[x q] ls IH]; intros self; simpl; [now right|].
  intros [Hz|Hz]%IH; [left; now apply list_elem_of_further|].
  simpl in Hz. apply agregar_en_origen in Hz as [->|Hz]; [left; apply list_elem_of_here|].
  now right.
Qed.

(** X11. Whatever run of [agregar] fills a new invoice, the invoice holds
    one line for each product asked for and no other; the line of a
    product holds the sum of the quantities asked of it, and
    [cantidadUnidades] is the sum of all the quantities asked. *)
Theorem Factura_pedidos (self : Factura.Factura) (ls : list (loc * Z)) :
  Factura.items self = [] ->
  let f := agregar_todos self ls in
  NoDup (map Factura.producto (Factura.items f))
  /\ (forall x, x ∈ map Factura.producto (Factura.items f) <-> x ∈ map fst ls)
  /\ (forall it, it ∈ Factura.items f ->
                 Factura.cantidad it = pedido (Factura.producto it) ls)
  /\ Factura.cantidadUnidades f = pedido_total ls.
Proof.
  intros Hnil f.
  destruct (agregar_todos_lineas ls self) as (Hnd & Hq & Hu & Hin).
  { rewrite Hnil. constructor. }
  fold f in Hnd, Hq, Hu, Hin. rewrite Hnil in Hq, Hin.
  unfold Factura.cantidadUnidades in Hu at 2. rewrite Hnil in Hu. simpl in *.
  split; [exact Hnd|]. split; [|split; [|lia]].
  - intros x. split; [|intros Hx; apply Hin; now right].
    intros [Hx|Hx]%agregar_todos_origen; [exact Hx|].
    rewrite Hnil in Hx. now apply elem_of_nil in Hx.
  - intros it Hit. rewrite <- (en_lineas_unica _ it Hnd Hit). rewrite Hq. lia.
Qed.

End Pedidos.

Lemma Factura_pedidos_witness :
  let f := agregar_todos (Factura.init 0%nat 0%nat 0 0).1
             [(7%nat, 2); (3%nat, 1); (7%nat, 3); (3%nat, 4)] in
  NoDup (map Factura.producto (Factura.items f))
  /\ Factura.cantidadUnidades f = 10.
Proof.
  destruct (Factura_pedidos (Factura.init 0%nat 0%nat 0 0).1
              [(7%nat, 2); (3%nat, 1); (7%nat, 3); (3%nat, 4)] eq_refl)
    as (Hnd & _ & _ & Hu).
  split; [exact Hnd|exact Hu].
Defined.

Section Importes.

Variable σ : gmap loc Producto.Producto.
Variable h : gmap loc (list string).

Lemma sum_descuentos_sin_oferta (cat : Catalogo.Catalogo) (its : list Factura.Item) :
  Forall (fun it => exists p, σ !! Factura.producto it = Some p
                              /\ Catalogo.buscarOferta h cat p (Factura.cantidad it) = None)
    its ->
  Factura.sum_descuentos σ h cat (NInt 0) its = Ok (NInt 0).
Proof.
  induction 1 as [|it its (p & Hp & Hb) _ IH]; simpl; [reflexivity|].
  unfold deref. rewrite Hp. simpl. unfold Catalogo.calcularDescuento. rewrite Hb. simpl.
  exact IH.
Qed.

Lemma sum_subtotal_entero (its : list Factura.Item) (acc : Z) :
  lineas_enteras σ its ->
  Factura.sum_subtotal σ (NInt acc) its = Ok (NInt (acc + importe_lineas σ its)).
Proof.
  intros Hits. revert acc. induction Hits as [|it its (p & z & Hp & Hz) _ IH]; intros acc; simpl.
  - now rewrite Z.add_0_r.
  - unfold deref. rewrite Hp. simpl. rewrite Hz. simpl. rewrite IH.
    unfold precio_en. rewrite Hp, Hz. do 2 f_equal. lia.
Qed.

(** X12. On an invoice whose lines have int prices, [subtotal] is the int
    sum of price times quantity; when moreover no offer of the catalog is
    applicable to any line, [descuentos] is 0 and [total] is the subtotal. *)
Theorem Factura_sin_ofertas (cat : Catalogo.Catalogo) (self : Factura.Factura) :
  lineas_enteras σ (Factura.items self) ->
  Factura.subtotal σ self = Ok (NInt (importe_lineas σ (Factura.items self)))
  /\ (Forall (fun it => exists p, σ !! Factura.producto it = Some p
                                  /\ Catalogo.buscarOferta h cat p (Factura.cantidad it)
                                     = None)
        (Factura.items self) ->
      Factura.descuentos σ h cat self = Ok (NInt 0)
      /\ Factura.total σ h cat self = Factura.subtotal σ self).
Proof.
  intros Hint.
  assert (Factura.subtotal σ self = Ok (NInt (importe_lineas σ (Factura.items self)))) as Hs.
  { unfold Factura.subtotal. now rewrite sum_subtotal_entero. }
  split; [exact Hs|]. intros Hno.
  assert (Factura.descuentos σ h cat self = Ok (NInt 0)) as Hd.
  { now apply sum_descuentos_sin_oferta. }
  split; [exact Hd|]. unfold Factura.total. rewrite Hs, Hd. simpl.
  now rewrite Z.sub_0_r.
Qed.

End Importes.

Lemma Factura_sin_ofertas_witness :
  let f := Factura.agregar (Factura.init 0%nat 0%nat 0 0).1 1%nat 4 in
  Factura.subtotal bebidas_enteras f = Ok (NInt 40)
  /\ Factura.total bebidas_enteras Ejemplo.listas Catalogo.init f = Ok (NInt 40).
Proof.
  intros f.
  destruct (Factura_sin_ofertas bebidas_enteras Ejemplo.listas Catalogo.init f) as [Hs Hd].
  - repeat constructor. exists Ejemplo.agua, 10. split; reflexivity.
  - split; [exact Hs|]. destruct Hd as [_ Ht].
    + repeat constructor. exists Ejemplo.agua. split; reflexivity.
    + rewrite Ht. exact Hs.
Defined.

Section PreciosVivos.

Variable σ : gmap loc Producto.Producto.

Lemma importe_lineas_insert (its : list Factura.Item) (l : loc) (p' : Producto.Producto)
  (v : Z) :
  Producto._precio p' = NInt v ->
  importe_lineas (<[l := p']> σ) its
  = importe_lineas σ its + (v - precio_en σ l) * en_lineas l its.
Proof.
  intros Hv. induction its as [|it its IH]; simpl; [lia|]. rewrite IH.
  unfold precio_en at 1.
  destruct (Nat.eqb_spec (Factura.producto it) l) as [->|Hne].
  - rewrite lookup_insert_eq, Hv. lia.
  - rewrite lookup_insert_ne by congruence.
    fold (precio_en σ (Factura.producto it)). lia.
Qed.

(** X13. An invoice keeps no copy of a price. After a price accepted by
    the setter is assigned to a product, the subtotal of an invoice that
    was filled before has moved by the change of price times the quantity
    on the line of that product (int prices). *)
Theorem subtotal_precio_vivo (self : Factura.Factura) (l : loc) (p : Producto.Producto)
  (it : Factura.Item) (v : Z) :
  lineas_enteras σ (Factura.items self) ->
  NoDup (map Factura.producto (Factura.items self)) ->
  it ∈ Factura.items self ->
  Factura.producto it = l ->
  σ !! l = Some p ->
  10 <= v <= 10000 ->
  let r := setattr (Producto.set_precio (NInt v)) l σ in
  r.1 = Ok tt
  /\ Factura.subtotal r.2 self
     = Ok (NInt (importe_lineas σ (Factura.items self)
                 + (v - precio_en σ l) * Factura.cantidad it)).
Proof.
  intros Hint Hnd Hit Hl Hp Hv r. subst r.
  unfold setattr. rewrite Hp. unfold Producto.set_precio, Producto.precio_ok, py_le.
  destruct (Z.leb_spec 10 v); [|lia]. destruct (Z.leb_spec v 10000); [|lia]. simpl.
  split; [reflexivity|]. unfold Factura.subtotal.
  rewrite sum_subtotal_entero.
  - rewrite importe_lineas_insert with (v := v) by reflexivity. subst l.
    now rewrite (en_lineas_unica _ it Hnd Hit).
  - eapply Forall_impl; [exact Hint|]. intros i (q & z & Hq & Hz).
    destruct (Nat.eq_dec (Factura.producto i) l) as [->|Hne].
    + eexists _, v. rewrite lookup_insert_eq. split; reflexivity.
    + exists q, z. rewrite lookup_insert_ne by congruence. tauto.
Qed.

End PreciosVivos.

Lemma subtotal_precio_vivo_witness :
  let f := Factura.agregar (Factura.init 0%nat 0%nat 0 0).1 1%nat 4 in
  Factura.subtotal (setattr (Producto.set_precio (NInt 25)) 1%nat bebidas_enteras).2 f
  = Ok (NInt 100).
Proof.
  intros f.
  destruct (subtotal_precio_vivo bebidas_enteras f 1%nat Ejemplo.agua
              (Factura.mkItem 1%nat 4) 25) as [_ Hs].
  - repeat constructor. exists Ejemplo.agua, 10. split; reflexivity.
  - repeat constructor. intros H. now apply elem_of_nil in H.
  - apply list_elem_of_here.
  - reflexivity.
  - reflexivity.
  - lia.
  - rewrite Hs. reflexivity.
Defined.

(** * [csv.writer] followed by [csv.reader] *)

Section CsvIdaYVuelta.

Local Abbreviation R := Csv.mkReader.

Lemma lineas_nil (cs : list ascii) : Csv.lineas cs = [] -> cs = [].
Proof.
  destruct cs as [|c cs]; [reflexivity|]. simpl.
  destruct (Ascii.eqb c Csv.LF); [discriminate|].
  destruct (Csv.lineas cs); discriminate.
Qed.

(** One character that is no line feed, with more text after it. *)
Lemma filas_char (r : Csv.Reader) (c : ascii) (cs : list ascii) :
  c <> Csv.LF -> cs <> [] ->
  Csv.filas r (Csv.lineas (c :: cs))
  = match Csv.parse_process_char r (Some c) with
    | Ok r' => Csv.filas r' (Csv.lineas cs)
    | Raise e => ([], Raise e)
    end.
Proof.
  intros Hc Hcs. simpl. apply Ascii.eqb_neq in Hc. rewrite Hc.
  destruct (Csv.lineas cs) as [|l ls] eqn:El; [now apply lineas_nil in El|].
  simpl. destruct (Csv.parse_process_char r (Some c)); reflexivity.
Qed.

Lemma add_char_ok (st : Csv.State) (b : list ascii) (fs : list string) (c : ascii) :
  Z.of_nat (length b) < Csv.field_limit ->
  Csv.parse_add_char (R st b fs) c = Ok (R st (b ++ [c]) fs).
Proof.
  intros Hb. unfold Csv.parse_add_char. simpl.
  destruct (Z.leb_spec Csv.field_limit (Z.of_nat (length b))); [lia|reflexivity].
Qed.

Lemma especial_false (c : ascii) :
  Csv.especial c = false ->
  c <> Csv.COMMA /\ c <> Csv.QUOTE /\ c <> Csv.CR /\ c <> Csv.LF.
Proof.
  unfold Csv.especial. rewrite !orb_false_iff, !Ascii.eqb_neq. tauto.
Qed.

Lemma is_newline_false (c : ascii) :
  c <> Csv.CR -> c <> Csv.LF -> Csv.is_newline c = false.
Proof. unfold Csv.is_newline. rewrite orb_false_iff, !Ascii.eqb_neq. tauto. Qed.

(** Single steps of the parser. *)
Lemma paso_en_campo (b : list ascii) (fs : list string) (c : ascii) :
  Csv.especial c = false -> Z.of_nat (length b) < Csv.field_limit ->
  Csv.parse_process_char (R Csv.IN_FIELD b fs) (Some c) = Ok (R Csv.IN_FIELD (b ++ [c]) fs).
Proof.
  intros (Hcomma & Hquote & Hcr & Hlf)%especial_false Hb.
  unfold Csv.parse_process_char. cbn [Csv.state].
  rewrite is_newline_false by assumption.
  apply Ascii.eqb_neq in Hcomma. rewrite Hcomma. now apply add_char_ok.
Qed.

Lemma paso_inicio_campo (fs : list string) (c : ascii) :
  Csv.especial c = false ->
  Csv.parse_process_char (R Csv.START_FIELD [] fs) (Some c) = Ok (R Csv.IN_FIELD [c] fs).
Proof.
  intros (Hcomma & Hquote & Hcr & Hlf)%especial_false.
  unfold Csv.parse_process_char, Csv.en_start_field. cbn [Csv.state].
  rewrite is_newline_false by assumption.
  apply Ascii.eqb_neq in Hcomma, Hquote. rewrite Hcomma, Hquote.
  rewrite add_char_ok by (unfold Csv.field_limit; simpl; lia). reflexivity.
Qed.

Lemma paso_entre_comillas (b : list ascii) (fs : list string) (c : ascii) :
  c <> Csv.QUOTE -> Z.of_nat (length b) < Csv.field_limit ->
  Csv.parse_process_char (R Csv.IN_QUOTED_FIELD b fs) (Some c)
  = Ok (R Csv.IN_QUOTED_FIELD (b ++ [c]) fs).
Proof.
  intros Hq Hb. unfold Csv.parse_process_char. cbn [Csv.state].
  apply Ascii.eqb_neq in Hq. rewrite Hq. now apply add_char_ok.
Qed.

Lemma paso_comilla_doble (b : list ascii) (fs : list string) :
  Z.of_nat (length b) < Csv.field_limit ->
  Csv.parse_process_char (R Csv.QUOTE_IN_QUOTED_FIELD b fs) (Some Csv.QUOTE)
  = Ok (R Csv.IN_QUOTED_FIELD (b ++ [Csv.QUOTE]) fs).
Proof.
  intros Hb. unfold Csv.parse_process_char. cbn [Csv.state].
  change (Ascii.eqb Csv.QUOTE Csv.QUOTE) with true. cbn iota.
  rewrite add_char_ok by assumption. reflexivity.
Qed.

(** The characters of an unquoted field, once the field has begun. *)
Lemma filas_sin_comillas (xs b : list ascii) (fs : list string) (cs : list ascii) :
  Forall (fun c => Csv.especial c = false) xs ->
  cs <> [] ->
  Z.of_nat (length b + length xs) <= Csv.field_limit ->
  Csv.filas (R Csv.IN_FIELD b fs) (Csv.lineas (xs ++ cs))
  = Csv.filas (R Csv.IN_FIELD (b ++ xs) fs) (Csv.lineas cs).
Proof.
  intros Hxs Hcs. revert b. induction Hxs as [|c xs Hc _ IH]; intros b Hb; simpl app.
  - now rewrite app_nil_r.
  - pose proof (especial_false c Hc) as (_ & _ & _ & Hlf).
    rewrite filas_char; [|assumption|now destruct xs].
    rewrite paso_en_campo by (try assumption; simpl in Hb; lia).
    rewrite IH by (rewrite length_app; simpl in *; lia).
    now rewrite <- app_assoc.
Qed.

(** A line feed inside the quotes ends a line and not the record. *)
Lemma filas_salto_entre_comillas (b : list ascii) (fs : list string) (cs : list ascii) :
  Z.of_nat (length b) < Csv.field_limit ->
  Csv.filas (R Csv.IN_QUOTED_FIELD b fs) (Csv.lineas (Csv.LF :: cs))
  = Csv.filas (R Csv.IN_QUOTED_FIELD (b ++ [Csv.LF]) fs) (Csv.lineas cs).
Proof.
  intros Hb. cbn [Csv.lineas]. change (Ascii.eqb Csv.LF Csv.LF) with true. cbn iota.
  cbn [Csv.filas Csv.procesar_linea].
  rewrite paso_entre_comillas by (try assumption; discriminate). reflexivity.
Qed.

(** The characters of a quoted field up to its closing quote. *)
Lemma filas_entre_comillas (xs b : list ascii) (fs : list string) (cs : list ascii) :
  cs <> [] ->
  Z.of_nat (length b + length xs) <= Csv.field_limit ->
  Csv.filas (R Csv.IN_QUOTED_FIELD b fs) (Csv.lineas (Csv.doblar xs ++ Csv.QUOTE :: cs))
  = Csv.filas (R Csv.QUOTE_IN_QUOTED_FIELD (b ++ xs) fs) (Csv.lineas cs).
Proof.
  intros Hcs. revert b. induction xs as [|c xs IH]; intros b Hb.
  - simpl app. rewrite filas_char; [|discriminate|assumption].
    rewrite app_nil_r. reflexivity.
  - assert (Z.of_nat (length b) < Csv.field_limit) as Hlt by (simpl in Hb; lia).
    assert (Z.of_nat (length (b ++ [c]) + length xs) <= Csv.field_limit) as Hb'
      by (rewrite length_app; simpl in *; lia).
    replace (b ++ c :: xs) with ((b ++ [c]) ++ xs) by now rewrite <- app_assoc.
    simpl Csv.doblar. destruct (Ascii.eqb_spec c Csv.QUOTE) as [->|Hq].
    + simpl app. rewrite filas_char; [|discriminate|discriminate].
      change (Csv.parse_process_char (R Csv.IN_QUOTED_FIELD b fs) (Some Csv.QUOTE))
        with (Ok (R Csv.QUOTE_IN_QUOTED_FIELD b fs)).
      cbn beta iota.
      rewrite filas_char; [|discriminate|now destruct (Csv.doblar xs)].
      rewrite paso_comilla_doble by assumption. now apply IH.
    + simpl app. destruct (Ascii.eqb_spec c Csv.LF) as [->|Hlf].
      * rewrite filas_salto_entre_comillas by assumption. now apply IH.
      * rewrite filas_char; [|assumption|now destruct (Csv.doblar xs)].
        rewrite paso_entre_comillas by assumption. now apply IH.
Qed.

Lemma filas_coma (r : Csv.Reader) (cs : list ascii) :
  campo_leido r -> cs <> [] ->
  Csv.filas r (Csv.lineas (Csv.COMMA :: cs))
  = Csv.filas (R Csv.START_FIELD [] (Csv.fields r ++ [string_of_list_ascii (Csv.field r)]))
      (Csv.lineas cs).
Proof.
  intros Hr Hcs. rewrite filas_char; [|discriminate|assumption].
  destruct r as [st b fs]. unfold campo_leido in Hr. cbn [Csv.state] in Hr.
  destruct Hr as [-> | [-> | ->]]; reflexivity.
Qed.

Lemma filas_fin_de_registro (r : Csv.Reader) (cs : list ascii) :
  campo_leido r ->
  Csv.filas r (Csv.lineas (Csv.LF :: cs))
  = let '(rows, fin) := Csv.filas Csv.parse_reset (Csv.lineas cs) in
    ((Csv.fields r ++ [string_of_list_ascii (Csv.field r)]) :: rows, fin).
Proof.
  intros Hr. destruct r as [st b fs]. unfold campo_leido in Hr. cbn [Csv.state] in Hr.
  destruct Hr as [-> | [-> | ->]]; reflexivity.
Qed.

(** One field as the writer wrote it. *)
Lemma filas_campo (s : string) (fs : list string) (cs : list ascii) :
  campo_fiel s -> cs <> [] ->
  exists r, campo_leido r /\ Csv.field r = Str.chars s /\ Csv.fields r = fs
            /\ Csv.filas (R Csv.START_FIELD [] fs) (Csv.lineas (Csv.campo s ++ cs))
               = Csv.filas r (Csv.lineas cs).
Proof.
  intros [_ Hlen] Hcs. unfold Csv.campo.
  destruct (existsb Csv.especial (Str.chars s)) eqn:Eesp.
  - exists (R Csv.QUOTE_IN_QUOTED_FIELD (Str.chars s) fs).
    split; [right; now right|]. split; [reflexivity|]. split; [reflexivity|].
    simpl app. rewrite <- app_assoc. simpl app.
    rewrite filas_char; [|discriminate|now destruct (Csv.doblar (Str.chars s))].
    change (Csv.parse_process_char (R Csv.START_FIELD [] fs) (Some Csv.QUOTE))
      with (Ok (R Csv.IN_QUOTED_FIELD [] fs)).
    cbn beta iota. now rewrite filas_entre_comillas.
  - assert (Forall (fun c => Csv.especial c = false) (Str.chars s)) as Hesp.
    { apply Forall_forall. intros c Hc. apply list_elem_of_In in Hc.
      destruct (Csv.especial c) eqn:E; [|reflexivity].
      assert (existsb Csv.especial (Str.chars s) = true) as Ht
        by (apply existsb_exists; eauto).
      congruence. }
    destruct (Str.chars s) as [|c xs] eqn:Ecs.
    + exists (R Csv.START_FIELD [] fs). split; [now left|]. repeat split.
    + exists (R Csv.IN_FIELD (c :: xs) fs). split; [right; now left|].
      split; [reflexivity|]. split; [reflexivity|].
      apply Forall_cons in Hesp as [Hc Hxs].
      pose proof (especial_false c Hc) as (_ & _ & _ & Hlf).
      simpl app. rewrite filas_char; [|assumption|now destruct xs].
      rewrite paso_inicio_campo by assumption.
      rewrite filas_sin_comillas; [reflexivity|assumption|assumption|].
      simpl in *. lia.
Qed.

Lemma chars_inv (s : string) : string_of_list_ascii (Str.chars s) = s.
Proof. apply string_of_list_ascii_of_string. Qed.

(** The fields of one record, from the start of a field. *)
Lemma filas_campos (fields : list string) (f : string) (fs : list string)
  (cs : list ascii) :
  Forall campo_fiel (f :: fields) ->
  Csv.filas (R Csv.START_FIELD [] fs)
    (Csv.lineas (Csv.unir (map Csv.campo (f :: fields)) ++ Csv.LF :: cs))
  = let '(rows, fin) := Csv.filas Csv.parse_reset (Csv.lineas cs) in
    ((fs ++ f :: fields) :: rows, fin).
Proof.
  revert f fs. induction fields as [|g fields IH]; intros f fs Hall.
  - apply Forall_cons in Hall as [Hf _]. simpl Csv.unir.
    destruct (filas_campo f fs (Csv.LF :: cs) Hf) as (r & Hr & Hb & Hfs & ->);
      [discriminate|].
    rewrite filas_fin_de_registro by assumption. now rewrite Hb, Hfs, chars_inv.
  - apply Forall_cons in Hall as [Hf Hall].
    change (Csv.unir (map Csv.campo (f :: g :: fields)))
      with (Csv.campo f ++ Csv.COMMA :: Csv.unir (map Csv.campo (g :: fields))).
    rewrite <- app_assoc, <- app_comm_cons.
    destruct (filas_campo f fs
                (Csv.COMMA :: Csv.unir (map Csv.campo (g :: fields)) ++ Csv.LF :: cs) Hf)
      as (r & Hr & Hb & Hfs & ->); [discriminate|].
    rewrite filas_coma; [|assumption|now destruct (Csv.unir _)].
    rewrite Hb, Hfs, chars_inv, IH by assumption.
    destruct (Csv.filas Csv.parse_reset (Csv.lineas cs)). now rewrite <- app_assoc.
Qed.

(** A record that begins with a character that is no line end is parsed
    from [START_RECORD] as from [START_FIELD]. *)
Lemma filas_inicio (c : ascii) (cs : list ascii) :
  Csv.is_newline c = false -> cs <> [] ->
  Csv.filas Csv.parse_reset (Csv.lineas (c :: cs))
  = Csv.filas (R Csv.START_FIELD [] []) (Csv.lineas (c :: cs)).
Proof.
  intros Hc Hcs.
  assert (c <> Csv.LF) as Hlf.
  { intros ->. discriminate Hc. }
  rewrite !filas_char by assumption.
  unfold Csv.parse_process_char, Csv.parse_reset. cbn [Csv.state]. now rewrite Hc.
Qed.

Lemma campo_inicio (s : string) :
  match Csv.campo s with
  | [] => Str.chars s = []
  | c :: _ => Csv.is_newline c = false
  end.
Proof.
  unfold Csv.campo. destruct (existsb Csv.especial (Str.chars s)) eqn:E; [reflexivity|].
  destruct (Str.chars s) as [|c xs]; [reflexivity|].
  simpl in E. apply orb_false_iff in E as [E _].
  apply especial_false in E as (_ & _ & Hcr & Hlf). now apply is_newline_false.
Qed.

(** One record, from the start of a record. *)
Lemma filas_registro (row : list string) (cs : list ascii) :
  Forall campo_fiel row ->
  Csv.filas Csv.parse_reset (Csv.lineas (registro row ++ Csv.LF :: cs))
  = let '(rows, fin) := Csv.filas Csv.parse_reset (Csv.lineas cs) in (row :: rows, fin).
Proof.
  intros Hrow. destruct row as [|f fields]; [reflexivity|].
  unfold registro.
  destruct (Csv.unir (map Csv.campo (f :: fields))) as [|c u] eqn:Eu.
  - (* the record of one empty field, written as two quotes *)
    assert (fields = [] /\ Str.chars f = []) as [-> Hf].
    { destruct fields as [|g fields]; simpl in Eu.
      - split; [reflexivity|]. pose proof (campo_inicio f) as H. now rewrite Eu in H.
      - now destruct (Csv.campo f). }
    assert (f = ""%string) as ->.
    { rewrite <- (chars_inv f), Hf. reflexivity. }
    reflexivity.
  - assert (Csv.is_newline c = false) as Hc.
    { pose proof (campo_inicio f) as Hf. destruct fields as [|g fields]; simpl in Eu.
      - rewrite Eu in Hf. exact Hf.
      - destruct (Csv.campo f) as [|c' u']; simpl in Eu; injection Eu as <- _;
          [reflexivity|exact Hf]. }
    simpl app. rewrite filas_inicio; [|assumption|now destruct u].
    change (c :: u ++ Csv.LF :: cs) with ((c :: u) ++ Csv.LF :: cs).
    rewrite <- Eu. now rewrite filas_campos.
Qed.

Lemma universal_newlines_app (xs ys : list ascii) :
  Forall (fun c => c <> Csv.CR) xs ->
  Csv.universal_newlines (xs ++ Csv.CR :: Csv.LF :: ys)
  = xs ++ Csv.LF :: Csv.universal_newlines ys.
Proof.
  induction 1 as [|c xs Hc _ IH]; [reflexivity|].
  simpl. apply Ascii.eqb_neq in Hc. rewrite Hc. now rewrite IH.
Qed.

Lemma doblar_sin_CR (xs : list ascii) :
  Forall (fun c => c <> Csv.CR) xs -> Forall (fun c => c <> Csv.CR) (Csv.doblar xs).
Proof.
  induction 1 as [|c xs Hc _ IH]; simpl; [constructor|].
  destruct (Ascii.eqb c Csv.QUOTE); repeat constructor; try assumption; discriminate.
Qed.

Lemma registro_sin_CR (row : list string) :
  Forall campo_fiel row -> Forall (fun c => c <> Csv.CR) (registro row).
Proof.
  intros Hrow.
  assert (Forall (fun c => c <> Csv.CR) (Csv.unir (map Csv.campo row))) as Hu.
  { induction Hrow as [|f fields [Hf _] _ IH]; [constructor|].
    assert (Forall (fun c => c <> Csv.CR) (Csv.campo f)) as Hc.
    { unfold Csv.campo. destruct (existsb _ _); [|exact Hf].
      constructor; [discriminate|]. apply Forall_app.
      split; [now apply doblar_sin_CR|repeat constructor; discriminate]. }
    simpl. destruct (map Csv.campo fields) eqn:Em; [exact Hc|].
    apply Forall_app. split; [exact Hc|]. constructor; [discriminate|exact IH]. }
  unfold registro. destruct row; [exact Hu|].
  destruct (Csv.unir _); [repeat constructor; discriminate|exact Hu].
Qed.

Lemma writerow_registro (row : list string) :
  Csv.writerow row = registro row ++ [Csv.CR; Csv.LF].
Proof.
  unfold Csv.writerow, registro. destruct row; [reflexivity|].
  destruct (Csv.unir _); reflexivity.
Qed.

(** Rows written by [csv.writer] to a file opened with [newline=''] and
    read by [csv.reader] from the file opened without it come back as they
    were, when no field holds a carriage return. *)
Lemma reader_writer (rows : list (list string)) :
  Forall (Forall campo_fiel) rows ->
  Csv.reader (string_of_list_ascii (flat_map Csv.writerow rows)) = (rows, Ok tt).
Proof.
  intros Hrows. unfold Csv.reader, Str.chars.
  rewrite list_ascii_of_string_of_list_ascii.
  induction Hrows as [|row rows Hrow _ IH]; [reflexivity|].
  simpl flat_map. rewrite writerow_registro, <- app_assoc. simpl app.
  rewrite universal_newlines_app by now apply registro_sin_CR.
  rewrite filas_registro by assumption. now rewrite IH.
Qed.

End CsvIdaYVuelta.

(** * [guardar] followed by [leer] *)

Section Comparaciones.

(** A float equal to an int compares with every other int as that int does. *)
Lemma float_cmp_int_igual (f : float) (z z' : Z) :
  float_cmp_int f z = Some Eq ->
  float_cmp_int f z' = Some (z ?= z').
Proof.
  unfold float_cmp_int. destruct (Prim2SF f) as [s| | |s m e]; try discriminate.
  - intros [= H]. destruct z; try discriminate H. reflexivity.
  - destruct s; discriminate.
  - destruct (Z.leb_spec 0 e) as [He|He]; intros [= H%Z.compare_eq]; f_equal.
    + now rewrite H.
    + assert (0 < 2 ^ (- e)) as Hp by (apply Z.pow_pos_nonneg; lia).
      rewrite H. destruct (Z.compare_spec z z') as [->|Hlt|Hgt].
      * apply Z.compare_refl.
      * apply Z.compare_lt_iff. nia.
      * apply Z.compare_gt_iff. nia.
Qed.

(** Two floats that are equal compare alike with every int. *)
Lemma float_cmp_int_eqb (x y : float) (z : Z) :
  (x =? y)%float = true -> float_cmp_int x z = float_cmp_int y z.
Proof.
  rewrite FloatAxioms.eqb_spec. unfold float_cmp_int, SFeqb, SFcompare.
  destruct (Prim2SF x) as [sx|sx| |sx mx ex], (Prim2SF y) as [sy|sy| |sy my ey];
    try discriminate; try reflexivity;
    try (destruct sx; discriminate); try (destruct sy; discriminate);
    try (destruct sx, sy; (discriminate || reflexivity)).
  destruct sx, sy; try discriminate;
    destruct (Z.compare_spec ex ey) as [->| |]; try discriminate;
    change (Pos.compare_cont Eq mx my) with (Pos.compare mx my);
    destruct (Pos.compare_spec mx my) as [->| |]; try discriminate; reflexivity.
Qed.

(** A float equal to a price within the bounds of [Producto] is within
    them. *)
Lemma precio_ok_py_eq (precio : num) (f : float) :
  Producto.precio_ok precio = true -> py_eq precio (NFloat f) = true ->
  Producto.precio_ok (NFloat f) = true.
Proof.
  unfold Producto.precio_ok. destruct precio as [z|x]; simpl.
  - rewrite andb_true_iff, !Z.leb_le. intros [Hlo Hhi].
    destruct (float_cmp_int f z) as [[| |]|] eqn:E; try discriminate. intros _.
    rewrite !(float_cmp_int_igual f z _ E).
    destruct (Z.compare_spec z 10), (Z.compare_spec z 10000); try reflexivity; lia.
  - intros H Heq. now rewrite <- !(float_cmp_int_eqb x f _ Heq).
Qed.

End Comparaciones.

Section CatalogoIdaYVuelta.

Lemma es_campo_fiel_ok (s : string) : es_campo_fiel s = true -> campo_fiel s.
Proof.
  unfold es_campo_fiel, campo_fiel, sin_CR.
  rewrite andb_true_iff, Z.leb_le, forallb_forall, Forall_forall.
  intros [Hcr Hlen]. split; [|exact Hlen].
  intros c Hc%list_elem_of_In. apply Hcr in Hc.
  apply negb_true_iff in Hc. now apply Ascii.eqb_neq.
Qed.

Lemma es_sin_CR (s : string) : es_campo_fiel s = true -> sin_CR s.
Proof. intros H. now apply es_campo_fiel_ok in H as [H _]. Qed.

Lemma length_chars (s : string) : length (Str.chars s) = String.length s.
Proof. unfold Str.chars. induction s as [|c s IH]; simpl; congruence. Qed.

(** What is written for a quantity or for an int price. *)
Lemma str_int_fiel (z : Z) : 0 <= z <= 10000 -> campo_fiel (Str.str_int z).
Proof.
  intros Hz. apply es_campo_fiel_ok.
  assert (forallb (fun n => es_campo_fiel (Str.str_int (Z.of_nat n))) (seq 0 (Z.to_nat 10001)) = true)
    as Hall by (vm_compute; reflexivity).
  rewrite forallb_forall in Hall.
  rewrite <- (Z2Nat.id z) by lia. apply Hall, in_seq. lia.
Qed.

Lemma codigo_sin_CR (value : string) : Producto.codigo_ok value = true -> sin_CR value.
Proof.
  intros H. apply (Producto_cotas value ""%string ""%string 0 0) in H as [_ Hd].
  unfold sin_CR. eapply Forall_impl; [exact Hd|].
  intros c Hc ->. vm_compute in Hc. discriminate Hc.
Qed.

Lemma texto_fiel (s : string) (n : nat) :
  sin_CR s -> (String.length s <= n)%nat -> (n <= 100)%nat -> campo_fiel s.
Proof.
  intros Hs Hn Hn'. split; [exact Hs|].
  rewrite length_chars. unfold Csv.field_limit. lia.
Qed.

Variable rt : Persistencia.Runtime.

Lemma fila_fiel (p : Producto.Producto) :
  producto_fiel rt p -> Forall campo_fiel (Persistencia.fila rt p).
Proof.
  intros (Hv & Hn & Ht & Hp & _ & _). unfold Producto.valido in Hv.
  rewrite !andb_true_iff in Hv. destruct Hv as [[[[Hc Hn'] _] Ht'] Hq].
  pose proof (Producto_cotas (Producto._codigo p) (Producto._nombre p) (Producto._tipo p)
                0 (Producto._cantidad p)) as (Hc1 & Hn1 & _ & Ht1 & Hq1).
  pose proof (codigo_sin_CR _ Hc) as Hcr.
  apply Hc1 in Hc as [Hc _]. apply Hn1 in Hn'. apply Ht1 in Ht'. apply Hq1 in Hq.
  unfold Persistencia.fila. repeat apply Forall_cons_2; [| | | | |constructor].
  - apply (texto_fiel _ 4); [assumption|lia|lia].
  - apply (texto_fiel _ 100); [assumption|lia|lia].
  - exact Hp.
  - apply (texto_fiel _ 20); [assumption|lia|lia].
  - apply str_int_fiel. lia.
Qed.

Lemma escribir_filas (os : list Producto.Producto) :
  Persistencia.escribir rt os = flat_map Csv.writerow (map (Persistencia.fila rt) os).
Proof. induction os as [|p os IH]; simpl; [reflexivity|now rewrite IH]. Qed.

Lemma encabezado_fiel : Forall campo_fiel Persistencia.encabezado.
Proof.
  unfold Persistencia.encabezado.
  repeat (apply Forall_cons_2; [apply es_campo_fiel_ok; reflexivity|]). constructor.
Qed.

(** The row written for a product is read as a product equal to it. *)
Lemma producto_de_fila_fila (p : Producto.Producto) :
  producto_fiel rt p ->
  exists q, Persistencia.producto_de_fila rt (Persistencia.fila rt p) = Ok q
            /\ Persistencia.mismo_producto p q = true.
Proof.
  intros (Hv & _ & _ & _ & (f & Hf & Heq) & Hq).
  exists (Producto.mkProducto (Producto._codigo p) (Producto._nombre p) (NFloat f)
            (Producto._tipo p) (Producto._cantidad p)).
  unfold Persistencia.producto_de_fila, Persistencia.fila. rewrite Hf, Hq.
  cbn [of_option mbind res_bind]. rewrite Producto_init_valido.
  unfold Producto.valido in *. cbn [Producto._codigo Producto._nombre Producto._precio
                                      Producto._tipo Producto._cantidad].
  rewrite !andb_true_iff in Hv. destruct Hv as [[[[Hc Hn] Hp] Ht] Hc'].
  rewrite Hc, Hn, Ht, Hc', (precio_ok_py_eq _ _ Hp Heq). split; [reflexivity|].
  unfold Persistencia.mismo_producto.
  cbn [Producto._codigo Producto._nombre Producto._precio Producto._tipo
         Producto._cantidad].
  now rewrite !String.eqb_refl, Heq, Z.eqb_refl.
Qed.

Lemma filas_leidas (os : list Producto.Producto) :
  Forall (producto_fiel rt) os ->
  exists qs, Forall2 (fun row q => Persistencia.producto_de_fila rt row = Ok q)
               (map (Persistencia.fila rt) os) qs
             /\ Persistencia.mismos_productos os qs = true.
Proof.
  induction 1 as [|p os Hp _ (qs & Hqs & Hm)]; [exists []; split; [constructor|reflexivity]|].
  destruct (producto_de_fila_fila p Hp) as (q & Hq & Hpq).
  exists (q :: qs). split; [now constructor|]. simpl. now rewrite Hpq, Hm.
Qed.

Lemma objetos_ok_app (σ : gmap loc Producto.Producto) (ps qs : list loc)
  (os os' : list Producto.Producto) :
  Catalogo.objetos σ ps = Ok os -> Catalogo.objetos σ qs = Ok os' ->
  Catalogo.objetos σ (ps ++ qs) = Ok (os ++ os').
Proof.
  revert os. induction ps as [|l ps IH]; intros os; simpl.
  - now intros [= <-].
  - destruct (deref σ l) as [o|]; [|discriminate]. simpl.
    destruct (Catalogo.objetos σ ps) as [os1|]; [|discriminate]. simpl.
    intros [= <-] H. now rewrite (IH os1 eq_refl H).
Qed.

(** The loop over rows that all give a product: one new object for each,
    appended in order, and the objects that were there are left alone. *)
Lemma cargar_buenas (rows : list (list string)) (os : list Producto.Producto)
  (resto : list (list string)) (fin : res unit) (σ : gmap loc Producto.Producto)
  (ps : list loc) :
  Forall2 (fun row q => Persistencia.producto_de_fila rt row = Ok q) rows os ->
  exists σ' qs,
    Persistencia.cargar rt (rows ++ resto) fin σ ps
    = Persistencia.cargar rt resto fin σ' (ps ++ qs)
    /\ σ ⊆ σ' /\ Catalogo.objetos σ' qs = Ok os.
Proof.
  intros Hrows. revert σ ps.
  induction Hrows as [|row q rows os Hq _ IH]; intros σ ps.
  - exists σ, []. now rewrite app_nil_r.
  - simpl. rewrite Hq. pose proof (alloc_fresco q σ) as Hfresh.
    unfold alloc in *. cbn [fst] in Hfresh.
    set (l := fresh (dom σ)) in *.
    destruct (IH (<[l := q]> σ) (ps ++ [l])) as (σ' & qs & Hc & Hsub & Hos).
    exists σ', (l :: qs). split; [|split].
    + rewrite Hc. now rewrite <- app_assoc.
    + etrans; [|exact Hsub]. now apply insert_subseteq.
    + simpl. unfold deref.
      rewrite (lookup_weaken _ _ _ _ (lookup_insert_eq σ l q) Hsub). simpl.
      now rewrite Hos.
Qed.

End CatalogoIdaYVuelta.

(** X14. A catalog saved with [guardar] and read with [leer] comes back
    with products equal to the saved ones, in the same order, when the
    file could be written and is read as it was written, every product is
    valid, no name and no category holds a carriage return and the
    conversions of the interpreter keep the numbers. [guardar] returned
    ([fs1]) and [text] is what it wrote; [fs] is the file system when
    [leer] runs, where the file opens and holds [text]. *)
Theorem guardar_leer_ida_y_vuelta (rt : Persistencia.Runtime)
  (σ : gmap loc Producto.Producto) (self : Catalogo.Catalogo) (archivo : string)
  (fs0 fs1 fs : gmap string string) (text : string) (os : list Producto.Producto) :
  Catalogo.objetos σ (Catalogo.productos self) = Ok os ->
  Forall (producto_fiel rt) os ->
  Persistencia.guardar rt σ self archivo fs0 = Ok fs1 ->
  fs1 !! archivo = Some text ->
  fs !! archivo = Some text ->
  exists σ' ps os',
    Persistencia.leer rt σ self archivo fs
    = (Ok tt, (σ', Catalogo.mkCatalogo ps (Catalogo.ofertas self)))
    /\ Catalogo.objetos σ' ps = Ok os'
    /\ Persistencia.mismos_productos os os' = true.
Proof.
  intros Hos Hfiel Hg Hw Hr. unfold Persistencia.guardar in Hg. rewrite Hos in Hg.
  change (Ok (<[archivo := string_of_list_ascii
                              (Csv.writerow Persistencia.encabezado
                               ++ Persistencia.escribir rt os)]> fs0) = Ok fs1) in Hg.
  set (T := string_of_list_ascii _) in Hg. injection Hg as <-.
  rewrite lookup_insert_eq in Hw. injection Hw as <-. subst T.
  unfold Persistencia.leer. rewrite Hr, escribir_filas. cbn beta iota.
  change (Csv.writerow Persistencia.encabezado
          ++ flat_map Csv.writerow (map (Persistencia.fila rt) os))
    with (flat_map Csv.writerow (Persistencia.encabezado :: map (Persistencia.fila rt) os)).
  rewrite reader_writer.
  2:{ constructor; [apply encabezado_fiel|].
      apply Forall_map. eapply Forall_impl; [exact Hfiel|]. apply fila_fiel. }
  destruct (filas_leidas rt os Hfiel) as (qs & Hqs & Hm).
  destruct (cargar_buenas rt _ _ [] (Ok tt) σ [] Hqs) as (σ' & ls & Hc & _ & Hls).
  rewrite app_nil_r in Hc. rewrite Hc. cbn [Persistencia.cargar app].
  now exists σ', ls, qs.
Qed.

(** The file of the two drinks in stock, as [guardar] writes it. *)
Lemma guardar_leer_ida_y_vuelta_witness :
  exists σ' ps os',
    Persistencia.leer Ejemplo.conversiones Ejemplo.bebidas_en_stock Ejemplo.surtido
      "catalogo.csv" (<["catalogo.csv"%string := Archivos.bebidas]> ∅)
    = (Ok tt, (σ', Catalogo.mkCatalogo ps (Catalogo.ofertas Ejemplo.surtido)))
    /\ Catalogo.objetos σ' ps = Ok os'
    /\ Persistencia.mismos_productos [Ejemplo.coca; Ejemplo.agua] os' = true.
Proof.
  apply (guardar_leer_ida_y_vuelta Ejemplo.conversiones Ejemplo.bebidas_en_stock
           Ejemplo.surtido "catalogo.csv" ∅
           (<["catalogo.csv"%string := Archivos.bebidas]> ∅)
           (<["catalogo.csv"%string := Archivos.bebidas]> ∅)
           Archivos.bebidas [Ejemplo.coca; Ejemplo.agua]);
    [reflexivity| |reflexivity|reflexivity|reflexivity].
  apply Forall_cons_2; [|apply Forall_cons_2; [|constructor]].
  - split; [reflexivity|].
    split; [apply es_sin_CR; reflexivity|]. split; [apply es_sin_CR; reflexivity|].
    split; [apply es_campo_fiel_ok; reflexivity|].
    split; [exists 12.5%float; split; reflexivity|reflexivity].
  - split; [reflexivity|].
    split; [apply es_sin_CR; reflexivity|]. split; [apply es_sin_CR; reflexivity|].
    split; [apply es_campo_fiel_ok; reflexivity|].
    split; [exists 10%float; split; reflexivity|reflexivity].
Defined.

(** * [leer] on any file *)

Section Lectura.

Variable rt : Persistencia.Runtime.

Lemma producto_de_fila_valido (row : list string) (p : Producto.Producto) :
  Persistencia.producto_de_fila rt row = Ok p ->
  Producto.valido p = true /\ exists f, Producto._precio p = NFloat f.
Proof.
  unfold Persistencia.producto_de_fila.
  destruct row as [|codigo [|nombre [|precio [|tipo [|cantidad [|? ?]]]]]]; try discriminate.
  destruct (Persistencia.float_of_str rt precio) as [f|]; [|discriminate].
  destruct (Persistencia.int_of_str rt cantidad); [|discriminate].
  cbn [of_option mbind res_bind]. rewrite Producto_init_valido.
  destruct (Producto.valido _) eqn:E; [|discriminate]. intros [= <-].
  split; [exact E|now exists f].
Qed.

(** Whatever the rows and however the loop ends: the objects of before are
    left alone, and what is appended are new references, each to a valid
    product, none twice. *)
Lemma cargar_inv (rows : list (list string)) (fin : res unit)
  (σ : gmap loc Producto.Producto) (ps : list loc) :
  exists qs, (Persistencia.cargar rt rows fin σ ps).2.2 = ps ++ qs
             /\ σ ⊆ (Persistencia.cargar rt rows fin σ ps).2.1
             /\ NoDup qs
             /\ Forall (cargado σ (Persistencia.cargar rt rows fin σ ps).2.1) qs.
Proof.
  revert σ ps. induction rows as [|row rows IH]; intros σ ps; simpl.
  - exists []. rewrite app_nil_r.
    split; [reflexivity|]. split; [reflexivity|]. split; constructor.
  - destruct (Persistencia.producto_de_fila rt row) as [p|e] eqn:E.
    2:{ exists []. rewrite app_nil_r.
        split; [reflexivity|]. split; [reflexivity|]. split; constructor. }
    pose proof (alloc_fresco p σ) as Hfresh.
    unfold alloc in *. cbn [fst] in Hfresh. set (l := fresh (dom σ)) in *.
    destruct (IH (<[l := p]> σ) (ps ++ [l])) as (qs & Hps & Hsub & Hnd & Hqs).
    set (fin' := Persistencia.cargar rt rows fin (<[l := p]> σ) (ps ++ [l])) in *.
    assert (σ ⊆ <[l := p]> σ) as Hins by now apply insert_subseteq.
    exists (l :: qs). split; [|split; [|split]].
    + rewrite Hps. now rewrite <- app_assoc.
    + transitivity (<[l := p]> σ); assumption.
    + constructor; [|exact Hnd]. intros Hin.
      rewrite Forall_forall in Hqs. destruct (Hqs l Hin) as [Hnone _].
      now rewrite lookup_insert_eq in Hnone.
    + constructor.
      * split; [exact Hfresh|].
        destruct (producto_de_fila_valido row p E) as (Hv & f & Hf).
        exists p, f. split; [|now split].
        apply (lookup_weaken _ _ _ _ (lookup_insert_eq σ l p) Hsub).
      * eapply Forall_impl; [exact Hqs|]. intros l' [Hnone Hp]. split; [|exact Hp].
        now apply (lookup_weaken_None _ _ _ Hnone Hins).
Qed.

End Lectura.

(** X15. However [leer] ends, with or without an error: the offers of the
    catalog are kept, no object that existed before the call is changed,
    and the product list of the catalog holds nothing of what it held
    before: only references to new objects, none twice, each a valid
    product whose price is a float. *)
Theorem leer_reemplaza (rt : Persistencia.Runtime) (σ : gmap loc Producto.Producto)
  (self : Catalogo.Catalogo) (archivo : string) (fs : gmap string string) :
  let '(_, (σ', self')) := Persistencia.leer rt σ self archivo fs in
  Catalogo.ofertas self' = Catalogo.ofertas self
  /\ σ ⊆ σ'
  /\ NoDup (Catalogo.productos self')
  /\ Forall (cargado σ σ') (Catalogo.productos self').
Proof.
  unfold Persistencia.leer.
  destruct (fs !! archivo) as [text|];
    [|split; [reflexivity|]; split; [reflexivity|]; split; constructor].
  destruct (Csv.reader text) as [[|header rows] fin].
  - destruct fin; (split; [reflexivity|]; split; [reflexivity|]; split; constructor).
  - destruct (cargar_inv rt rows fin σ []) as (qs & Hps & Hsub & Hnd & Hqs).
    destruct (Persistencia.cargar rt rows fin σ []) as [out [σ' ps]].
    simpl in *. subst ps. split; [reflexivity|]. now split.
Qed.

(** X16. [leer] is not all or nothing: when the rows after the header begin
    with rows that each give a product and the next row is refused, the
    call raises that row's error and the catalog is left with the products
    of the rows before it, in order. *)
Theorem leer_carga_parcial (rt : Persistencia.Runtime) (σ : gmap loc Producto.Producto)
  (self : Catalogo.Catalogo) (archivo : string) (fs : gmap string string)
  (text : string) (header : list string) (buenas : list (list string))
  (mala : list string) (resto : list (list string)) (fin : res unit)
  (os : list Producto.Producto) (e : exn) :
  fs !! archivo = Some text ->
  Csv.reader text = (header :: buenas ++ mala :: resto, fin) ->
  Forall2 (fun row p => Persistencia.producto_de_fila rt row = Ok p) buenas os ->
  Persistencia.producto_de_fila rt mala = Raise e ->
  exists σ' ps,
    Persistencia.leer rt σ self archivo fs
    = (Raise e, (σ', Catalogo.mkCatalogo ps (Catalogo.ofertas self)))
    /\ Catalogo.objetos σ' ps = Ok os.
Proof.
  intros Hfs Hr Hb Hm. unfold Persistencia.leer. rewrite Hfs, Hr.
  destruct (cargar_buenas rt buenas os (mala :: resto) fin σ [] Hb)
    as (σ' & ps & Hc & _ & Hos).
  exists σ', ps. rewrite Hc. cbn [Persistencia.cargar app]. rewrite Hm. now split.
Qed.

Lemma leer_carga_parcial_witness :
  exists σ' ps,
    Persistencia.leer Ejemplo.conversiones Ejemplo.panes Ejemplo.panaderia "catalogo.csv"
      (<["catalogo.csv"%string := Casos.archivo_con_error]> ∅)
    = (Raise ValueError, (σ', Catalogo.mkCatalogo ps (Catalogo.ofertas Ejemplo.panaderia)))
    /\ Catalogo.objetos σ' ps = Ok [Ejemplo.coca].
Proof.
  apply (leer_carga_parcial _ _ _ _ _ Casos.archivo_con_error Persistencia.encabezado
           [["0001"; "Coca Cola"; "12.5"; "gaseosa"; "100"]%string]
           ["1"; "Agua"; "10"; "gaseosa"; "50"]%string
           [["0004"; "Jugo"; "10"; "gaseosa"; "50"]%string] (Ok tt)).
  - reflexivity.
  - vm_compute. reflexivity.
  - repeat constructor.
  - reflexivity.
Defined.

(** * The ways [leer] ends *)

Section ErroresDeLectura.

Lemma parse_add_char_error (r : Csv.Reader) (c : ascii) (e : exn) :
  Csv.parse_add_char r c = Raise e -> e = CsvError.
Proof.
  unfold Csv.parse_add_char. destruct (_ <=? _); [|discriminate]. now intros [= <-].
Qed.

Lemma parse_process_char_error (r : Csv.Reader) (c : option ascii) (e : exn) :
  Csv.parse_process_char r c = Raise e -> e = CsvError.
Proof.
  unfold Csv.parse_process_char, Csv.en_start_field.
  destruct (Csv.state r), c as [x|]; try discriminate;
    repeat match goal with
           | |- context [if ?b then _ else _] => destruct b; try discriminate
           end;
    try (now intros [= <-]);
    try (now apply parse_add_char_error);
    match goal with
    | |- context [Csv.parse_add_char ?r' x] =>
        destruct (Csv.parse_add_char r' x) as [r''|e'] eqn:E; [discriminate|];
        apply parse_add_char_error in E; simpl; now intros [= <-]
    end.
Qed.

Lemma procesar_linea_error (cs : list ascii) (r : Csv.Reader) (e : exn) :
  Csv.procesar_linea r cs = Raise e -> e = CsvError.
Proof.
  revert r. induction cs as [|c cs IH]; intros r; simpl.
  - apply parse_process_char_error.
  - destruct (Csv.parse_process_char r (Some c)) as [r'|e'] eqn:E; simpl.
    + apply IH.
    + intros [= <-]. now apply parse_process_char_error in E.
Qed.

(** The only error of the reader is [csv.Error]. *)
Lemma filas_error (ls : list (list ascii)) (r : Csv.Reader) (e : exn) :
  (Csv.filas r ls).2 = Raise e -> e = CsvError.
Proof.
  revert r. induction ls as [|l ls IH]; intros r; simpl.
  - destruct (Csv.en_registro r); discriminate.
  - destruct (Csv.procesar_linea r l) as [r'|e'] eqn:E; simpl.
    + destruct (Csv.state r');
        try apply IH.
      destruct (Csv.filas Csv.parse_reset ls) as [rows fin] eqn:Ef. simpl.
      intros ->. apply (IH Csv.parse_reset). now rewrite Ef.
    + intros [= <-]. now apply procesar_linea_error in E.
Qed.

Lemma reader_error (text : string) (e : exn) :
  (Csv.reader text).2 = Raise e -> e = CsvError.
Proof. apply filas_error. Qed.

(** At the end of a line the parser is between two records or inside
    quotes. *)
Lemma procesar_linea_estado (cs : list ascii) (r r' : Csv.Reader) :
  Csv.procesar_linea r cs = Ok r' ->
  Csv.state r' = Csv.START_RECORD \/ Csv.state r' = Csv.IN_QUOTED_FIELD.
Proof.
  revert r. induction cs as [|c cs IH]; intros r; simpl.
  - unfold Csv.parse_process_char, Csv.en_start_field.
    destruct (Csv.state r) eqn:Er; intros [= <-]; simpl; auto.
  - destruct (Csv.parse_process_char r (Some c)) as [r1|]; [|discriminate]. simpl.
    apply IH.
Qed.

Lemma filas_entre_comillas_da_algo (ls : list (list ascii)) (r : Csv.Reader) :
  Csv.state r = Csv.IN_QUOTED_FIELD -> da_algo (Csv.filas r ls).
Proof.
  revert r. induction ls as [|l ls IH]; intros r Hr; simpl.
  - unfold Csv.en_registro. rewrite Hr, orb_true_r. left. discriminate.
  - destruct (Csv.procesar_linea r l) as [r'|e] eqn:E.
    + destruct (procesar_linea_estado l r r' E) as [H|H]; rewrite H.
      * destruct (Csv.filas Csv.parse_reset ls). left. discriminate.
      * now apply IH.
    + right. now exists e.
Qed.

(** Lines give a row or an error. *)
Lemma filas_da_algo (l : list ascii) (ls : list (list ascii)) (r : Csv.Reader) :
  da_algo (Csv.filas r (l :: ls)).
Proof.
  simpl. destruct (Csv.procesar_linea r l) as [r'|e] eqn:E.
  - destruct (procesar_linea_estado l r r' E) as [H|H]; rewrite H.
    + destruct (Csv.filas Csv.parse_reset ls). left. discriminate.
    + now apply filas_entre_comillas_da_algo.
  - right. now exists e.
Qed.

(** Only the empty file has no row to give. *)
Lemma reader_vacio (text : string) : Csv.reader text = ([], Ok tt) -> text = ""%string.
Proof.
  intros Hr. destruct text as [|c text]; [reflexivity|]. exfalso.
  unfold Csv.reader in Hr.
  destruct (Csv.lineas (Csv.universal_newlines (Str.chars (String c text))))
    as [|l ls] eqn:El.
  - apply lineas_nil in El. simpl in El.
    destruct (Ascii.eqb c Csv.CR); discriminate El.
  - pose proof (filas_da_algo l ls Csv.parse_reset) as [H|[e H]];
      rewrite Hr in H; [now apply H|discriminate H].
Qed.

Variable rt : Persistencia.Runtime.

Lemma producto_de_fila_error (row : list string) (e : exn) :
  Persistencia.producto_de_fila rt row = Raise e -> e = ValueError.
Proof.
  unfold Persistencia.producto_de_fila.
  destruct row as [|codigo [|nombre [|precio [|tipo [|cantidad [|? ?]]]]]];
    try (now intros [= <-]).
  destruct (Persistencia.float_of_str rt precio); [|now intros [= <-]].
  destruct (Persistencia.int_of_str rt cantidad); [|now intros [= <-]].
  cbn [of_option mbind res_bind]. rewrite Producto_init_valido.
  destruct (Producto.valido _); [discriminate|now intros [= <-]].
Qed.

Lemma cargar_error (rows : list (list string)) (fin : res unit)
  (σ : gmap loc Producto.Producto) (ps : list loc) (e : exn) :
  (Persistencia.cargar rt rows fin σ ps).1 = Raise e -> e = ValueError \/ fin = Raise e.
Proof.
  revert σ ps. induction rows as [|row rows IH]; intros σ ps; simpl; [now right|].
  destruct (Persistencia.producto_de_fila rt row) as [p|e'] eqn:E.
  - unfold alloc. apply IH.
  - simpl. intros [= <-]. left. now apply producto_de_fila_error in E.
Qed.

End ErroresDeLectura.

(** The ways [leer] ends on a file that is read as [text]. *)
Lemma leer_salidas (rt : Persistencia.Runtime) (σ : gmap loc Producto.Producto)
  (self : Catalogo.Catalogo) (archivo : string) (fs : gmap string string)
  (text : string) :
  fs !! archivo = Some text ->
  match (Persistencia.leer rt σ self archivo fs).1 with
  | Raise StopIteration => text = ""%string
  | Ok _ | Raise ValueError | Raise CsvError => text <> ""%string
  | Raise _ => False
  end.
Proof.
  intros Hfs. unfold Persistencia.leer. rewrite Hfs.
  destruct (Csv.reader text) as [[|header rows] fin] eqn:Hr.
  - destruct fin as [[]|e]; simpl.
    + now apply reader_vacio.
    + assert (e = CsvError) as ->.
      { apply (reader_error text). now rewrite Hr. }
      intros ->. discriminate Hr.
  - assert (text <> ""%string) as Hne by (intros ->; discriminate Hr).
    pose proof (cargar_error rt rows fin σ [] ) as He.
    destruct (Persistencia.cargar rt rows fin σ []) as [[u|e] [σ' ps]]; simpl in *.
    + exact Hne.
    + destruct (He e eq_refl) as [->| ->]; [exact Hne|].
      assert (e = CsvError) as ->.
      { apply (reader_error text). now rewrite Hr. }
      exact Hne.
Qed.

(** X19. The ways [leer] ends on a file that opens and is read as the text
    [text]: it raises [StopIteration] exactly when the file is empty, and
    whatever it raises is that, [ValueError] (a row that gives no product)
    or [csv.Error]. *)
Theorem leer_errores (rt : Persistencia.Runtime) (σ : gmap loc Producto.Producto)
  (self : Catalogo.Catalogo) (archivo : string) (fs : gmap string string)
  (text : string) :
  fs !! archivo = Some text ->
  ((Persistencia.leer rt σ self archivo fs).1 = Raise StopIteration
   <-> text = ""%string)
  /\ (forall e, (Persistencia.leer rt σ self archivo fs).1 = Raise e ->
                e = StopIteration \/ e = ValueError \/ e = CsvError).
Proof.
  intros Hfs. pose proof (leer_salidas rt σ self archivo fs text Hfs) as H.
  split; [split|].
  - intros He. now rewrite He in H.
  - intros ->. destruct (Persistencia.leer rt σ self archivo fs).1 as [u|e];
      [now contradiction H|].
    destruct e; try contradiction; try reflexivity; now contradiction H.
  - intros e He. rewrite He in H. destruct e; try contradiction; auto.
Qed.

(** An empty file: [next(reader)] has no header to skip. *)
Lemma leer_errores_witness :
  (Persistencia.leer Ejemplo.conversiones ∅ Catalogo.init "vacio.csv"
     (<["vacio.csv"%string := ""%string]> ∅)).1 = Raise StopIteration.
Proof.
  apply (leer_errores Ejemplo.conversiones ∅ Catalogo.init "vacio.csv"
           (<["vacio.csv"%string := ""%string]> ∅) ""); reflexivity.
Defined.

(** * The printed invoice *)

Section SinAttributeError.

Variable σ : gmap loc Producto.Producto.
Variable h : gmap loc (list string).
Variable cat : Catalogo.Catalogo.

Lemma linea_sin_AttributeError (item : Factura.Item) :
  Impresion.es_AttributeError (Impresion.linea σ h cat item) = false.
Proof.
  unfold Impresion.linea.
  destruct (deref σ (Factura.producto item)) as [p|]; [|reflexivity]. simpl.
  destruct (py_mul _ _) as [s|]; [|reflexivity]. simpl.
  destruct (Impresion.str_int (Factura.cantidad item)) as [cs|]; [|reflexivity].
  cbn [Impresion.de_res].
  destruct (Str.fmt_num_2f (Producto._precio p)) as [ps|]; [|reflexivity]. simpl.
  destruct (Str.fmt_num_2f s) as [ss|]; [|reflexivity]. simpl.
  unfold Catalogo.calcularDescuento.
  destruct (Catalogo.buscarOferta h cat p (Factura.cantidad item)) as [o|].
  - destruct (Oferta.aplicar h o p (Factura.cantidad item)) as [d|]; [|reflexivity]. simpl.
    destruct (Impresion.py_gt d (NInt 0)); [|reflexivity].
    destruct (Str.fmt_num_2f d); reflexivity.
  - reflexivity.
Qed.

Lemma lineas_sin_AttributeError (its : list Factura.Item) :
  Impresion.es_AttributeError (Impresion.lineas σ h cat its) = false.
Proof.
  induction its as [|item its IH]; simpl; [reflexivity|].
  pose proof (linea_sin_AttributeError item) as Hl.
  destruct (Impresion.linea σ h cat item) as [l|f]; simpl; [|exact Hl].
  destruct (Impresion.lineas σ h cat its) as [r|f]; simpl; [reflexivity|exact IH].
Qed.

Lemma pie_sin_AttributeError (self : Factura.Factura) :
  Impresion.es_AttributeError (Impresion.pie σ h cat self) = false.
Proof.
  unfold Impresion.pie, Impresion.de_res.
  repeat match goal with
         | |- context [match ?r with Ok _ => _ | Raise _ => _ end] =>
             destruct r; [|reflexivity]
         end.
  reflexivity.
Qed.

End SinAttributeError.

(** X17. [imprimir] never fails on [oferta.descripcion]: the offer is
    looked up again only for a line whose discount is positive, and a
    positive discount was computed by an offer that the second lookup
    finds too. *)
Theorem imprimir_sin_AttributeError (strftime : Z -> string)
  (σ : gmap loc Producto.Producto) (h : gmap loc (list string))
  (cat : Catalogo.Catalogo) (cli : Cliente.Cliente) (self : Factura.Factura) :
  Impresion.es_AttributeError (Impresion.imprimir strftime σ h cat cli self) = false.
Proof.
  unfold Impresion.imprimir.
  destruct (Impresion.str_int (Factura.numero self)) as [ns|]; [|reflexivity].
  cbn [Impresion.de_res].
  pose proof (lineas_sin_AttributeError σ h cat (Factura.items self)) as Hl.
  destruct (Impresion.lineas σ h cat (Factura.items self)) as [ls|f]; simpl; [|exact Hl].
  pose proof (pie_sin_AttributeError σ h cat self) as Hp.
  destruct (Impresion.pie σ h cat self) as [p|f]; simpl; [reflexivity|exact Hp].
Qed.

Section Acotados.

Lemma as_float_acotado (B : Z) (v : num) :
  acotado B v -> B < float_bound -> exists f, as_float v = Ok f.
Proof.
  intros Hv HB. destruct v as [z|f]; simpl in *; [|now eexists].
  unfold float_of_int. destruct (Z.leb_spec float_bound (Z.abs z)); [lia|now eexists].
Qed.

Lemma py_mul_acotado (B1 B2 : Z) (a b : num) :
  acotado B1 a -> acotado B2 b -> B1 < float_bound -> B2 < float_bound ->
  exists v, py_mul a b = Ok v /\ acotado (B1 * B2) v.
Proof.
  intros Ha Hb H1 H2.
  destruct (as_float_acotado B1 a Ha H1) as [x Hx].
  destruct (as_float_acotado B2 b Hb H2) as [y Hy].
  destruct a as [z1|f1], b as [z2|f2]; simpl in *;
    rewrite ?Hx, ?Hy; simpl; eexists; (split; [reflexivity|]); simpl; try exact I.
  rewrite Z.abs_mul. apply Z.mul_le_mono_nonneg; lia.
Qed.

Lemma py_add_acotado (B1 B2 : Z) (a b : num) :
  acotado B1 a -> acotado B2 b -> B1 < float_bound -> B2 < float_bound ->
  exists v, py_add a b = Ok v /\ acotado (B1 + B2) v.
Proof.
  intros Ha Hb H1 H2.
  destruct (as_float_acotado B1 a Ha H1) as [x Hx].
  destruct (as_float_acotado B2 b Hb H2) as [y Hy].
  destruct a as [z1|f1], b as [z2|f2]; simpl in *;
    rewrite ?Hx, ?Hy; simpl; eexists; (split; [reflexivity|]); simpl; try exact I.
  lia.
Qed.

Lemma py_sub_acotado (B1 B2 : Z) (a b : num) :
  acotado B1 a -> acotado B2 b -> B1 < float_bound -> B2 < float_bound ->
  exists v, py_sub a b = Ok v /\ acotado (B1 + B2) v.
Proof.
  intros Ha Hb H1 H2.
  destruct (as_float_acotado B1 a Ha H1) as [x Hx].
  destruct (as_float_acotado B2 b Hb H2) as [y Hy].
  destruct a as [z1|f1], b as [z2|f2]; simpl in *;
    rewrite ?Hx, ?Hy; simpl; eexists; (split; [reflexivity|]); simpl; try exact I.
  lia.
Qed.

Lemma fmt_num_2f_acotado (B : Z) (v : num) :
  acotado B v -> B < float_bound -> exists s, Str.fmt_num_2f v = Ok s.
Proof.
  intros Hv HB. unfold Str.fmt_num_2f.
  destruct (as_float_acotado B v Hv HB) as [x ->]. now eexists.
Qed.

Lemma acotado_mono (B B' : Z) (v : num) : acotado B v -> B <= B' -> acotado B' v.
Proof. destruct v; simpl; [lia|trivial]. Qed.

(** The bound of one amount: a price of at most 10000 times a quantity of
    at most [10^9]. *)
Lemma cota_de_linea : 10000 * 10 ^ 9 = 10 ^ 13 /\ 2 * (2 ^ 63 * 10 ^ 13) < float_bound.
Proof. split; reflexivity. Qed.

(** An int of at most 4300 digits is written. *)
Lemma str_int_corto (z : Z) :
  Z.abs z < 10 ^ 4300 -> Impresion.str_int z = Ok (Str.str_int z).
Proof.
  intros Hz. unfold Impresion.str_int, Impresion.max_str_digits.
  destruct (Z.leb_spec (10 ^ 4300) (Z.abs z)) as [Hle|_]; [|reflexivity].
  exfalso. exact (Z.lt_irrefl _ (Z.lt_le_trans _ _ _ Hz Hle)).
Qed.

Lemma cota_de_digitos : 10 ^ 9 < 10 ^ 4300.
Proof. vm_compute. reflexivity. Qed.

Lemma precio_acotado (p : Producto.Producto) :
  Producto.valido p = true -> acotado 10000 (Producto._precio p).
Proof.
  intros Hp. apply valido_cotas in Hp as [_ Hp].
  destruct (Producto._precio p); simpl; [lia|exact I].
Qed.

End Acotados.

Section Devuelve.

Variable σ : gmap loc Producto.Producto.
Variable h : gmap loc (list string).
Variable cat : Catalogo.Catalogo.

Hypothesis Hofertas : Forall oferta_con_regla (Catalogo.ofertas cat).

Lemma importe_acotado (p : Producto.Producto) (c : Z) :
  Producto.valido p = true -> Z.abs c <= 10 ^ 9 ->
  exists v, py_mul (Producto._precio p) (NInt c) = Ok v /\ acotado (10 ^ 13) v.
Proof.
  intros Hp Hc.
  apply (py_mul_acotado 10000 (10 ^ 9) _ (NInt c) (precio_acotado p Hp) Hc); reflexivity.
Qed.

Lemma buscarOferta_en_In (os : list Oferta.Oferta) (p : Producto.Producto) (c : Z)
  (o : Oferta.Oferta) :
  Catalogo.buscarOferta_en h os p c = Some o ->
  o ∈ os /\ Oferta.esAplicable h o p c = true.
Proof.
  induction os as [|o' os IH]; simpl; [discriminate|].
  destruct (Oferta.esAplicable h o' p c) eqn:E.
  - intros [= <-]. split; [apply list_elem_of_here|exact E].
  - intros [Hin Ho]%IH. split; [now apply list_elem_of_further|exact Ho].
Qed.

Lemma mitad_acotada (c : Z) : Z.abs c <= 10 ^ 9 -> Z.abs (c / 2) <= 10 ^ 9.
Proof.
  intros Hc. pose proof (Z.div_mod c 2 ltac:(lia)).
  pose proof (Z.mod_pos_bound c 2 ltac:(lia)). lia.
Qed.

Lemma calcularDescuento_acotado (p : Producto.Producto) (c : Z) :
  Producto.valido p = true -> Z.abs c <= 10 ^ 9 ->
  exists d, Catalogo.calcularDescuento h cat p c = Ok d /\ acotado (10 ^ 13) d.
Proof.
  intros Hp Hc. unfold Catalogo.calcularDescuento, Catalogo.buscarOferta.
  destruct (Catalogo.buscarOferta_en h (Catalogo.ofertas cat) p c) as [o|] eqn:Eo.
  2:{ exists (NInt 0). split; [reflexivity|]. simpl. lia. }
  apply buscarOferta_en_In in Eo as [Hin Ho].
  rewrite Forall_forall in Hofertas. specialize (Hofertas o Hin).
  unfold oferta_con_regla in Hofertas. unfold Oferta.aplicar.
  destruct (Oferta.clase o) as [|d|]; [contradiction| |].
  - unfold Oferta.OfertaDescuento_aplicar. rewrite Ho.
    destruct (importe_acotado p c Hp Hc) as (bruto & -> & Hb). cbn [mbind res_bind].
    assert (exists q, py_truediv d (NInt 100) = Ok (NFloat q)) as [q ->].
    { destruct d as [z|f].
      - cbn [py_truediv]. unfold int_truediv. change (100 =? 0) with false. cbn iota.
        change (Z.abs 100) with 100. pose proof float_bound_grande.
        destruct (Z.leb_spec (float_bound * 100) (Z.abs z)); [lia|now eexists].
      - now eexists. }
    cbn [mbind res_bind].
    destruct (as_float_acotado (10 ^ 13) bruto Hb eq_refl) as [x Hx].
    destruct bruto as [z|f]; simpl in *; [rewrite Hx|]; simpl; eexists; split;
      try reflexivity; exact I.
  - unfold Oferta.Oferta2x1_aplicar. rewrite Ho.
    apply importe_acotado; [exact Hp|now apply mitad_acotada].
Qed.

Lemma linea_devuelve (item : Factura.Item) :
  linea_corriente σ item -> exists t, Impresion.linea σ h cat item = Impresion.Devuelve t.
Proof.
  intros (p & Hl & Hp & Hc). unfold Impresion.linea, deref. rewrite Hl.
  cbn [of_option Impresion.de_res].
  destruct (importe_acotado p _ Hp Hc) as (s & -> & Hs). cbn [Impresion.de_res].
  rewrite str_int_corto by exact (Z.le_lt_trans _ _ _ Hc cota_de_digitos).
  cbn [Impresion.de_res].
  destruct (fmt_num_2f_acotado 10000 _ (precio_acotado p Hp) eq_refl) as [ps ->].
  destruct (fmt_num_2f_acotado (10 ^ 13) s Hs eq_refl) as [ss ->].
  cbn [Impresion.de_res].
  destruct (calcularDescuento_acotado p _ Hp Hc) as (d & Hd & Hd').
  rewrite Hd. cbn [Impresion.de_res].
  destruct (Impresion.py_gt d (NInt 0)) eqn:Hgt; [|now eexists].
  unfold Catalogo.calcularDescuento in Hd.
  destruct (Catalogo.buscarOferta h cat p (Factura.cantidad item)) as [o|].
  - destruct (fmt_num_2f_acotado (10 ^ 13) d Hd' eq_refl) as [ds ->]. now eexists.
  - injection Hd as <-. discriminate Hgt.
Qed.

Lemma lineas_devuelve (its : list Factura.Item) :
  Forall (linea_corriente σ) its ->
  exists t, Impresion.lineas σ h cat its = Impresion.Devuelve t.
Proof.
  induction 1 as [|item its Hi _ (r & Hr)]; simpl; [now eexists|].
  destruct (linea_devuelve item Hi) as (l & ->). rewrite Hr. now eexists.
Qed.

(** The two sums: [n] amounts are already in the accumulator. *)
Lemma sum_subtotal_acotado (its : list Factura.Item) (acc : num) (n : Z) :
  Forall (linea_corriente σ) its -> 0 <= n ->
  acotado (n * 10 ^ 13) acc ->
  (n + Z.of_nat (length its)) * 10 ^ 13 < float_bound ->
  exists v, Factura.sum_subtotal σ acc its = Ok v
            /\ acotado ((n + Z.of_nat (length its)) * 10 ^ 13) v.
Proof.
  intros Hits. revert acc n.
  induction Hits as [|it its (p & Hl & Hp & Hc) _ IH]; intros acc n Hn Hacc Hb.
  - exists acc. split; [reflexivity|]. simpl length. now rewrite Z.add_0_r.
  - simpl Factura.sum_subtotal. unfold deref. rewrite Hl. cbn [of_option mbind res_bind].
    destruct (importe_acotado p _ Hp Hc) as (v & -> & Hv). cbn [mbind res_bind].
    change (10 ^ 13) with 10000000000000 in *. simpl length in *.
    destruct (py_add_acotado _ _ acc v Hacc Hv) as (acc' & -> & Hacc'); [lia|reflexivity|].
    cbn [mbind res_bind].
    destruct (IH acc' (n + 1)) as (r & Hr & Hr'); [lia| | |].
    + eapply acotado_mono; [exact Hacc'|lia].
    + lia.
    + exists r. split; [exact Hr|]. eapply acotado_mono; [exact Hr'|lia].
Qed.

Lemma sum_descuentos_acotado (its : list Factura.Item) (acc : num) (n : Z) :
  Forall (linea_corriente σ) its -> 0 <= n ->
  acotado (n * 10 ^ 13) acc ->
  (n + Z.of_nat (length its)) * 10 ^ 13 < float_bound ->
  exists v, Factura.sum_descuentos σ h cat acc its = Ok v
            /\ acotado ((n + Z.of_nat (length its)) * 10 ^ 13) v.
Proof.
  intros Hits. revert acc n.
  induction Hits as [|it its (p & Hl & Hp & Hc) _ IH]; intros acc n Hn Hacc Hb.
  - exists acc. split; [reflexivity|]. simpl length. now rewrite Z.add_0_r.
  - simpl Factura.sum_descuentos. unfold deref. rewrite Hl. cbn [of_option mbind res_bind].
    destruct (calcularDescuento_acotado p _ Hp Hc) as (v & -> & Hv). cbn [mbind res_bind].
    change (10 ^ 13) with 10000000000000 in *. simpl length in *.
    destruct (py_add_acotado _ _ acc v Hacc Hv) as (acc' & -> & Hacc'); [lia|reflexivity|].
    cbn [mbind res_bind].
    destruct (IH acc' (n + 1)) as (r & Hr & Hr'); [lia| | |].
    + eapply acotado_mono; [exact Hacc'|lia].
    + lia.
    + exists r. split; [exact Hr|]. eapply acotado_mono; [exact Hr'|lia].
Qed.

Lemma pie_devuelve (self : Factura.Factura) :
  Forall (linea_corriente σ) (Factura.items self) ->
  Z.of_nat (length (Factura.items self)) <= PY_SSIZE_T_MAX ->
  exists t, Impresion.pie σ h cat self = Impresion.Devuelve t.
Proof.
  intros Hits Hlen.
  pose proof cota_de_linea as [_ Hcota].
  unfold PY_SSIZE_T_MAX in Hlen.
  change (2 ^ 63) with 9223372036854775808 in *.
  change (10 ^ 13) with 10000000000000 in Hcota.
  set (L := Z.of_nat (length (Factura.items self))) in *.
  assert ((0 + L) * 10 ^ 13 < float_bound) as Hb
    by (change (10 ^ 13) with 10000000000000; lia).
  destruct (sum_subtotal_acotado _ (NInt 0) 0 Hits ltac:(lia) ltac:(simpl; lia) Hb)
    as (s & Hs & Hs').
  destruct (sum_descuentos_acotado _ (NInt 0) 0 Hits ltac:(lia) ltac:(simpl; lia) Hb)
    as (d & Hd & Hd').
  fold L in Hs', Hd'.
  destruct (py_sub_acotado _ _ s d Hs' Hd' Hb Hb) as (t & Ht & Ht').
  assert ((0 + L) * 10 ^ 13 + (0 + L) * 10 ^ 13 < float_bound) as Hb2
    by (change (10 ^ 13) with 10000000000000; lia).
  destruct (fmt_num_2f_acotado _ s Hs' Hb) as [ss Hss].
  destruct (fmt_num_2f_acotado _ d Hd' Hb) as [ds Hds].
  destruct (fmt_num_2f_acotado _ t Ht' Hb2) as [ts Hts].
  unfold Impresion.pie, Factura.total, Factura.subtotal, Factura.descuentos.
  rewrite Hs, Hd. cbn [mbind res_bind Impresion.de_res].
  rewrite Hss, Hds, Ht. cbn [Impresion.de_res]. rewrite Hts. now eexists.
Qed.

End Devuelve.

(** X18. [imprimir] returns the text of every ordinary invoice: its number
    has at most 4300 digits, each line is of a stored valid product, with
    at most [10^9] units in either direction, and every offer of the
    catalog is an [Oferta2x1] or an [OfertaDescuento] (an int percentage
    one that converts to a float). So what makes it raise is an offer of
    the base class or a number beyond these bounds. *)
Theorem imprimir_devuelve (strftime : Z -> string) (σ : gmap loc Producto.Producto)
  (h : gmap loc (list string)) (cat : Catalogo.Catalogo) (cli : Cliente.Cliente)
  (self : Factura.Factura) :
  Z.abs (Factura.numero self) < 10 ^ 4300 ->
  Forall (linea_corriente σ) (Factura.items self) ->
  Forall oferta_con_regla (Catalogo.ofertas cat) ->
  Z.of_nat (length (Factura.items self)) <= PY_SSIZE_T_MAX ->
  exists t, Impresion.imprimir strftime σ h cat cli self = Impresion.Devuelve t.
Proof.
  intros Hnum Hits Hos Hlen. unfold Impresion.imprimir.
  rewrite (str_int_corto _ Hnum). cbn [Impresion.de_res].
  destruct (lineas_devuelve σ h cat Hos _ Hits) as [ls ->].
  destruct (pie_devuelve σ h cat Hos self Hits Hlen) as [p ->].
  now eexists.
Qed.

Lemma imprimir_devuelve_witness :
  exists t, Impresion.imprimir Mostrador.reloj Mostrador.estante Ejemplo.listas
              Mostrador.catalogo Ejemplo.juan Mostrador.factura
            = Impresion.Devuelve t.
Proof.
  apply imprimir_devuelve.
  - vm_compute. reflexivity.
  - apply Forall_cons_2; [|apply Forall_cons_2; [|constructor]].
    + exists Ejemplo.coca. split; [reflexivity|]. split; [reflexivity|].
      vm_compute. discriminate.
    + exists Ejemplo.agua. split; [reflexivity|]. split; [reflexivity|].
      vm_compute. discriminate.
  - apply Forall_cons_2; [reflexivity|constructor].
  - vm_compute. discriminate.
Defined.

(** The text of that invoice. *)
Example imprimir_mostrador :
  Impresion.imprimir Mostrador.reloj Mostrador.estante Ejemplo.listas
    Mostrador.catalogo Ejemplo.juan Mostrador.factura
  = Impresion.Devuelve
      ("Factura: 1" +:+ Str.nl
       +:+ "Fecha  : 2024-05-01 12:00:00" +:+ Str.nl
       +:+ "Cliente: Juan Perez (20-12345678-9)" +:+ Str.nl
       +:+ "-  4u Coca Cola                      x $  12.50 = $    50.00" +:+ Str.nl
       +:+ "      20% en bebidas                               - $    10.00" +:+ Str.nl
       +:+ "-  3u Agua                           x $  10.00 = $    30.00" +:+ Str.nl
       +:+ "      20% en bebidas                               - $     6.00" +:+ Str.nl
       +:+ "                                             Subtotal: $    80.00" +:+ Str.nl
       +:+ "                                           Descuentos: $    16.00" +:+ Str.nl
       +:+ "----------------------------------------------------------------" +:+ Str.nl
       +:+ "                                                Total: $    64.00").
Proof. vm_compute. reflexivity. Qed.

(** A number of 4301 digits, which [ultimaFactura] accepts as it accepts
    any, is not printed. *)
Example imprimir_numero_largo :
  let u := (Factura.ultimaFactura (10 ^ 4300 - 1) 0).2 in
  let f := (Factura.init 0%nat 0%nat 0 u).1 in
  Impresion.imprimir Mostrador.reloj Mostrador.estante Ejemplo.listas
    Mostrador.catalogo Ejemplo.juan f
  = Impresion.Levanta (Impresion.Excepcion ValueError).
Proof. vm_compute. reflexivity. Qed.
